(** * RetroSerialHub: a shallow embedding of the transfer engine, the port
    registry, the port worker and the bridge component, with the properties
    stated about them.

    Bytes are integers in [Z] (the Python code manipulates them as ints:
    [sum(chunk) & 0xFF], [0xFF - blk]); byte strings are [list Z]; text is
    [string].  Dictionaries and sets shared between threads are stdpp's
    [gmap] and [gset]. *)

From Stdlib Require Import ZArith Lia Ascii DecimalString.
From stdpp Require Import gmap strings list.

(** ** The serial line seen by one transfer call

    [ser] is opened with [timeout=0]: [ser.read(n)] never blocks and returns
    at most the bytes already received.  The far end is a schedule of
    batches: each evaluation of [ser.in_waiting] first moves the next batch
    (if any) into the receive buffer; once the schedule is empty the line is
    silent.  [time.time()] is a clock in milliseconds advanced by
    [time.sleep] only. *)

Module Files.
Local Open Scope Z_scope.

(** rsh_files.py, lines 27-32. *)
Definition SOH : Z := 0x01.
Definition STX : Z := 0x02.
Definition EOT : Z := 0x04.
Definition ACK : Z := 0x06.
Definition NAK : Z := 0x15.
Definition CAN : Z := 0x18.

(** The texts passed to [_write(ser, ...)], one constructor per message. *)
Inductive notice : Type :=
  | XmodemSendBanner (fname : string)   (* "XMODEM SEND: {fname}" *)
  | WaitingForReceiver                  (* "Waiting for receiver (send NAK)" *)
  | NoReceiver                          (* "No receiver detected. Aborting." *)
  | TransferComplete                    (* "Transfer complete." *)
  | EotNotAcked                         (* "Receiver did not ACK EOT. Transfer ended." *)
  | CancelledByReceiver                 (* "Transfer cancelled by receiver." *)
  | AckNakTimeout                       (* "Timeout waiting for ACK/NAK. Aborting." *)
  | FileNotFound                        (* "File not found." *)
  | XmodemReceiveBanner                 (* "XMODEM RECEIVE: saving to ..." *)
  | UploadComplete                      (* "Upload complete." *)
  | UploadCancelled                     (* "Upload cancelled by sender." *)
  | YmodemSendBanner (fname : string) (fsize : nat)
  | AckTimeout                          (* "Timeout waiting for ACK. Aborting." *)
  | YmodemComplete                      (* "YMODEM transfer complete." *)
  | YmodemError.                        (* "YMODEM error: ..." *)

(** One [ser.write]: a text message or raw bytes. *)
Inductive wr : Type :=
  | Say (n : notice)
  | Raw (bs : list Z).

Record line : Type := Line {
  rx : list Z;                 (* received, not yet read *)
  arrivals : list (list Z);    (* what the far end delivers before each poll *)
  tx : list wr;                (* every write, oldest first *)
  clock : Z;                   (* time.time(), in ms *)
  saved : option (list Z)      (* contents written to dest_path by this call *)
}.

Definition in_waiting (l : line) : nat * line :=
  match arrivals l with
  | [] => (length (rx l), l)
  | batch :: later =>
      (length (rx l ++ batch),
       Line (rx l ++ batch) later (tx l) (clock l) (saved l))
  end.

Definition read (n : nat) (l : line) : list Z * line :=
  (take n (rx l), Line (drop n (rx l)) (arrivals l) (tx l) (clock l) (saved l)).

Definition write (bs : list Z) (l : line) : line :=
  Line (rx l) (arrivals l) (tx l ++ [Raw bs]) (clock l) (saved l).

Definition _write (n : notice) (l : line) : line :=
  Line (rx l) (arrivals l) (tx l ++ [Say n]) (clock l) (saved l).

Definition sleep (ms : Z) (l : line) : line :=
  Line (rx l) (arrivals l) (tx l) (clock l + ms) (saved l).

Definition save (data : list Z) (l : line) : line :=
  Line (rx l) (arrivals l) (tx l) (clock l) (Some data).

(** The raw writes of a log, in order. *)
Fixpoint raw_writes (log : list wr) : list (list Z) :=
  match log with
  | [] => []
  | Raw bs :: log' => bs :: raw_writes log'
  | Say _ :: log' => raw_writes log'
  end.

(** A call returns, lets an exception escape, or is still inside a loop
    when the fuel (the number of loop iterations we are willing to follow)
    is used up. *)
Inductive run : Type :=
  | Returned (l : line)
  | Raised (l : line)
  | Looping (l : line).

(** A loop is left with a value, or is still spinning when the fuel is used
    up. *)
Inductive loop (A : Type) : Type :=
  | Exit (a : A) (l : line)
  | Spin (l : line).
Arguments Exit {A} a l.
Arguments Spin {A} l.

Definition byte_sum (bs : list Z) : Z := foldr Z.add 0 bs.

(** ** xmodem_send (rsh_files.py, lines 158-227) *)

(** Lines 166-174: wait for the receiver's NAK (or ACK). [Exit true] is the
    [break], [Exit false] the [else] of the [while]. *)
Fixpoint wait_receiver (fuel : nat) (start_deadline : Z) (l : line) : loop bool :=
  match fuel with
  | O => Spin l
  | S fuel' =>
      if clock l <? start_deadline then
        let '(n, l1) := in_waiting l in
        if (0 <? n)%nat then
          let '(b, l2) := read 1 l1 in
          match b with
          | c :: _ =>
              if (c =? NAK) || (c =? ACK) then Exit true l2
              else wait_receiver fuel' start_deadline (sleep 50 l2)
          | [] => wait_receiver fuel' start_deadline (sleep 50 l2)
          end
        else wait_receiver fuel' start_deadline (sleep 50 l1)
      else Exit false l
  end.

(** How the wait for a block's reply ends. *)
Inductive reply : Type :=
  | Acked (block_num : Z)   (* break, with the advanced block number *)
  | Cancel                  (* CAN: return *)
  | TimedOut.               (* the while's else *)

(** Lines 208-223 (and 317-332 in ymodem_send, which differs in the text of
    the timeout message only). *)
Fixpoint wait_ack (fuel : nat) (ack_deadline : Z) (pkt : list Z)
    (block_num : Z) (timeout_msg : notice) (l : line) : loop reply :=
  match fuel with
  | O => Spin l
  | S fuel' =>
      if clock l <? ack_deadline then
        let '(n, l1) := in_waiting l in
        if (0 <? n)%nat then
          let '(b, l2) := read 1 l1 in
          match b with
          | c :: _ =>
              if c =? ACK then Exit (Acked (Z.land (block_num + 1) 0xFF)) l2
              else if c =? NAK then
                wait_ack fuel' ack_deadline pkt block_num timeout_msg
                  (sleep 20 (write pkt l2))
              else if c =? CAN then Exit Cancel (_write CancelledByReceiver l2)
              else wait_ack fuel' ack_deadline pkt block_num timeout_msg (sleep 20 l2)
          | [] => wait_ack fuel' ack_deadline pkt block_num timeout_msg (sleep 20 l2)
          end
        else wait_ack fuel' ack_deadline pkt block_num timeout_msg (sleep 20 l1)
      else Exit TimedOut (_write timeout_msg l)
  end.

(** Lines 182-194: after the last chunk. *)
Fixpoint wait_eot (fuel : nat) (end_deadline : Z) (l : line) : run :=
  match fuel with
  | O => Looping l
  | S fuel' =>
      if clock l <? end_deadline then
        let '(n, l1) := in_waiting l in
        if (0 <? n)%nat then
          let '(b, l2) := read 1 l1 in
          match b with
          | c :: _ =>
              if c =? ACK then Returned (_write TransferComplete l2)
              else if c =? NAK then
                wait_eot fuel' end_deadline (sleep 50 (write [EOT] l2))
              else wait_eot fuel' end_deadline (sleep 50 l2)
          | [] => wait_eot fuel' end_deadline (sleep 50 l2)
          end
        else wait_eot fuel' end_deadline (sleep 50 l1)
      else Returned (_write EotNotAcked l)
  end.

(** Line 196-197: a short chunk is filled up to [size] bytes with 0x1A. *)
Definition pad (size : nat) (chunk : list Z) : list Z :=
  if (length chunk <? size)%nat
  then chunk ++ replicate (size - length chunk) 0x1A
  else chunk.

(** Lines 199-205 (and 311-314 with STX). *)
Definition packet (start : Z) (block_num : Z) (chunk : list Z) : list Z :=
  [start; Z.land block_num 0xFF; 0xFF - Z.land block_num 0xFF]
    ++ chunk ++ [Z.land (byte_sum chunk) 0xFF].

(** Lines 179-223: [f] is what is left of the open file. *)
Fixpoint send_blocks (fuel : nat) (f : list Z) (block_num : Z) (l : line) : run :=
  match fuel with
  | O => Looping l
  | S fuel' =>
      let chunk := take 128 f in
      match chunk with
      | [] =>
          let l1 := write [EOT] l in
          wait_eot fuel' (clock l1 + 10000) l1
      | _ :: _ =>
          let chunk := pad 128 chunk in
          let pkt := packet SOH block_num chunk in
          let l1 := write pkt l in
          match wait_ack fuel' (clock l1 + 10000) pkt block_num AckNakTimeout l1 with
          | Spin l2 => Looping l2
          | Exit (Acked block_num') l2 => send_blocks fuel' (drop 128 f) block_num' l2
          | Exit Cancel l2 => Returned l2
          | Exit TimedOut l2 => Returned l2
          end
      end
  end.

(** [file] is the contents at [file_path], [None] when it does not exist. *)
Definition xmodem_send (fuel : nat) (fname : string) (file : option (list Z))
    (l : line) : run :=
  let l0 := _write (XmodemSendBanner fname) l in
  let start_deadline := clock l0 + 20000 in
  let l1 := _write WaitingForReceiver l0 in
  match wait_receiver fuel start_deadline l1 with
  | Spin l2 => Looping l2
  | Exit false l2 => Returned (_write NoReceiver l2)
  | Exit true l2 =>
      match file with
      | None => Returned (_write FileNotFound l2)
      | Some f => send_blocks fuel f 1 l2
      end
  end.

(** ** xmodem_receive (rsh_files.py, lines 230-270) *)

(** Lines 261-262: drop trailing 0x1A bytes, one per iteration; the loop
    runs at most [length received] times. *)
Fixpoint strip_filler (n : nat) (received : list Z) : list Z :=
  match n with
  | O => received
  | S n' =>
      match last received with
      | Some c => if c =? 0x1A then strip_filler n' (removelast received) else received
      | None => received
      end
  end.

(** Lines 236-270. *)
Fixpoint receive_loop (fuel : nat) (block_num : Z) (received : list Z)
    (l : line) : run :=
  match fuel with
  | O => Looping l
  | S fuel' =>
      let '(n, l1) := in_waiting l in
      if (0 <? n)%nat then
        let '(b, l2) := read 1 l1 in
        match b with
        | [] => receive_loop fuel' block_num received l2
        | c :: _ =>
            if c =? SOH then
              let '(pkt, l3) := read 131 l2 in
              if (length pkt <? 131)%nat then
                receive_loop fuel' block_num received (write [NAK] l3)
              else
                let blk := nth 0 pkt 0 in
                let nblk := nth 1 pkt 0 in
                let data := removelast (drop 2 pkt) in
                let checksum := List.last pkt 0 in
                if negb (blk =? Z.land block_num 0xFF) || negb (nblk =? 0xFF - blk) then
                  receive_loop fuel' block_num received (write [NAK] l3)
                else if negb (Z.land (byte_sum data) 0xFF =? checksum) then
                  receive_loop fuel' block_num received (write [NAK] l3)
                else
                  receive_loop fuel' (Z.land (block_num + 1) 0xFF)
                    (received ++ data) (write [ACK] l3)
            else if c =? EOT then
              let l3 := write [ACK] l2 in
              let received := strip_filler (length received) received in
              Returned (_write UploadComplete (save received l3))
            else if c =? CAN then
              Returned (_write UploadCancelled l2)
            else receive_loop fuel' block_num received l2
        end
      else receive_loop fuel' block_num received l1
  end.

Definition xmodem_receive (fuel : nat) (l : line) : run :=
  let l0 := _write XmodemReceiveBanner l in
  receive_loop fuel 1 [] (write [NAK] l0).

(** ** ymodem_send (rsh_files.py, lines 273-344) *)

(** [s.encode("ascii")]: the code points, or [None] (UnicodeEncodeError)
    when one of them is above 127. *)
Definition encode_ascii (s : string) : option (list Z) :=
  let codes := map (fun c => Z.of_nat (nat_of_ascii c)) (String.list_ascii_of_string s) in
  if forallb (fun c => c <? 128) codes then Some codes else None.

(** Lines 279-280: [f"{fname}\0{fsize}"] encoded and zero-filled to 128
    bytes; [bytes(n)] raises ValueError for a negative [n]. *)
Definition ymodem_header (fname : string) (fsize : nat) : option (list Z) :=
  match encode_ascii fname, encode_ascii (NilZero.string_of_uint (Nat.to_uint fsize)) with
  | Some name, Some size =>
      let header := name ++ [0] ++ size in
      if (128 <? length header)%nat then None
      else Some (header ++ replicate (128 - length header) 0)
  | _, _ => None
  end.

(** Lines 285-294: wait for NAK or 'C', then send the header packet. *)
Fixpoint wait_receiver_y (fuel : nat) (start_deadline : Z) (pkt0 : list Z)
    (l : line) : loop bool :=
  match fuel with
  | O => Spin l
  | S fuel' =>
      if clock l <? start_deadline then
        let '(n, l1) := in_waiting l in
        if (0 <? n)%nat then
          let '(b, l2) := read 1 l1 in
          match b with
          | c :: _ =>
              if (c =? NAK) || (c =? 67) then Exit true (write pkt0 l2)
              else wait_receiver_y fuel' start_deadline pkt0 (sleep 50 l2)
          | [] => wait_receiver_y fuel' start_deadline pkt0 (sleep 50 l2)
          end
        else wait_receiver_y fuel' start_deadline pkt0 (sleep 50 l1)
      else Exit false l
  end.

(** Lines 296-301 and 335-340: [while True] until an ACK is read. *)
Fixpoint await_ack (fuel : nat) (l : line) : loop unit :=
  match fuel with
  | O => Spin l
  | S fuel' =>
      let '(n, l1) := in_waiting l in
      if (0 <? n)%nat then
        let '(b, l2) := read 1 l1 in
        match b with
        | c :: _ => if c =? ACK then Exit tt l2 else await_ack fuel' (sleep 50 l2)
        | [] => await_ack fuel' (sleep 50 l2)
        end
      else await_ack fuel' (sleep 50 l1)
  end.

(** Lines 304-332: [Exit true] is the [break] at end of file, [Exit false]
    a [return] out of ymodem_send. *)
Fixpoint send_blocks_y (fuel : nat) (f : list Z) (block_num : Z) (l : line)
  : loop bool :=
  match fuel with
  | O => Spin l
  | S fuel' =>
      let chunk := take 1024 f in
      match chunk with
      | [] => Exit true l
      | _ :: _ =>
          let chunk := pad 1024 chunk in
          let pkt := packet STX block_num chunk in
          let l1 := write pkt l in
          match wait_ack fuel' (clock l1 + 10000) pkt block_num AckTimeout l1 with
          | Spin l2 => Spin l2
          | Exit (Acked block_num') l2 => send_blocks_y fuel' (drop 1024 f) block_num' l2
          | Exit Cancel l2 => Exit false l2
          | Exit TimedOut l2 => Exit false l2
          end
      end
  end.

(** [os.path.getsize] raises, outside the [try], when the file is missing. *)
Definition ymodem_send (fuel : nat) (fname : string) (file : option (list Z))
    (l : line) : run :=
  match file with
  | None => Raised l
  | Some f =>
      let fsize := length f in
      let l0 := _write (YmodemSendBanner fname fsize) l in
      match ymodem_header fname fsize with
      | None => Returned (_write YmodemError l0)
      | Some header =>
          let pkt0 := [SOH; 0x00; 0xFF] ++ header ++ [Z.land (byte_sum header) 0xFF] in
          match wait_receiver_y fuel (clock l0 + 20000) pkt0 l0 with
          | Spin l1 => Looping l1
          | Exit false l1 => Returned (_write NoReceiver l1)
          | Exit true l1 =>
              match await_ack fuel l1 with
              | Spin l2 => Looping l2
              | Exit _ l2 =>
                  match send_blocks_y fuel f 1 l2 with
                  | Spin l3 => Looping l3
                  | Exit false l3 => Returned l3
                  | Exit true l3 =>
                      match await_ack fuel (write [EOT] l3) with
                      | Spin l4 => Looping l4
                      | Exit _ l4 => Returned (_write YmodemComplete l4)
                      end
                  end
              end
          end
      end
  end.

(** ** What the frames should be, in the words of the protocol description *)

(** Number of 128-byte chunks of a file. *)
Definition nblocks (f : list Z) : nat := ((length f + 127) / 128)%nat.

(** The [k]-th chunk, counting from 0. *)
Definition chunk_at (k : nat) (f : list Z) : list Z := take 128 (drop (128 * k) f).

(** The 128 data bytes of the [k]-th frame: the chunk, then 0x1A filler. *)
Definition data_at (k : nat) (f : list Z) : list Z :=
  chunk_at k f ++ replicate (128 - length (chunk_at k f)) 0x1A.

(** SOH, block number mod 256, 255 minus that, 128 data bytes, checksum.
    The first block is number 1. *)
Definition frame_at (f : list Z) (k : nat) : list Z :=
  [SOH; Z.of_nat (k + 1) mod 256; 255 - Z.of_nat (k + 1) mod 256]
    ++ data_at k f ++ [byte_sum (data_at k f) mod 256].

(** A receiver that answers at once: NAK to start, then ACK for every block
    and for EOT. *)
Definition acking (f : list Z) : list (list Z) :=
  [NAK] :: replicate (S (nblocks f)) [ACK].

(** The packets and the payload produced for the first [n] chunks of what is
    left of a file, starting at block number [block_num]: the loop of
    [send_blocks] with every block acknowledged. *)
Fixpoint frames_from (n : nat) (block_num : Z) (f : list Z) : list (list Z) :=
  match n with
  | O => []
  | S n' =>
      packet SOH block_num (pad 128 (take 128 f))
        :: frames_from n' (Z.land (block_num + 1) 0xFF) (drop 128 f)
  end.

Fixpoint payload_from (n : nat) (f : list Z) : list Z :=
  match n with
  | O => []
  | S n' => pad 128 (take 128 f) ++ payload_from n' (drop 128 f)
  end.

(** *** What a receiver has read, in the words of the protocol *)

(** Everything the far end has delivered and will deliver, in order. *)
Definition pending (l : line) : list Z := rx l ++ concat (arrivals l).

(** What one turn of the receive loop takes from the line: a byte that is
    no command, or SOH with the bytes that were there to be read after it
    (131 when the frame has arrived in full). *)
Inductive item : Type :=
  | Skipped (c : Z)
  | Frame (pkt : list Z).

Definition legal (it : item) : bool :=
  match it with
  | Skipped c => negb ((c =? SOH) || (c =? EOT) || (c =? CAN))
  | Frame pkt => (length pkt <=? 131)%nat
  end.

Definition bytes_of (it : item) : list Z :=
  match it with
  | Skipped c => [c]
  | Frame pkt => SOH :: pkt
  end.

(** The frame is the one the protocol asks for: the packet numbered
    [block_num] over its own 128 data bytes. *)
Definition expected (block_num : Z) (pkt : list Z) : bool :=
  bool_decide (SOH :: pkt = packet SOH block_num (take 128 (drop 2 pkt))).

(** The data of the expected frames among [items], the first of which is to
    carry the number [block_num]. *)
Fixpoint payload (block_num : Z) (items : list item) : list Z :=
  match items with
  | [] => []
  | Skipped _ :: rest => payload block_num rest
  | Frame pkt :: rest =>
      if expected block_num pkt
      then take 128 (drop 2 pkt) ++ payload ((block_num + 1) mod 256) rest
      else payload block_num rest
  end.

(** The answers they are due: ACK for an expected frame, NAK for any
    other. *)
Fixpoint replies (block_num : Z) (items : list item) : list wr :=
  match items with
  | [] => []
  | Skipped _ :: rest => replies block_num rest
  | Frame pkt :: rest =>
      if expected block_num pkt
      then Raw [ACK] :: replies ((block_num + 1) mod 256) rest
      else Raw [NAK] :: replies block_num rest
  end.

(** Number of 1024-byte chunks of a file (ymodem_send). *)
Definition nblocks_y (f : list Z) : nat := ((length f + 1023) / 1024)%nat.

(** A line on which the given batches will arrive, with nothing received or
    sent yet. *)
Definition fresh (batches : list (list Z)) : line := Line [] batches [] 0 None.

Definition file150 : list Z := map Z.of_nat (seq 0 150).

End Files.


(** ** Python's str methods, on ASCII text *)

Module Text.
Local Open Scope nat_scope.

(** The ASCII characters that [str.strip()] removes. *)
Definition is_space (c : ascii) : bool :=
  let n := nat_of_ascii c in
  ((9 <=? n) && (n <=? 13)) || ((28 <=? n) && (n <=? 32)).

Fixpoint lstrip (s : string) : string :=
  match s with
  | EmptyString => EmptyString
  | String c r => if is_space c then lstrip r else s
  end.

Fixpoint rstrip (s : string) : string :=
  match s with
  | EmptyString => EmptyString
  | String c r =>
      match rstrip r with
      | EmptyString => if is_space c then EmptyString else String c EmptyString
      | r' => String c r'
      end
  end.

Definition strip (s : string) : string := rstrip (lstrip s).

Definition upper_char (c : ascii) : ascii :=
  let n := nat_of_ascii c in
  if (97 <=? n) && (n <=? 122) then ascii_of_nat (n - 32) else c.

Fixpoint upper (s : string) : string :=
  match s with
  | EmptyString => EmptyString
  | String c r => String (upper_char c) (upper r)
  end.

(** [needle in hay]. *)
Fixpoint contains (needle hay : string) : bool :=
  String.prefix needle hay
  || match hay with
     | EmptyString => false
     | String _ r => contains needle r
     end.

Definition digit_of (c : ascii) : option Z :=
  let n := nat_of_ascii c in
  if (48 <=? n) && (n <=? 57) then Some (Z.of_nat (n - 48)) else None.

Inductive lex : Type := Start | Digit | Under.

(** Decimal digits, with single underscores allowed between digits. *)
Fixpoint int_digits (st : lex) (acc : Z) (s : string) : option Z :=
  match s with
  | EmptyString => match st with Digit => Some acc | _ => None end
  | String c r =>
      match digit_of c with
      | Some d => int_digits Digit (10 * acc + d)%Z r
      | None =>
          if Ascii.eqb c "_"
          then match st with Digit => int_digits Under acc r | _ => None end
          else None
      end
  end.

(** [int(txt)]: [None] stands for ValueError. *)
Definition int_of_text (txt : string) : option Z :=
  match strip txt with
  | String "-" r => option_map Z.opp (int_digits Start 0%Z r)
  | String "+" r => int_digits Start 0%Z r
  | s => int_digits Start 0%Z s
  end.

(** [f"{n}"] for an integer. *)
Definition text_of_int (n : Z) : string := NilZero.string_of_int (Z.to_int n).

(** *** Text that has just been decoded: a [str] as its code points *)

(** The characters that [str.strip()] removes: those of [is_space] and the
    spaces and separators above U+007F. *)
Definition is_space_u (c : Z) : bool :=
  (((0x09 <=? c) && (c <=? 0x0D)) || ((0x1C <=? c) && (c <=? 0x20))
   || (c =? 0x85) || (c =? 0xA0) || (c =? 0x1680)
   || ((0x2000 <=? c) && (c <=? 0x200A))
   || (c =? 0x2028) || (c =? 0x2029) || (c =? 0x202F) || (c =? 0x205F)
   || (c =? 0x3000))%Z.

Fixpoint lstrip_u (cps : list Z) : list Z :=
  match cps with
  | [] => []
  | c :: r => if is_space_u c then lstrip_u r else cps
  end.

Definition strip_u (cps : list Z) : list Z := rev (lstrip_u (rev (lstrip_u cps))).

(** The text as a [string], when every character of it is ASCII. *)
Fixpoint ascii_text (cps : list Z) : option string :=
  match cps with
  | [] => Some EmptyString
  | c :: r =>
      if ((0 <=? c) && (c <? 128))%Z
      then option_map (String (ascii_of_nat (Z.to_nat c))) (ascii_text r)
      else None
  end.

End Text.

(** ** The port registry and the port worker (RETRO_SERIAL_HUB.py) *)

Module Hub.
Import Text.

(** A [serial.Serial] object is known by its identity. *)
Definition handle : Type := nat.

(** The value stored in ACTIVE_PORTS: [{'thread': name, 'serial': ser}]. *)
Record owner : Type := Owner { thread : string; serial : handle }.

(** Lines 30-33, with what the process knows about its serial objects: which
    of them have been closed, and what was written to each. *)
Record hub : Type := HubState {
  ACTIVE_PORTS : gmap string owner;
  SURRENDERED_PORTS : gset string;
  closed : gset handle;
  sent : list (handle * list Z)
}.

Definition boot : hub := HubState ∅ ∅ ∅ [].

(** The statements that touch the registry, one constructor per statement. *)
Inductive op : Type :=
  | Register (port : string) (name : string) (ser : handle)
      (* port_worker, line 253 *)
  | Unregister (port : string)
      (* port_worker, lines 260 and 273 *)
  | SurrenderAdd (port : string)
      (* rsh_bridge.handle_input, line 202: surrendered.add *)
  | SurrenderClose (ser : handle)
      (* rsh_bridge.handle_input, line 204: owner_ser.close() *)
  | SurrenderPop (port : string)
      (* rsh_bridge.handle_input, line 207: active.pop *)
  | Restore (port : string).
      (* rsh_bridge.handle_input_runtime, line 349: discard *)

Definition exec (o : op) (h : hub) : hub :=
  match o with
  | Register port name ser =>
      HubState (<[port := Owner name ser]> (ACTIVE_PORTS h))
        (SURRENDERED_PORTS h) (closed h) (sent h)
  | Unregister port | SurrenderPop port =>
      HubState (delete port (ACTIVE_PORTS h)) (SURRENDERED_PORTS h) (closed h) (sent h)
  | SurrenderAdd port =>
      HubState (ACTIVE_PORTS h) ({[port]} ∪ SURRENDERED_PORTS h) (closed h) (sent h)
  | SurrenderClose ser =>
      HubState (ACTIVE_PORTS h) (SURRENDERED_PORTS h) ({[ser]} ∪ closed h) (sent h)
  | Restore port =>
      HubState (ACTIVE_PORTS h) (SURRENDERED_PORTS h ∖ {[port]}) (closed h) (sent h)
  end.

Definition execs (os : list op) (h : hub) : hub := foldl (fun h o => exec o h) h os.

Definition owned (port : string) (h : hub) : Prop := is_Some (ACTIVE_PORTS h !! port).
Definition surrendered (port : string) (h : hub) : Prop := port ∈ SURRENDERED_PORTS h.

(** *** port_worker (lines 236-286) *)

Inductive exn : Type :=
  | SerialException (msg : string)
  | OtherException (msg : string).

(** Where a worker stands. *)
Inductive phase : Type :=
  | AtOpen                      (* about to call serial.Serial(...) *)
  | InSession (ser : handle)    (* inside bridge_loop *)
  | WaitRestore                 (* in the [while port in SURRENDERED_PORTS] *)
  | Stopped.                    (* returned *)

(** What happens next to a worker: the outcome of its open, the end of its
    bridge_loop, one evaluation of the wait loop's test, or a registry
    statement run by another thread. *)
Inductive event : Type :=
  | Open (ser : handle)
  | OpenFails (e : exn)
  | SessionReturns
  | SessionRaises (e : exn)
  | Poll
  | Elsewhere (o : op).

Record worker : Type := Worker {
  at_ : phase;
  opened : nat;                 (* successful opens so far *)
  slept : Z;                    (* seconds spent in time.sleep *)
  world : hub
}.

(** Line 265. *)
Definition not_present (msg : string) : bool :=
  contains "FileNotFoundError" msg || contains "cannot find the file" msg.

(** Lines 263-286: the two [except] clauses. *)
Definition on_exception (port : string) (e : exn) (w : worker) : worker :=
  match e with
  | SerialException msg =>
      if not_present msg then Worker Stopped (opened w) (slept w) (world w)
      else if bool_decide (upper port ∈ SURRENDERED_PORTS (world w)) then
        Worker WaitRestore (opened w) (slept w) (exec (Unregister (upper port)) (world w))
      else Worker AtOpen (opened w) (slept w + 5) (world w)
  | OtherException _ => Worker AtOpen (opened w) (slept w + 5) (world w)
  end.

Definition step (name port : string) (ev : event) (w : worker) : worker :=
  match ev, at_ w with
  | Elsewhere o, _ => Worker (at_ w) (opened w) (slept w) (exec o (world w))
  | Open ser, AtOpen =>
      Worker (InSession ser) (S (opened w)) (slept w)
        (exec (Register (upper port) name ser) (world w))
  | OpenFails e, AtOpen => on_exception port e w
  | SessionReturns, InSession _ =>
      Worker AtOpen (opened w) (slept w) (exec (Unregister (upper port)) (world w))
  | SessionRaises e, InSession _ => on_exception port e w
  | Poll, WaitRestore =>
      if bool_decide (upper port ∈ SURRENDERED_PORTS (world w))
      then Worker WaitRestore (opened w) (slept w + 1) (world w)
      else Worker AtOpen (opened w) (slept w + 1) (world w)
  | _, _ => w
  end.

Definition port_worker (name port : string) (evs : list event) (h : hub) : worker :=
  foldl (fun w ev => step name port ev w) (Worker AtOpen 0 0 h) evs.

(** Two failures as pyserial words them on Windows: a port lost while in
    use, and a port that is not there when opened. *)
Definition port_lost : exn :=
  SerialException "ClearCommError failed (PermissionError(13, 'Access is denied.', None, 5))".
Definition port_gone : exn :=
  SerialException "could not open port 'COM6': FileNotFoundError(2, 'The system cannot find the file specified.', None, 2)".

(** The process once the worker IBM has opened COM3. *)
Definition com3_open : hub := world (port_worker "IBM" "COM3" [Open 7] boot).

(** The process while COM3 is bridged: surrendered, its worker's serial
    object closed. *)
Definition com3_bridged : hub := HubState ∅ {["COM3"]} {[7]} [].

End Hub.

(** ** The bridge component (rsh_bridge.py) *)

Module Bridge.
Import Text Hub.
Local Open Scope Z_scope.

(** [bytes.replace(old, new)] for a non-empty [old]: scan from the left;
    where [old] starts, emit [new] and skip it. *)
Fixpoint starts_with (old s : list Z) : bool :=
  match old, s with
  | [], _ => true
  | _ :: _, [] => false
  | a :: old', b :: s' => (a =? b) && starts_with old' s'
  end.

Fixpoint replace_from (skip : nat) (old new s : list Z) : list Z :=
  match s with
  | [] => []
  | b :: rest =>
      match skip with
      | S k => replace_from k old new rest
      | O =>
          if starts_with old s
          then new ++ replace_from (length old - 1) old new rest
          else b :: replace_from 0 old new rest
      end
  end.

Definition replace (old new s : list Z) : list Z := replace_from 0 old new s.

Definition CR : Z := 13.
Definition LF : Z := 10.

(** Lines 294 and 376: the chain of three replacements. *)
Definition crlf_chain (data : list Z) : list Z :=
  replace [CR] [CR; LF] (replace [LF] [CR; LF] (replace [CR; LF] [CR; LF] data)).

Definition is_newline (b : Z) : bool := (b =? CR) || (b =? LF).

(** What the chain makes of one byte (see [crlf_chain_expand]). *)
Definition expand (b : Z) : list Z :=
  if b =? CR then [CR; LF] else if b =? LF then [CR; LF; LF] else [b].

(** The texts rsh_bridge writes to the local line. *)
Inductive notice : Type :=
  | Intro                         (* _render_intro *)
  | InvalidPortNumber
  | AskBaud | InvalidBaud
  | AskDataBits | InvalidDataBits
  | AskStopBits | InvalidStopBits
  | AskParity | InvalidParity
  | AskXonXoff | InvalidXonXoff
  | AskRtsCts | InvalidRtsCts
  | TakingOver (port_name : string)
  | UnableToOpen (port_name : string)
  | PressAnyKey.

(** [sess['values']]: a field is [None] until its stage has stored it. *)
Record values : Type := Values {
  port_num : option Z;
  baud : option Z;
  data_bits : option Z;
  stop_bits : option Z;
  parity : option ascii;
  xonxoff : option bool;
  rtscts : option bool
}.

Definition no_values : values := Values None None None None None None None.

(** The prompt session of [create_session]. [active_ports] and
    [surrendered_ports] say whether the session was given a reference to the
    hub's ACTIVE_PORTS and SURRENDERED_PORTS (the objects themselves are
    shared and live in [hub]). *)
Record session : Type := Session {
  stage : nat;
  vals : values;
  active_ports : bool;
  surrendered_ports : bool
}.

Definition create_session (active surrendered : bool) : session * list notice :=
  (Session 0 no_values active surrendered, [Intro]).

(** An opened [serial.Serial]: its identity and its [port] attribute. *)
Record Serial : Type := SerialObj { ident : handle; port : string }.

Inductive action : Type :=
  | NoAction                                            (* None *)
  | OPEN_BRIDGE (bridge_serial : Serial) (port_name : string)
  | GoMenu.                                             (* 'MENU' *)

(** The outcome of one [serial.Serial(...)] call. *)
Inductive open_result : Type :=
  | Opened (ser : handle)
  | Refused.

(** What a call leaves behind. *)
Record effect : Type := Effect {
  act : action;
  after : session;
  reg : hub;
  said : list notice;
  backoffs : nat           (* number of time.sleep(0.25) *)
}.

Definition set_stage (n : nat) (s : session) : session :=
  Session n (vals s) (active_ports s) (surrendered_ports s).

Definition set_vals (v : values) (s : session) : session :=
  Session (stage s) v (active_ports s) (surrendered_ports s).

(** A stage that stays where it is after an invalid answer. *)
Definition again (s : session) (h : hub) (n : notice) : effect :=
  Effect NoAction s h [n] 0.

(** A stage that stores its value and asks for the next one. *)
Definition advance (s : session) (h : hub) (v : values) (next : nat) (n : notice) : effect :=
  Effect NoAction (Session next v (active_ports s) (surrendered_ports s)) h [n] 0.

(** [txt[0]] of a non-empty text. *)
Definition first_char (txt : string) : option ascii :=
  match txt with
  | EmptyString => None
  | String c _ => Some c
  end.

(** Lines 192-209: the take-over, for this session's references. *)
Definition take_over_ops (s : session) (port : string) (h : hub) : list op :=
  if active_ports s then
    match ACTIVE_PORTS h !! port with
    | Some o =>
        (if surrendered_ports s then [SurrenderAdd port] else [])
          ++ [SurrenderClose (serial o); SurrenderPop port]
    | None => []
    end
  else [].

(** Lines 214-221. *)
Definition port_to_open (nt : bool) (port_name : string) (pn : Z) : string :=
  if nt && (10 <=? pn) then "\\.\\" +:+ port_name else port_name.

(** Lines 223-242: up to six attempts; [try_open k] is what the [k]-th call
    of [serial.Serial] does.  Returns the opened object, if any, and the
    number of failed attempts. *)
Fixpoint open_loop (attempts : nat) (k : nat) (try_open : nat -> open_result)
  : option handle * nat :=
  match attempts with
  | O => (None, O)
  | S attempts' =>
      match try_open k with
      | Opened ser => (Some ser, O)
      | Refused =>
          let '(r, n) := open_loop attempts' (S k) try_open in (r, S n)
      end
  end.

(** Lines 244-255: report, and start again from the first field. *)
Definition open_failed (s : session) (h : hub) (port_name : string)
    (before : list notice) (naps : nat) : effect :=
  Effect NoAction (set_stage 0 s) h
    (before ++ [UnableToOpen port_name; PressAnyKey; Intro]) naps.

(** Lines 174-258, once [rtscts] has been stored in [v]. *)
Definition open_requested (nt : bool) (try_open : nat -> open_result)
    (s : session) (v : values) (pn : Z) (h : hub) : effect :=
  let s := set_vals v s in
  let port_name := "COM" +:+ text_of_int pn in
  match data_bits v, parity v, stop_bits v with
  | Some _, Some _, Some _ =>
      let ops := take_over_ops s (upper port_name) h in
      let before :=
        match ops with [] => [] | _ :: _ => [TakingOver port_name] end in
      let h1 := execs ops h in
      match baud v, xonxoff v, rtscts v with
      | Some _, Some _, Some _ =>
          match open_loop 6 0 try_open with
          | (Some ser, naps) =>
              Effect (OPEN_BRIDGE (SerialObj ser (port_to_open nt port_name pn)) port_name)
                s h1 before naps
          | (None, naps) => open_failed s h1 port_name before naps
          end
      | _, _, _ => open_failed s h1 port_name before 6
      end
  | _, _, _ => open_failed s h port_name [] 0
  end.

(** handle_input (lines 51-262). [None] is the KeyError of line 175, which
    is outside the [try]. *)
Definition handle_input (nt : bool) (try_open : nat -> open_result)
    (s : session) (line_str : string) (h : hub) : option effect :=
  let v := vals s in
  match stage s with
  | 0%nat =>
      let txt := strip line_str in
      let stored p :=
        advance s h (Values (Some p) (baud v) (data_bits v) (stop_bits v)
                       (parity v) (xonxoff v) (rtscts v)) 1 AskBaud in
      if bool_decide (txt = "") then Some (stored 1)
      else match int_of_text txt with
           | Some p => if p <=? 0 then Some (again s h InvalidPortNumber)
                       else Some (stored p)
           | None => Some (again s h InvalidPortNumber)
           end
  | 1%nat =>
      let txt := strip line_str in
      let stored b :=
        advance s h (Values (port_num v) (Some b) (data_bits v) (stop_bits v)
                       (parity v) (xonxoff v) (rtscts v)) 2 AskDataBits in
      if bool_decide (txt = "") then Some (stored 115200)
      else match int_of_text txt with
           | Some b => Some (stored b)
           | None => Some (again s h InvalidBaud)
           end
  | 2%nat =>
      let txt := strip line_str in
      let stored d :=
        advance s h (Values (port_num v) (baud v) (Some d) (stop_bits v)
                       (parity v) (xonxoff v) (rtscts v)) 3 AskStopBits in
      if bool_decide (txt = "") then Some (stored 8)
      else match int_of_text txt with
           | Some d => if (d =? 7) || (d =? 8) then Some (stored d)
                       else Some (again s h InvalidDataBits)
           | None => Some (again s h InvalidDataBits)
           end
  | 3%nat =>
      let txt := strip line_str in
      let stored b :=
        advance s h (Values (port_num v) (baud v) (data_bits v) (Some b)
                       (parity v) (xonxoff v) (rtscts v)) 4 AskParity in
      if bool_decide (txt = "") then Some (stored 1)
      else match int_of_text txt with
           | Some b => if (b =? 1) || (b =? 2) then Some (stored b)
                       else Some (again s h InvalidStopBits)
           | None => Some (again s h InvalidStopBits)
           end
  | 4%nat =>
      let txt := upper (strip line_str) in
      let stored c :=
        advance s h (Values (port_num v) (baud v) (data_bits v) (stop_bits v)
                       (Some c) (xonxoff v) (rtscts v)) 5 AskXonXoff in
      match first_char txt with
      | None => Some (stored "N"%char)
      | Some c =>
          if Ascii.eqb c "O" || Ascii.eqb c "E" || Ascii.eqb c "N"
          then Some (stored c) else Some (again s h InvalidParity)
      end
  | 5%nat =>
      let txt := upper (strip line_str) in
      let stored x :=
        advance s h (Values (port_num v) (baud v) (data_bits v) (stop_bits v)
                       (parity v) (Some x) (rtscts v)) 6 AskRtsCts in
      match first_char txt with
      | None => Some (stored false)
      | Some c =>
          if Ascii.eqb c "Y" then Some (stored true)
          else if Ascii.eqb c "N" then Some (stored false)
          else Some (again s h InvalidXonXoff)
      end
  | 6%nat =>
      let txt := upper (strip line_str) in
      let stored r :=
        let v' := Values (port_num v) (baud v) (data_bits v) (stop_bits v)
                    (parity v) (xonxoff v) (Some r) in
        match port_num v with
        | None => None
        | Some pn => Some (open_requested nt try_open s v' pn h)
        end in
      match first_char txt with
      | None => stored false
      | Some c =>
          if Ascii.eqb c "Y" then stored true
          else if Ascii.eqb c "N" then stored false
          else Some (again s h InvalidRtsCts)
      end
  | _ => Some (Effect NoAction s h [Intro] 0)
  end.

(** *** The runtime session (lines 266-387) *)

Record runtime : Type := Runtime {
  bridge_serial : option Serial;
  port_name_ : string;
  r_active_ports : bool;
  r_surrendered_ports : bool
}.

Definition create_runtime_session (bs : Serial) (port_name : string)
    (active surrendered : bool) : runtime :=
  Runtime (Some bs) port_name active surrendered.

Definition close_serial (ser : handle) (h : hub) : hub := exec (SurrenderClose ser) h.

(** [bs.write(out)]: raises on a closed port. *)
Definition bs_write (bs : Serial) (out : list Z) (h : hub) : option hub :=
  if bool_decide (ident bs ∈ closed h) then None
  else Some (HubState (ACTIVE_PORTS h) (SURRENDERED_PORTS h) (closed h)
               (sent h ++ [(ident bs, out)])).

Definition drop_bridge (r : runtime) : runtime :=
  Runtime None (port_name_ r) (r_active_ports r) (r_surrendered_ports r).

(** handle_raw_input (lines 284-303). *)
Definition handle_raw_input (r : runtime) (data : list Z) (h : hub)
  : bool * runtime * hub :=
  match bridge_serial r with
  | None => (false, r, h)
  | Some bs =>
      match bs_write bs (crlf_chain data) h with
      | Some h' => (true, r, h')
      | None => (false, drop_bridge r, close_serial (ident bs) h)
      end
  end.

(** The bytes of a text, [str.encode]. *)
Definition encode (s : string) : list Z :=
  map (fun c => Z.of_nat (nat_of_ascii c)) (String.list_ascii_of_string s).

(** handle_input_runtime (lines 327-387). *)
Definition handle_input_runtime (r : runtime) (line_str : string)
    (raw_line : option (list Z)) (h : hub) : action * runtime * hub :=
  match bridge_serial r with
  | None => (GoMenu, r, h)
  | Some bs =>
      if bool_decide (upper (strip line_str) = "ATH") then
        let pname := upper (port bs) in
        let h1 :=
          if negb (bool_decide (port bs = ""))
             && r_surrendered_ports r
             && negb (bool_decide (SURRENDERED_PORTS h = ∅))
             && bool_decide (pname ∈ SURRENDERED_PORTS h)
          then exec (Restore pname) (close_serial (ident bs) h)
          else h in
        (GoMenu, drop_bridge r, close_serial (ident bs) h1)
      else
        let out :=
          if bool_decide (line_str = "") then [CR; LF]
          else match raw_line with
               | Some raw => crlf_chain raw ++ [CR; LF]
               | None => encode line_str ++ [CR; LF]
               end in
        match bs_write bs out h with
        | Some h' => (NoAction, r, h')
        | None => (GoMenu, drop_bridge r, close_serial (ident bs) h)
        end
  end.

End Bridge.

(** ** The session loop (bridge_loop, RETRO_SERIAL_HUB.py lines 288-1072)

    The part modelled is what a session does with bytes read from its own
    line: the echo, the raw forwarding of bridge-runtime mode, the assembly
    of lines and their dispatch to the global ATM command, to the main menu
    entry of the bridge, and to the bridge's prompt and runtime handlers.
    The other modes load other modules; a step that enters them, or that
    waits for a key, is [NotModelled].  Writes to the session's own line are
    taken to succeed. *)

Module Loop.
Import Text Hub Bridge.
Local Open Scope Z_scope.

Inductive mode : Type :=
  | MENU | BBS | FILES | TEXT | URL | NOTES | WARGAMES | AI
  | COMBRIDGE_PROMPT | COMBRIDGE.

(** What the variable [bridge_session] holds: the prompt session created for
    menu entry 6 (the same object as [pending_bridge]), or a runtime
    session. *)
Inductive bridge_var : Type :=
  | PromptAlias
  | Live (r : runtime).

Definition socket : Type := nat.

(** What the session writes to its own line. *)
Inductive shown : Type :=
  | Echo (data : list Z)
  | MainMenu                       (* show_main_menu *)
  | Disconnecting                  (* "Disconnecting..." *)
  | OwnPortSurrendered             (* "This session's COM port was surrendered ..." *)
  | InvalidCommand
  | Routing (port_name : string)   (* "Routing {port_name} <-> this session. ..." *)
  | BridgeWriteFailed              (* "*** COM bridge write failed ***" *)
  | FromBridge (n : notice).

(** The local variables of bridge_loop together with the process state. *)
Record state : Type := State {
  ser : Serial;                        (* the session's own line *)
  cur : mode;                          (* mode *)
  tcp_sock : option socket;
  bridge_session : option bridge_var;
  pending_bridge : option session;
  input_buffer : list Z;
  screen : list shown;
  closed_sockets : gset socket;
  process : hub
}.

Inductive result : Type :=
  | Continue (st : state)    (* the loop goes on *)
  | Return (st : state)      (* bridge_loop returns *)
  | NotModelled.

Definition show (xs : list shown) (st : state) : state :=
  State (ser st) (cur st) (tcp_sock st) (bridge_session st) (pending_bridge st)
    (input_buffer st) (screen st ++ xs) (closed_sockets st) (process st).

Definition with_process (h : hub) (st : state) : state :=
  State (ser st) (cur st) (tcp_sock st) (bridge_session st) (pending_bridge st)
    (input_buffer st) (screen st) (closed_sockets st) h.

Definition with_mode (m : mode) (st : state) : state :=
  State (ser st) m (tcp_sock st) (bridge_session st) (pending_bridge st)
    (input_buffer st) (screen st) (closed_sockets st) (process st).

Definition with_bridge (b : option bridge_var) (st : state) : state :=
  State (ser st) (cur st) (tcp_sock st) b (pending_bridge st)
    (input_buffer st) (screen st) (closed_sockets st) (process st).

Definition with_pending (p : option session) (st : state) : state :=
  State (ser st) (cur st) (tcp_sock st) (bridge_session st) p
    (input_buffer st) (screen st) (closed_sockets st) (process st).

Definition with_buffer (b : list Z) (st : state) : state :=
  State (ser st) (cur st) (tcp_sock st) (bridge_session st) (pending_bridge st)
    b (screen st) (closed_sockets st) (process st).

(** Lines 447-450. *)
Definition hang_up (st : state) : state :=
  match tcp_sock st with
  | Some sock =>
      State (ser st) (cur st) None (bridge_session st) (pending_bridge st)
        (input_buffer st) (screen st ++ [Disconnecting])
        ({[sock]} ∪ closed_sockets st) (process st)
  | None => st
  end.

(** [bridge_session.get('bridge_serial')]. *)
Definition bridged (b : bridge_var) : option Serial :=
  match b with
  | PromptAlias => None
  | Live r => bridge_serial r
  end.

(** Lines 452-468: rsh_bridge has no [close_bridge_session], so the
    underlying serial is closed here. *)
Definition close_bridge (st : state) : state :=
  match bridge_session st with
  | Some b =>
      let h := match bridged b with
               | Some bs => close_serial (ident bs) (process st)
               | None => process st
               end in
      with_bridge None (with_process h st)
  | None => st
  end.

(** Lines 445-479: the global ATM command. *)
Definition global_ATM (st : state) : result :=
  let st1 := close_bridge (hang_up st) in
  if negb (bool_decide (port (ser st1) = ""))
     && bool_decide (upper (port (ser st1)) ∈ SURRENDERED_PORTS (process st1))
  then
    Return (with_process (close_serial (ident (ser st1)) (process st1))
              (show [OwnPortSurrendered] st1))
  else Continue (show [MainMenu] (with_mode MENU st1)).

(** A byte of the form 10xxxxxx. *)
Definition continuation (b : Z) : bool := (0x80 <=? b) && (b <=? 0xBF).

(** [raw.decode(errors='ignore')]: the code points of the UTF-8 text.  A
    well-formed sequence of one to four bytes gives one character; of a
    sequence that is not well formed, the bytes before the offending one
    are dropped and decoding goes on at that byte; a sequence cut off by
    the end of the bytes is dropped. *)
Fixpoint decode (raw : list Z) : list Z :=
  match raw with
  | [] => []
  | b :: r1 =>
      if (0 <=? b) && (b <? 0x80) then b :: decode r1
      else if (0xC2 <=? b) && (b <? 0xE0) then
        match r1 with
        | [] => []
        | b2 :: r2 =>
            if continuation b2
            then Z.lor (Z.shiftl (Z.land b 0x1F) 6) (Z.land b2 0x3F) :: decode r2
            else decode r1
        end
      else if (0xE0 <=? b) && (b <? 0xF0) then
        match r1 with
        | [] => []
        | b2 :: r2 =>
            if continuation b2 && negb (if b2 <? 0xA0 then b =? 0xE0 else b =? 0xED) then
              match r2 with
              | [] => []
              | b3 :: r3 =>
                  if continuation b3
                  then Z.lor (Z.shiftl (Z.land b 0x0F) 12)
                         (Z.lor (Z.shiftl (Z.land b2 0x3F) 6) (Z.land b3 0x3F))
                       :: decode r3
                  else decode r2
              end
            else decode r1
        end
      else if (0xF0 <=? b) && (b <? 0xF5) then
        match r1 with
        | [] => []
        | b2 :: r2 =>
            if continuation b2 && negb (if b2 <? 0x90 then b =? 0xF0 else b =? 0xF4) then
              match r2 with
              | [] => []
              | b3 :: r3 =>
                  if continuation b3 then
                    match r3 with
                    | [] => []
                    | b4 :: r4 =>
                        if continuation b4
                        then Z.lor (Z.shiftl (Z.land b 0x07) 18)
                               (Z.lor (Z.shiftl (Z.land b2 0x3F) 12)
                                  (Z.lor (Z.shiftl (Z.land b3 0x3F) 6) (Z.land b4 0x3F)))
                             :: decode r4
                        else decode r3
                    end
                  else decode r2
              end
            else decode r1
        end
      else decode r1
  end.

(** Line 442, [raw_line.decode(errors='ignore').strip()], when what is left
    holds ASCII characters only. *)
Definition line_text (raw_line : list Z) : option string :=
  ascii_text (strip_u (decode raw_line)).

(** Lines 481-621, menu entry 6 (lines 561-583). *)
Definition in_menu (upper_line : string) (st : state) : result :=
  if bool_decide (upper_line = "6") then
    let '(sess, intro) := create_session true true in
    Continue (with_mode COMBRIDGE_PROMPT
                (with_pending (Some sess)
                   (with_bridge (Some PromptAlias)
                      (show (map FromBridge intro) st))))
  else if bool_decide (upper_line ∈ ["1"; "2"; "3"; "4"; "5"; "7"; "8"]) then NotModelled
  else Continue (show [InvalidCommand] st).

(** Lines 765-813. *)
Definition in_prompt (nt : bool) (try_open : nat -> open_result)
    (line_str : string) (st : state) : result :=
  match pending_bridge st with
  | None => NotModelled
  | Some sess =>
      match handle_input nt try_open sess line_str (process st) with
      | None => NotModelled
      | Some e =>
          let st1 := show (map FromBridge (said e))
                       (with_process (reg e) (with_pending (Some (after e)) st)) in
          match act e with
          | OPEN_BRIDGE opened_serial port_name =>
              Continue
                (with_mode COMBRIDGE
                   (with_pending None
                      (with_bridge
                         (Some (Live (create_runtime_session opened_serial
                                        port_name true true)))
                         (show [Routing port_name] st1))))
          | GoMenu => Continue (show [MainMenu] (with_mode MENU st1))
          | NoAction => Continue st1
          end
      end
  end.

(** Lines 814-860, through handle_input_dispatch. *)
Definition in_bridge (line_str : string) (raw_line : list Z) (st : state) : result :=
  match bridge_session st with
  | Some (Live r) =>
      let '(a, r', h) := handle_input_runtime r line_str (Some raw_line) (process st) in
      match a with
      | GoMenu =>
          let h' := match bridge_serial r' with
                    | Some bs => close_serial (ident bs) h
                    | None => h
                    end in
          Continue (show [MainMenu]
                      (with_mode MENU (with_bridge None (with_process h' st))))
      | _ => Continue (with_bridge (Some (Live r')) (with_process h st))
      end
  | _ => NotModelled
  end.

(** Lines 442-1019: one assembled line.  A line that keeps a character
    above U+007F is [NotModelled]: [str.upper] and the handlers' reading of
    such a line need the Unicode tables. *)
Definition dispatch (nt : bool) (try_open : nat -> open_result)
    (raw_line : list Z) (st : state) : result :=
  match line_text raw_line with
  | None => NotModelled
  | Some line_str =>
      let upper_line := upper line_str in
      if bool_decide (upper_line = "ATM") then global_ATM st
      else match cur st with
           | MENU => in_menu upper_line st
           | COMBRIDGE_PROMPT => in_prompt nt try_open line_str st
           | COMBRIDGE => in_bridge line_str raw_line st
           | _ => NotModelled
           end
  end.

(** [buf.partition(sep)] at the first [sep], when there is one. *)
Fixpoint partition (sep : Z) (buf : list Z) : option (list Z * list Z) :=
  match buf with
  | [] => None
  | b :: rest =>
      if b =? sep then Some ([], rest)
      else match partition sep rest with
           | Some (line, rest') => Some (b :: line, rest')
           | None => None
           end
  end.

(** [rest.lstrip(b"\r\n")]. *)
Fixpoint lstrip_newlines (buf : list Z) : list Z :=
  match buf with
  | b :: rest => if (b =? CR) || (b =? LF) then lstrip_newlines rest else buf
  | [] => []
  end.

(** Lines 433-440: cut the next line off the buffer, at the first CR when
    the buffer has one, at the first LF otherwise. *)
Definition next_line (buf : list Z) : option (list Z * list Z) :=
  match partition CR buf with
  | Some (raw_line, rest) => Some (raw_line, lstrip_newlines rest)
  | None =>
      match partition LF buf with
      | Some (raw_line, rest) => Some (raw_line, lstrip_newlines rest)
      | None => None
      end
  end.

(** Lines 433-1019: the [while] over the lines of the buffer; it runs at
    most once per buffered byte. *)
Fixpoint parse_lines (fuel : nat) (nt : bool) (try_open : nat -> open_result)
    (st : state) : result :=
  match fuel with
  | O => Continue st
  | S fuel' =>
      match next_line (input_buffer st) with
      | None => Continue st
      | Some (raw_line, rest) =>
          match dispatch nt try_open raw_line (with_buffer rest st) with
          | Continue st' => parse_lines fuel' nt try_open st'
          | r => r
          end
      end
  end.

(** Lines 329-440: what the loop does with the bytes read from its line. *)
Definition on_data (nt : bool) (try_open : nat -> open_result)
    (data : list Z) (st : state) : result :=
  let connected := match cur st, tcp_sock st with BBS, Some _ => true | _, _ => false end in
  let st := if connected then st else show [Echo data] st in
  match cur st, bridge_session st with
  | COMBRIDGE, Some (Live r) =>
      let '(handled, r', h) := handle_raw_input r data (process st) in
      if handled then Continue (with_bridge (Some (Live r')) (with_process h st))
      else
        let h' := match bridge_serial r' with
                  | Some bs => close_serial (ident bs) h
                  | None => h
                  end in
        Continue (show [BridgeWriteFailed; MainMenu]
                    (with_mode MENU (with_bridge None (with_process h' st))))
  | COMBRIDGE, Some PromptAlias =>
      (* handle_raw_input finds no bridge_serial and returns False *)
      Continue (show [BridgeWriteFailed; MainMenu]
                  (with_mode MENU (with_bridge None st)))
  | _, _ =>
      if connected then NotModelled
      else
        let st := with_buffer (input_buffer st ++ data) st in
        parse_lines (length (input_buffer st)) nt try_open st
  end.

(** A session that has just been started on [own]. *)
Definition start (own : Serial) (h : hub) : state :=
  State own MENU None None None [] [MainMenu] ∅ h.

(** What a user types to go from the main menu through every bridge prompt,
    asking for COM3 at 9600 8N1 without flow control. *)
Definition typed_config : list Z :=
  encode "6" ++ [CR] ++ encode "3" ++ [CR] ++ encode "9600" ++ [CR]
    ++ encode "8" ++ [CR] ++ encode "1" ++ [CR] ++ encode "N" ++ [CR]
    ++ encode "N" ++ [CR] ++ encode "N" ++ [CR].

(** A live bridge to COM3, and a session on COM1. *)
Definition bridge_to_com3 : runtime :=
  create_runtime_session (SerialObj 9%nat "COM3") "COM3" true true.
Definition on_com1 : Serial := SerialObj 1%nat "COM1".
Definition prompting : session := fst (create_session true true).

End Loop.

(** ** Receivers, frames and sessions used to state further properties *)

Module Framing.
Import Files.
Local Open Scope Z_scope.

(** A receiver that starts the transfer, answers the [i]-th block with
    [ks !! i] NAKs before its ACK, and acknowledges EOT. *)
Definition nakking (ks : list nat) : list (list Z) :=
  [NAK] :: concat (map (fun k => replicate k [NAK] ++ [[ACK]]) ks) ++ [[ACK]].

(** A receiver that starts the transfer, acknowledges [j] blocks and then
    delivers [then_]. *)
Definition acking_then (j : nat) (then_ : list (list Z)) : list (list Z) :=
  [NAK] :: replicate j [ACK] ++ then_.

(** Lines 245-254: the tests a packet of 131 bytes read after SOH has to
    pass to be acknowledged. *)
Definition accepts (block_num : Z) (pkt : list Z) : bool :=
  (length pkt =? 131)%nat
  && (nth 0 pkt 0 =? Z.land block_num 0xFF)
  && (nth 1 pkt 0 =? 0xFF - nth 0 pkt 0)
  && (Z.land (byte_sum (removelast (drop 2 pkt))) 0xFF =? List.last pkt 0).

(** The frames of ymodem_send in the words of the protocol: the header
    packet, and the [k]-th data packet. *)
Definition chunk_y (k : nat) (f : list Z) : list Z := take 1024 (drop (1024 * k) f).

Definition data_y (k : nat) (f : list Z) : list Z :=
  chunk_y k f ++ replicate (1024 - length (chunk_y k f)) 0x1A.

Definition frame_y (f : list Z) (k : nat) : list Z :=
  [STX; Z.of_nat (k + 1) mod 256; 255 - Z.of_nat (k + 1) mod 256]
    ++ data_y k f ++ [byte_sum (data_y k f) mod 256].

Definition header_packet (header : list Z) : list Z :=
  [SOH; 0; 255] ++ header ++ [byte_sum header mod 256].

Fixpoint frames_from_y (n : nat) (block_num : Z) (f : list Z) : list (list Z) :=
  match n with
  | O => []
  | S n' =>
      packet STX block_num (pad 1024 (take 1024 f))
        :: frames_from_y n' (Z.land (block_num + 1) 0xFF) (drop 1024 f)
  end.

End Framing.

Module Sessions.
Import Text Hub Bridge Loop.
Local Open Scope Z_scope.

(** The fields that the stages before [n] have stored. *)
Definition filled_up_to (n : nat) (v : values) : bool :=
  ((n <? 1)%nat || bool_decide (is_Some (port_num v)))
  && ((n <? 2)%nat || bool_decide (is_Some (baud v)))
  && ((n <? 3)%nat || bool_decide (is_Some (data_bits v)))
  && ((n <? 4)%nat || bool_decide (is_Some (stop_bits v)))
  && ((n <? 5)%nat || bool_decide (is_Some (parity v)))
  && ((n <? 6)%nat || bool_decide (is_Some (xonxoff v))).

(** The values a stage can store: a positive port number, 7 or 8 data bits,
    1 or 2 stop bits, parity O, E or N. *)
Definition values_ok (v : values) : bool :=
  match port_num v with Some p => 0 <? p | None => true end
  && match data_bits v with Some d => (d =? 7) || (d =? 8) | None => true end
  && match stop_bits v with Some b => (b =? 1) || (b =? 2) | None => true end
  && match parity v with
     | Some c => Ascii.eqb c "O" || Ascii.eqb c "E" || Ascii.eqb c "N"
     | None => true
     end.

Definition prompt_ok (s : session) : bool :=
  (stage s <=? 6)%nat && filled_up_to (stage s) (vals s) && values_ok (vals s).

(** What seven empty answers select. *)
Definition defaults : values :=
  Values (Some 1) (Some 115200) (Some 8) (Some 1) (Some "N"%char) (Some false) (Some false).

(** Successive calls of handle_input on the same session, one per line; the
    effect of the last call, [None] if a call raised. *)
Fixpoint answer (nt : bool) (try_open : nat -> open_result) (lines : list string)
    (s : session) (h : hub) : option effect :=
  match lines with
  | [] => Some (Effect NoAction s h [] 0)
  | [line_str] => handle_input nt try_open s line_str h
  | line_str :: rest =>
      match handle_input nt try_open s line_str h with
      | Some e => answer nt try_open rest (after e) (reg e)
      | None => None
      end
  end.

(** Successive turns of the session loop, each reading one chunk from the
    session's line. *)
Fixpoint feed (nt : bool) (try_open : nat -> open_result) (chunks : list (list Z))
    (st : state) : result :=
  match chunks with
  | [] => Continue st
  | data :: rest =>
      match on_data nt try_open data st with
      | Continue st' => feed nt try_open rest st'
      | r => r
      end
  end.

Definition count_byte (b : Z) (data : list Z) : nat :=
  length (List.filter (Z.eqb b) data).

(** A failure that port_worker treats as transient. *)
Definition transient (e : exn) : bool :=
  match e with
  | SerialException msg => negb (not_present msg)
  | OtherException _ => true
  end.

(** Break the boolean conjunctions of [prompt_ok] into their parts. *)
Ltac split_andb :=
  repeat match goal with
         | H : _ && _ = true |- _ => apply andb_prop in H as [? ?]
         | H : bool_decide _ = true |- _ => apply bool_decide_eq_true_1 in H
         | H : is_Some None |- _ => destruct H as [? ?]; discriminate
         end.

End Sessions.

(** ** The hub's screen helpers (RETRO_SERIAL_HUB.py, lines 60-106) *)

Module Screen.
Import Text Loop.
Local Open Scope Z_scope.

(** What paginate_lines writes: a line of the listing, or the prompt of
    wait_for_key (with or without its Q to quit). *)
Inductive out : Type :=
  | Row (ln : string)            (* write(ser, ln + CRLF) *)
  | Pause (quit_msg : bool).     (* "Press any key to continue..." *)

Inductive paged : Type :=
  | DONE
  | QUIT
  | Waiting.                     (* inside wait_for_key: no byte arrives any more *)

(** Lines 60-72.  [keys] are the bytes that are still to arrive on the
    line, in order; the loop of wait_for_key ends with the first of them,
    decoded and upper-cased, and never ends when there is none.  One byte
    decodes to one ASCII character or to nothing, so the text is always
    there. *)
Definition wait_for_key (quit_msg : bool) (keys : list Z)
    : out * option (string * list Z) :=
  (Pause quit_msg,
   match keys with
   | ch :: keys' => Some (upper (default "" (ascii_text (decode [ch]))), keys')
   | [] => None
   end).

(** Lines 74-89, from the [for] on; [count] is the local variable. *)
Fixpoint paginate (lines : list string) (count : nat) (page_lines : Z)
    (quit_msg : bool) (keys : list Z) : paged * list out * list Z :=
  match lines with
  | [] =>
      if quit_msg then
        match wait_for_key quit_msg keys with
        | (prompt, Some (key, keys')) =>
            (if bool_decide (key = "Q") then QUIT else DONE, [prompt], keys')
        | (prompt, None) => (Waiting, [prompt], keys)
        end
      else (DONE, [], keys)
  | ln :: rest =>
      let count := S count in
      if page_lines <=? Z.of_nat count then
        match wait_for_key quit_msg keys with
        | (prompt, Some (key, keys')) =>
            if bool_decide (key = "Q") then (QUIT, [Row ln; prompt], keys')
            else
              let '(r, outs, keys'') := paginate rest 0 page_lines quit_msg keys' in
              (r, Row ln :: prompt :: outs, keys'')
        | (prompt, None) => (Waiting, [Row ln; prompt], keys)
        end
      else
        let '(r, outs, keys') := paginate rest count page_lines quit_msg keys in
        (r, Row ln :: outs, keys')
  end.

Definition paginate_lines (lines : list string) (page_lines : Z) (quit_msg : bool)
    (keys : list Z) : paged * list out * list Z :=
  paginate lines 0 page_lines quit_msg keys.

Definition rows (outs : list out) : list string :=
  omap (fun o => match o with Row ln => Some ln | Pause _ => None end) outs.

Definition pauses (outs : list out) : nat :=
  length (List.filter (fun o => match o with Pause _ => true | Row _ => false end) outs).

(** A byte that wait_for_key turns into Q. *)
Definition quits (ch : Z) : bool := (ch =? 81) || (ch =? 113).

(** [f"{n:2d}"]. *)
Definition fmt2 (n : nat) : string :=
  let s := NilZero.string_of_uint (Nat.to_uint n) in
  if (String.length s <? 2)%nat then " " +:+ s else s.

Fixpoint spaces (n : nat) : string :=
  match n with
  | O => ""
  | S n' => String " " (spaces n')
  end.

(** [f"{s:<{width}}"]. *)
Definition ljust (width : nat) (s : string) : string :=
  s +:+ spaces (width - String.length s).

(** Lines 91-106. *)
Definition two_column_list (items : list string) (left_pad : nat) : list string :=
  let half := ((length items + 1) / 2)%nat in
  let left := take half items in
  let right := drop half items in
  let right := if (length right <? length left)%nat then right ++ [""] else right in
  imap (fun i left_i =>
          let left_num := fmt2 (i + 1) +:+ "] " +:+ left_i in
          match right !! i with
          | Some right_i =>
              if bool_decide (right_i <> "")
              then ljust left_pad left_num +:+ fmt2 (i + 1 + half) +:+ "] " +:+ right_i
              else left_num
          | None => left_num
          end) left.

End Screen.

(** ** The file menu (rsh_files.py, lines 39-155) and its use by the hub
    (RETRO_SERIAL_HUB.py, lines 685-712)

    Writes to the session's line are taken to succeed.  A receive or a
    transfer started from the menu is one call whose ending, and the
    directory listing read after it, are given from outside. *)

Module FilesMenu.
Import Text.
Local Open Scope Z_scope.

Inductive submode : Type := FILES_MENU | UPLOAD_PROMPT.

(** The session dict; [base_dir] is [None] or a path. *)
Record session : Type := Session {
  sub : submode;
  files : list string;
  transfer_mode : string;
  base_dir : option string
}.

(** What is written to the line, one constructor per message, and the
    calls into the transfer engine, whose own writes are not followed
    here. *)
Inductive notice : Type :=
  | Menu (transfer_mode : string) (files : list string)   (* _render_menu *)
  | FilenameAgain           (* "Filename: " *)
  | NoBaseDirectory         (* "*** No base directory configured for uploads. ***" *)
  | EnterFilename           (* "Enter filename to save as: " *)
  | InvalidFileNumber       (* "Invalid file number" *)
  | InvalidCommand          (* "Invalid command" *)
  | CommandPrompt           (* "Command: " *)
  | Receive (fname : string)
      (* xmodem_receive(ser, str(base / fname)) *)
  | UploadError             (* "*** Upload error: ... ***" *)
  | Transfer (func : string) (fname : string) (with_name : bool)
      (* getattr(files_module, func)(ser, str(FILES_DIR / fname)[, name]) *)
  | FilesModuleError        (* "*** Files module error: ... ***" *)
  | MainMenu.               (* show_main_menu *)

(** How a call into the transfer engine ends: it returns, it lets an
    exception escape, or it never returns (xmodem_receive and ymodem_send
    have waits without a deadline). *)
Inductive ending : Type := Done | Fails | Endless.

(** What the surroundings decide during one line: how the receive or the
    transfer that the line starts ends, and what the directory holds when
    it is read again afterwards, [sorted(p.name for p in dir.iterdir() if
    p.is_file())]; [None] when reading it raises. *)
Record env : Type := Env {
  call_ends : ending;
  listing : option (list string)
}.

(** How a call of handle_input ends. *)
Inductive returned : Type :=
  | Tuple (action : option string)   (* return True, action *)
  | Nothing                          (* the end of the function is reached: None *)
  | NoReturn.                        (* xmodem_receive does not return *)

Definition with_sub (m : submode) (sess : session) : session :=
  Session m (files sess) (transfer_mode sess) (base_dir sess).

Definition with_mode (mode : string) (sess : session) : session :=
  Session (sub sess) (files sess) mode (base_dir sess).

Definition with_files (fs : list string) (sess : session) : session :=
  Session (sub sess) fs (transfer_mode sess) (base_dir sess).

Definition _render_menu (sess : session) : notice :=
  Menu (transfer_mode sess) (files sess).

(** Lines 39-48; [files or []] is [files]. *)
Definition create_session (files : list string) (transfer_mode : string)
    (base_dir : option string) : session * list notice :=
  let sess := Session FILES_MENU files transfer_mode base_dir in
  (sess, [_render_menu sess]).

(** Lines 74-155.  The session is a dict changed in place: the session
    returned is what the caller's [files_session] holds after the call. *)
Definition handle_input (w : env) (sess : session) (line_str : string)
    : returned * session * list notice :=
  let txt := strip line_str in
  match sub sess with
  | UPLOAD_PROMPT =>
      if bool_decide (txt = "") then (Tuple None, sess, [FilenameAgain])
      else
        match base_dir sess with
        | None =>
            let sess := with_sub FILES_MENU sess in
            (Tuple None, sess, [NoBaseDirectory; _render_menu sess])
        | Some _ =>
            (* lines 93-109: the receive, whatever the transfer mode; an
               exception of it is reported; then the file list is read
               again *)
            match call_ends w with
            | Endless => (NoReturn, sess, [Receive txt])
            | ended =>
                let said :=
                  Receive txt :: match ended with Fails => [UploadError] | _ => [] end in
                let sess := with_files (default (files sess) (listing w)) sess in
                let sess := with_sub FILES_MENU sess in
                (Tuple None, sess, said ++ [_render_menu sess])
            end
        end
  | FILES_MENU =>
      if bool_decide (txt = "") then (Tuple None, sess, [_render_menu sess])
      else
        let upper := upper txt in
        if bool_decide (upper = "Q") then (Tuple (Some "MENU"), sess, [])
        else if bool_decide (upper = "U") then
          (Tuple None, with_sub UPLOAD_PROMPT sess, [EnterFilename])
        else if bool_decide (upper = "Y") then
          let sess := with_mode "YMODEM" sess in (Tuple None, sess, [_render_menu sess])
        else if bool_decide (upper = "X") then
          let sess := with_mode "XMODEM" sess in (Tuple None, sess, [_render_menu sess])
        else if bool_decide (upper = "A") then
          let sess := with_mode "ASCII" sess in (Tuple None, sess, [_render_menu sess])
        else
          match int_of_text txt with
          | Some num =>
              if (1 <=? num) && (num <=? Z.of_nat (length (files sess))) then
                let fname := default "" (files sess !! Z.to_nat (num - 1)) in
                let mode := transfer_mode sess in
                if bool_decide (mode = "XMODEM") then
                  (Tuple (Some ("XMODEM_SEND:" +:+ fname)), sess, [])
                else if bool_decide (mode = "YMODEM") then
                  (Tuple (Some ("YMODEM_SEND:" +:+ fname)), sess, [])
                else if bool_decide (mode = "ASCII") then
                  (Tuple (Some ("ASCII_SEND:" +:+ fname)), sess, [])
                else (Nothing, sess, [])
              else (Tuple None, sess, [InvalidFileNumber; CommandPrompt])
          | None => (Tuple None, sess, [InvalidCommand; CommandPrompt])
          end
  end.

(** [action.split(':', 1)] for an action that holds a colon: what is before
    the first colon, and what is after it. *)
Fixpoint split_colon (action : string) : string * string :=
  match action with
  | EmptyString => (EmptyString, EmptyString)
  | String c rest =>
      if Ascii.eqb c ":" then (EmptyString, rest)
      else let '(before, after) := split_colon rest in (String c before, after)
  end.

Definition lower_char (c : ascii) : ascii :=
  let n := nat_of_ascii c in
  if ((65 <=? n) && (n <=? 90))%nat then ascii_of_nat (n + 32) else c.

Fixpoint lower (s : string) : string :=
  match s with
  | EmptyString => EmptyString
  | String c r => String (lower_char c) (lower r)
  end.

(** RETRO_SERIAL_HUB.py, line 37: [BASE_DIR / "files"], from BASE_DIR. *)
Definition FILES_DIR : string := "files".

(** What the hub does with a line typed in FILES mode. *)
Inductive turn : Type :=
  | Stays (sess : session) (said : list notice)
      (* the loop goes on in FILES mode, [files_session] being [sess] *)
  | ToMenu (said : list notice)
      (* mode = MENU *)
  | Stuck (said : list notice).
      (* the loop is inside a call that does not return *)

(** RETRO_SERIAL_HUB.py, lines 685-712.  Everything from the call of
    handle_input to the new session is inside one [try]: a [None] that
    cannot be unpacked, a transfer that raises and a directory that cannot
    be read all end in the Files module error. *)
Definition in_files (w : env) (sess : session) (line_str : string) : turn :=
  match handle_input w sess line_str with
  | (Tuple action, sess', said) =>
      match action with
      | Some action =>
          if String.prefix "XMODEM_SEND:" action || String.prefix "YMODEM_SEND:" action
             || String.prefix "ASCII_SEND:" action
          then
            let '(transfer_type, fname) := split_colon action in
            let call := Transfer (lower transfer_type) fname
                          (bool_decide (transfer_type = "XMODEM_SEND")) in
            match call_ends w with
            | Endless => Stuck (said ++ [call])
            | Fails => ToMenu (said ++ [call; FilesModuleError; MainMenu])
            | Done =>
                match listing w with
                | None => ToMenu (said ++ [call; FilesModuleError; MainMenu])
                | Some files_list =>
                    let '(sess'', menu) :=
                      create_session files_list "XMODEM" (Some FILES_DIR) in
                    Stays sess'' (said ++ [call] ++ menu)
                end
            end
          else if bool_decide (action = "MENU") then ToMenu (said ++ [MainMenu])
          else Stays sess' said
      | None => Stays sess' said
      end
  | (Nothing, _, said) =>
      (* [consumed, action = None] raises TypeError *)
      ToMenu (said ++ [FilesModuleError; MainMenu])
  | (NoReturn, _, said) => Stuck said
  end.

(** Successive lines typed in FILES mode, each with its surroundings; the
    session the hub holds after them, while it stays in FILES mode. *)
Fixpoint typed (turns : list (env * string)) (sess : session) : option session :=
  match turns with
  | [] => Some sess
  | (w, line_str) :: rest =>
      match in_files w sess line_str with
      | Stays sess' _ => typed rest sess'
      | _ => None
      end
  end.

(** The line is the number of a file of the list. *)
Definition valid_number (sess : session) (line_str : string) : Prop :=
  exists num, int_of_text line_str = Some num
              /\ 1 <= num <= Z.of_nat (length (files sess)).

(** The transfer modes that the menu can set. *)
Definition mode_ok (sess : session) : bool :=
  bool_decide (transfer_mode sess ∈ ["XMODEM"; "YMODEM"; "ASCII"]).

End FilesMenu.

(** * Properties of the transfer engine *)

Section TransferEngine.
Import Files Framing.
Local Open Scope Z_scope.

Lemma land_255 (x : Z) : Z.land x 0xFF = x mod 256.
Proof. change 0xFF with (Z.ones 8). rewrite Z.land_ones by lia. reflexivity. Qed.

Lemma pad_length (chunk : list Z) :
  (length chunk <= 128)%nat -> length (pad 128 chunk) = 128%nat.
Proof.
  intros H. unfold pad. destruct (Nat.ltb_spec (length chunk) 128).
  - rewrite length_app, length_replicate. lia.
  - lia.
Qed.

Lemma pad_take (f : list Z) : length (pad 128 (take 128 f)) = 128%nat.
Proof. apply pad_length. rewrite length_take. lia. Qed.

Lemma pad_data_at (k : nat) (f : list Z) :
  pad 128 (take 128 (drop (128 * k) f)) = data_at k f.
Proof.
  unfold pad, data_at, chunk_at.
  destruct (Nat.ltb_spec (length (take 128 (drop (128 * k) f))) 128) as [H|H].
  - reflexivity.
  - assert (length (take 128 (drop (128 * k) f)) = 128%nat) as ->
      by (rewrite length_take in *; lia).
    simpl. now rewrite app_nil_r.
Qed.

Lemma nblocks_nil : nblocks [] = 0%nat.
Proof. reflexivity. Qed.

Lemma nblocks_drop (f : list Z) : nblocks (drop 128 f) = (nblocks f - 1)%nat.
Proof.
  unfold nblocks. rewrite length_drop.
  destruct (Nat.le_gt_cases 128 (length f)) as [H|H].
  - replace (length f + 127)%nat with ((length f - 128 + 127) + 1 * 128)%nat by lia.
    rewrite Nat.div_add by lia. lia.
  - replace (length f - 128 + 127)%nat with 127%nat by lia.
    assert ((length f + 127) / 128 < 2)%nat by (apply Nat.Div0.div_lt_upper_bound; lia).
    change (127 / 128)%nat with 0%nat. lia.
Qed.

Lemma nblocks_pos (f : list Z) : f <> [] -> (0 < nblocks f)%nat.
Proof.
  intros H. unfold nblocks.
  assert (0 < length f)%nat by (destruct f; [congruence | simpl; lia]).
  apply Nat.div_str_pos. lia.
Qed.

Lemma nblocks_take (n : nat) (f : list Z) : nblocks f = S n -> take 128 f <> [].
Proof.
  intros H E. destruct f as [|b f']; [discriminate H | discriminate E].
Qed.

(** *** The sender against a receiver that answers at once *)

Lemma wait_receiver_prompt fuel rest t c sv :
  wait_receiver (S fuel) (c + 20000) (Line [] ([NAK] :: rest) t c sv)
  = Exit true (Line [] rest t c sv).
Proof.
  cbn [wait_receiver clock]. assert ((c <? c + 20000) = true) as -> by lia.
  reflexivity.
Qed.

Lemma wait_ack_prompt fuel pkt block_num msg rest t c sv :
  wait_ack (S fuel) (c + 10000) pkt block_num msg (Line [] ([ACK] :: rest) t c sv)
  = Exit (Acked (Z.land (block_num + 1) 0xFF)) (Line [] rest t c sv).
Proof.
  cbn [wait_ack clock]. assert ((c <? c + 10000) = true) as -> by lia.
  reflexivity.
Qed.

Lemma wait_eot_prompt fuel rest t c sv :
  wait_eot (S fuel) (c + 10000) (Line [] ([ACK] :: rest) t c sv)
  = Returned (Line [] rest (t ++ [Say TransferComplete]) c sv).
Proof.
  cbn [wait_eot clock]. assert ((c <? c + 10000) = true) as -> by lia.
  reflexivity.
Qed.

Lemma send_blocks_acked (n : nat) :
  forall (f : list Z) (block_num : Z) (fuel : nat) t c sv,
    nblocks f = n ->
    send_blocks (n + 2 + fuel) f block_num
      (Line [] (replicate (S n) [ACK]) t c sv)
    = Returned (Line [] []
        (t ++ map Raw (frames_from n block_num f)
           ++ [Raw [EOT]; Say TransferComplete]) c sv).
Proof.
  induction n as [|n IH]; intros f block_num fuel t c sv Hn.
  - assert (f = []) as ->.
    { destruct f as [|b f']; [reflexivity|].
      pose proof (nblocks_pos (b :: f') ltac:(discriminate)). lia. }
    cbn [Nat.add send_blocks take replicate]. unfold write.
    cbn [clock tx rx arrivals saved].
    rewrite wait_eot_prompt. cbn [frames_from map app].
    rewrite <- app_assoc. reflexivity.
  - pose proof (nblocks_take n f Hn) as Hne.
    cbn [Nat.add send_blocks].
    destruct (take 128 f) as [|b chunk] eqn:Etake; [congruence|].
    rewrite <- Etake. unfold write.
    cbn [clock tx rx arrivals saved].
    change (replicate (S (S n)) [ACK]) with ([ACK] :: replicate (S n) [ACK]).
    replace (n + 2 + fuel)%nat with (S (n + 1 + fuel)) by lia.
    rewrite wait_ack_prompt.
    replace (S (n + 1 + fuel)) with (n + 2 + fuel)%nat by lia.
    rewrite IH by (rewrite nblocks_drop, Hn; lia).
    cbn [frames_from map app]. rewrite <- !app_assoc. reflexivity.
Qed.

Lemma xmodem_send_acked (f : list Z) (fname : string) (fuel : nat) :
  xmodem_send (nblocks f + 2 + fuel) fname (Some f) (fresh (acking f))
  = Returned (Line [] []
      ([Say (XmodemSendBanner fname); Say WaitingForReceiver]
         ++ map Raw (frames_from (nblocks f) 1 f)
         ++ [Raw [EOT]; Say TransferComplete]) 0 None).
Proof.
  unfold xmodem_send, fresh, acking, _write.
  cbn [clock tx rx arrivals saved app].
  replace (nblocks f + 2 + fuel)%nat with (S (nblocks f + 1 + fuel)) by lia.
  rewrite (wait_receiver_prompt _ _ _ 0).
  replace (S (nblocks f + 1 + fuel)) with (nblocks f + 2 + fuel)%nat by lia.
  rewrite send_blocks_acked by reflexivity. reflexivity.
Qed.

Lemma raw_writes_app (a b : list wr) : raw_writes (a ++ b) = raw_writes a ++ raw_writes b.
Proof.
  induction a as [|[n|bs] a IH]; cbn [raw_writes app]; rewrite ?IH; reflexivity.
Qed.

Lemma raw_writes_map_Raw (l : list (list Z)) : raw_writes (map Raw l) = l.
Proof. induction l as [|x l IH]; cbn [raw_writes map]; rewrite ?IH; reflexivity. Qed.

Lemma frames_from_frame_at (n : nat) :
  forall (j : nat) (f : list Z),
    frames_from n (Z.of_nat (j + 1) mod 256) (drop (128 * j) f)
    = map (frame_at f) (seq j n).
Proof.
  induction n as [|n IH]; intros j f; [reflexivity|].
  cbn [frames_from seq map]. f_equal.
  - unfold packet, frame_at. rewrite pad_data_at, !land_255.
    rewrite Z.mod_mod by lia. reflexivity.
  - rewrite land_255, drop_drop.
    replace (128 * j + 128)%nat with (128 * S j)%nat by lia.
    replace ((Z.of_nat (j + 1) mod 256 + 1) mod 256)
      with (Z.of_nat (S j + 1) mod 256).
    + apply IH.
    + replace (Z.of_nat (S j + 1)) with (Z.of_nat (j + 1) + 1) by lia.
      rewrite (Z.add_mod (Z.of_nat (j + 1)) 1), (Z.add_mod (_ mod 256) 1) by lia.
      rewrite Z.mod_mod by lia. reflexivity.
Qed.

Lemma frames_from_spec (f : list Z) :
  frames_from (nblocks f) 1 f = map (frame_at f) (seq 0 (nblocks f)).
Proof. exact (frames_from_frame_at (nblocks f) 0 f). Qed.

(** *** The receiver fed with well-formed frames *)

Lemma packet_length start block_num (chunk : list Z) :
  length (packet start block_num chunk) = (length chunk + 4)%nat.
Proof. unfold packet. cbn [app length]. rewrite length_app. simpl. lia. Qed.

Lemma receive_frame fuel block_num received (chunk : list Z) rest t c sv :
  length chunk = 128%nat ->
  receive_loop (S fuel) block_num received
    (Line [] (packet SOH block_num chunk :: rest) t c sv)
  = receive_loop fuel (Z.land (block_num + 1) 0xFF) (received ++ chunk)
      (Line [] rest (t ++ [Raw [ACK]]) c sv).
Proof.
  intros Hlen. unfold packet.
  set (blk := Z.land block_num 0xFF). set (cs := Z.land (byte_sum chunk) 0xFF).
  cbn [receive_loop]. unfold in_waiting, read, write.
  cbn [arrivals rx tx clock saved app length Nat.ltb Nat.leb firstn skipn].
  rewrite Z.eqb_refl.
  assert (length (chunk ++ [cs]) = 129%nat) as Hpkt
    by (rewrite length_app; simpl; lia).
  rewrite !take_ge, !drop_ge by lia. rewrite Hpkt.
  change (129 <=? 128)%nat with false. cbv iota.
  cbn [nth skipn]. fold blk. rewrite !Z.eqb_refl. cbn [negb orb].
  rewrite !drop_0, removelast_last.
  replace (List.last (blk :: 0xFF - blk :: chunk ++ [cs]) 0) with cs
    by (change (blk :: 0xFF - blk :: chunk ++ [cs])
          with (([blk; 0xFF - blk] ++ chunk) ++ [cs]);
        now rewrite last_last).
  fold cs. rewrite Z.eqb_refl. reflexivity.
Qed.

Lemma receive_frames (n : nat) :
  forall (f : list Z) (block_num : Z) (received : list Z) (fuel : nat) t c sv,
    receive_loop (n + 1 + fuel) block_num received
      (Line [] (frames_from n block_num f ++ [[EOT]]) t c sv)
    = Returned (Line [] []
        (t ++ replicate (S n) (Raw [ACK]) ++ [Say UploadComplete]) c
        (Some (strip_filler (length (received ++ payload_from n f))
                 (received ++ payload_from n f)))).
Proof.
  induction n as [|n IH]; intros f block_num received fuel t c sv.
  - cbn [frames_from payload_from app Nat.add receive_loop].
    unfold in_waiting, read, write, save, _write.
    cbn [arrivals rx tx clock saved app length Nat.ltb Nat.leb firstn skipn].
    change (EOT =? SOH) with false. change (EOT =? EOT) with true. cbv iota.
    rewrite app_nil_r, <- app_assoc. reflexivity.
  - cbn [frames_from payload_from app Nat.add].
    rewrite receive_frame by apply pad_take.
    rewrite IH. rewrite <- !app_assoc. cbn [replicate app]. reflexivity.
Qed.

(** *** Stripping the filler *)

Lemma strip_filler_snoc (n : nat) (l : list Z) :
  strip_filler (S n) (l ++ [0x1A]) = strip_filler n l.
Proof. cbn [strip_filler]. rewrite last_snoc, removelast_last. reflexivity. Qed.

Lemma strip_filler_replicate (k n : nat) (l : list Z) :
  strip_filler (k + n) (l ++ replicate k 0x1A) = strip_filler n l.
Proof.
  induction k as [|k IH].
  - cbn [replicate Nat.add]. now rewrite app_nil_r.
  - rewrite replicate_S_end, app_assoc. cbn [Nat.add].
    now rewrite strip_filler_snoc.
Qed.

Lemma strip_filler_id (n : nat) (l : list Z) :
  last l <> Some 0x1A -> strip_filler n l = l.
Proof.
  intros H. destruct n as [|n]; [reflexivity|]. cbn [strip_filler].
  destruct (last l) as [x|]; [|reflexivity].
  destruct (Z.eqb_spec x 0x1A) as [->|]; [congruence | reflexivity].
Qed.

Lemma strip_filler_last (n : nat) :
  forall l : list Z, (length l <= n)%nat -> last (strip_filler n l) <> Some 0x1A.
Proof.
  induction n as [|n IH]; intros l Hl.
  - destruct l; [discriminate | simpl in Hl; lia].
  - cbn [strip_filler]. destruct (last l) as [x|] eqn:E.
    + destruct (Z.eqb_spec x 0x1A) as [->|Hx].
      * apply IH. destruct (last_Some l 0x1A) as [[l' ->] _]; [exact E|].
        rewrite removelast_last. rewrite length_app in Hl. simpl in Hl. lia.
      * rewrite E. congruence.
    + rewrite E. discriminate.
Qed.

Lemma payload_from_file (n : nat) :
  forall f : list Z, nblocks f = n ->
    exists k : nat, payload_from n f = f ++ replicate k 0x1A.
Proof.
  induction n as [|n IH]; intros f Hn.
  - exists 0%nat. destruct f as [|b f']; [reflexivity|].
    pose proof (nblocks_pos (b :: f') ltac:(discriminate)). lia.
  - cbn [payload_from].
    destruct (IH (drop 128 f)) as [k Hk]; [rewrite nblocks_drop, Hn; lia|].
    rewrite Hk. unfold pad.
    destruct (Nat.ltb_spec (length (take 128 f)) 128) as [Hs|Hs].
    + rewrite length_take in Hs.
      assert (take 128 f = f) as -> by (apply take_ge; lia).
      assert (drop 128 f = []) as -> by (apply drop_ge; lia).
      exists (128 - length f + k)%nat.
      cbn [app]. rewrite replicate_add, app_assoc. reflexivity.
    + exists k. rewrite app_assoc, take_drop. reflexivity.
Qed.

Lemma strip_payload (f : list Z) :
  strip_filler (length (payload_from (nblocks f) f)) (payload_from (nblocks f) f)
  = strip_filler (length f) f.
Proof.
  destruct (payload_from_file (nblocks f) f eq_refl) as [k ->].
  rewrite length_app, length_replicate, Nat.add_comm.
  apply strip_filler_replicate.
Qed.

(** *** Chunks *)

Lemma chunks_concat (n : nat) :
  forall (j : nat) (f : list Z),
    concat (map (fun k => chunk_at k f) (seq j n)) = take (128 * n) (drop (128 * j) f).
Proof.
  induction n as [|n IH]; intros j f.
  - now rewrite Nat.mul_0_r.
  - cbn [seq map concat]. rewrite IH. unfold chunk_at.
    replace (128 * S j)%nat with (128 * j + 128)%nat by lia.
    rewrite <- drop_drop, take_take_drop. f_equal. lia.
Qed.

Lemma nblocks_covers (f : list Z) : (length f <= 128 * nblocks f)%nat.
Proof.
  unfold nblocks.
  pose proof (Nat.div_mod_eq (length f + 127) 128).
  pose proof (Nat.mod_upper_bound (length f + 127) 128). lia.
Qed.

Lemma nblocks_full (k : nat) (f : list Z) :
  (k + 1 < nblocks f)%nat -> length (chunk_at k f) = 128%nat.
Proof.
  unfold nblocks, chunk_at. intros H.
  pose proof (Nat.div_mod_eq (length f + 127) 128).
  pose proof (Nat.mod_upper_bound (length f + 127) 128).
  rewrite length_take, length_drop. lia.
Qed.

Lemma data_at_length (k : nat) (f : list Z) : length (data_at k f) = 128%nat.
Proof. rewrite <- pad_data_at. apply pad_take. Qed.

(** C4. For every source file, against a receiver that acknowledges at once,
    xmodem_send returns having written exactly one frame per 128-byte chunk,
    in order, followed by EOT.  The chunks concatenate to the file; the
    [k]-th frame (from 0) is SOH, [(k+1) mod 256], [255 - (k+1) mod 256],
    the 128 data bytes and the sum of those data bytes mod 256; the data are
    the chunk followed by 0x1A filler up to 128 bytes, and every chunk but
    the last is a full one carried without filler. *)
Theorem xmodem_send_framing (f : list Z) (fname : string) (fuel : nat) :
  exists l : line,
    xmodem_send (nblocks f + 2 + fuel) fname (Some f) (fresh (acking f)) = Returned l
    /\ raw_writes (tx l) = map (frame_at f) (seq 0 (nblocks f)) ++ [[EOT]]
    /\ concat (map (fun k => chunk_at k f) (seq 0 (nblocks f))) = f
    /\ Forall (fun k => length (data_at k f) = 128%nat) (seq 0 (nblocks f))
    /\ Forall (fun k => data_at k f = chunk_at k f) (seq 0 (nblocks f - 1)).
Proof.
  eexists. split; [apply xmodem_send_acked|]. cbn [tx].
  repeat split.
  - rewrite !raw_writes_app, raw_writes_map_Raw, frames_from_spec. reflexivity.
  - rewrite chunks_concat, Nat.mul_0_r, drop_0.
    apply take_ge, nblocks_covers.
  - apply Forall_forall. intros k _. apply data_at_length.
  - apply Forall_forall. intros k Hk. apply elem_of_seq in Hk.
    unfold data_at. rewrite nblocks_full by lia. cbn [Nat.sub replicate].
    apply app_nil_r.
Qed.

(** *** Round trip *)

Lemma xmodem_receive_frames (f : list Z) (fuel : nat) :
  xmodem_receive (nblocks f + 1 + fuel)
    (fresh (frames_from (nblocks f) 1 f ++ [[EOT]]))
  = Returned (Line [] []
      ([Say XmodemReceiveBanner; Raw [NAK]]
         ++ replicate (S (nblocks f)) (Raw [ACK]) ++ [Say UploadComplete]) 0
      (Some (strip_filler (length f) f))).
Proof.
  unfold xmodem_receive, fresh, _write, write.
  cbn [clock tx rx arrivals saved app].
  rewrite receive_frames. cbn [app]. rewrite strip_payload. reflexivity.
Qed.

Lemma raw_writes_replicate_Raw (n : nat) (bs : list Z) :
  raw_writes (replicate n (Raw bs)) = replicate n bs.
Proof. induction n as [|n IH]; cbn [replicate raw_writes]; rewrite ?IH; reflexivity. Qed.

Lemma frames_150 (f : list Z) :
  length f = 150%nat ->
  frames_from (nblocks f) 1 f
  = [packet SOH 1 (take 128 f); packet SOH 2 (drop 128 f ++ replicate 106 0x1A)].
Proof.
  intros H. unfold nblocks. rewrite H.
  change ((150 + 127) / 128)%nat with 2%nat. cbn [frames_from].
  change (Z.land (1 + 1) 255) with 2.
  assert (take 128 (drop 128 f) = drop 128 f) as ->
    by (apply take_ge; rewrite length_drop; lia).
  unfold pad. rewrite length_take, length_drop, H.
  change (128 `min` 150 <? 128)%nat with false.
  change (150 - 128 <? 128)%nat with true.
  change (128 - (150 - 128))%nat with 106%nat. reflexivity.
Qed.

(** C5 (as the code has it). For every file, feeding the frames written by
    xmodem_send (every block and EOT acknowledged) to xmodem_receive makes
    the receiver answer NAK, then ACK for every block and for EOT -- the
    replies the sender was given -- and commit the file with its trailing
    0x1A bytes stripped: exactly the original bytes when the file does not
    end in 0x1A.  A 150-byte file gives exactly two data blocks, block 1
    carrying bytes 0-127 unpadded and block 2 bytes 128-149 followed by 106
    bytes of 0x1A. *)
Theorem xmodem_roundtrip (f : list Z) (fname : string) (fuel fuel' : nat) :
  exists ls lr : line,
    xmodem_send (nblocks f + 2 + fuel) fname (Some f) (fresh (acking f)) = Returned ls
    /\ xmodem_receive (nblocks f + 1 + fuel') (fresh (raw_writes (tx ls))) = Returned lr
    /\ raw_writes (tx lr) = acking f
    /\ saved lr = Some (strip_filler (length f) f)
    /\ (last f <> Some 0x1A -> saved lr = Some f)
    /\ (length f = 150%nat ->
          raw_writes (tx ls)
          = [packet SOH 1 (take 128 f);
             packet SOH 2 (drop 128 f ++ replicate 106 0x1A); [EOT]]).
Proof.
  eexists. eexists. split; [apply xmodem_send_acked|]. cbn [tx].
  assert (raw_writes
            ([Say (XmodemSendBanner fname); Say WaitingForReceiver]
               ++ map Raw (frames_from (nblocks f) 1 f)
               ++ [Raw [EOT]; Say TransferComplete])
          = frames_from (nblocks f) 1 f ++ [[EOT]]) as Hraw
    by (rewrite !raw_writes_app, raw_writes_map_Raw; reflexivity).
  rewrite Hraw. split; [apply xmodem_receive_frames|]. cbn [tx saved].
  split; [|split; [reflexivity|split]].
  - rewrite !raw_writes_app, raw_writes_replicate_Raw. cbn [raw_writes app].
    now rewrite app_nil_r.
  - intros Hlast. now rewrite strip_filler_id.
  - intros H150. now rewrite frames_150.
Qed.

(** A 150-byte file that contains 0x1A but does not end with it. *)
Lemma xmodem_roundtrip_witness :
  exists ls lr : line,
    xmodem_send (nblocks file150 + 2 + 0) "F" (Some file150) (fresh (acking file150))
      = Returned ls
    /\ xmodem_receive (nblocks file150 + 1 + 0) (fresh (raw_writes (tx ls))) = Returned lr
    /\ saved lr = Some file150
    /\ raw_writes (tx ls)
       = [packet SOH 1 (take 128 file150);
          packet SOH 2 (drop 128 file150 ++ replicate 106 0x1A); [EOT]].
Proof.
  destruct (xmodem_roundtrip file150 "F" 0 0) as (ls & lr & Hs & Hr & _ & _ & Hid & H150).
  exists ls, lr. split; [exact Hs|]. split; [exact Hr|]. split.
  - apply Hid. vm_compute. discriminate.
  - apply H150. reflexivity.
Defined.

(** C5 as stated fails: a two-byte file ending in 0x1A comes back one byte
    long. *)
Lemma xmodem_roundtrip_drops_final_filler :
  exists ls lr : line,
    xmodem_send 3 "F" (Some [0x41; 0x1A]) (fresh (acking [0x41; 0x1A])) = Returned ls
    /\ xmodem_receive 2 (fresh (raw_writes (tx ls))) = Returned lr
    /\ saved lr = Some [0x41]
    /\ saved lr <> Some [0x41; 0x1A].
Proof.
  eexists. eexists. split; [vm_compute; reflexivity|].
  split; [vm_compute; reflexivity|]. split; [reflexivity | discriminate].
Qed.

(** *** Block numbers *)

Lemma wait_ack_advances (fuel : nat) :
  forall (deadline : Z) (pkt : list Z) (block_num : Z) (msg : notice) (l : line),
    match wait_ack fuel deadline pkt block_num msg l with
    | Exit (Acked block_num') _ => block_num' = (block_num + 1) mod 256
    | _ => True
    end.
Proof.
  induction fuel as [|fuel IH]; intros deadline pkt block_num msg l; [exact I|].
  cbn [wait_ack]. destruct (clock l <? deadline); [|exact I].
  destruct (in_waiting l) as [n l1]. destruct (0 <? n)%nat; [|apply IH].
  destruct (read 1 l1) as [b l2]. destruct b as [|c b']; [apply IH|].
  destruct (c =? ACK); [apply land_255|].
  destruct (c =? NAK); [apply IH|].
  destruct (c =? CAN); [exact I | apply IH].
Qed.

Lemma take_app_length' {A} (l k : list A) (n : nat) : n = length l -> take n (l ++ k) = l.
Proof. intros ->. apply take_app_length. Qed.

(** C6 (as the code has it). An ACK advances the sender's block number by
    one modulo 256, so 255 is followed by 0: in a transfer with every block
    acknowledged the [k]-th data block (from 0) carries number
    [(k+1) mod 256]. *)
Theorem xmodem_send_block_numbers (f : list Z) (fname : string) (fuel : nat) :
  (forall n deadline pkt block_num msg l,
      match wait_ack n deadline pkt block_num msg l with
      | Exit (Acked block_num') _ => block_num' = (block_num + 1) mod 256
      | _ => True
      end)
  /\ (255 + 1) mod 256 = 0
  /\ exists l : line,
       xmodem_send (nblocks f + 2 + fuel) fname (Some f) (fresh (acking f)) = Returned l
       /\ map (fun pkt => nth 1 pkt 0) (take (nblocks f) (raw_writes (tx l)))
          = map (fun k => Z.of_nat (k + 1) mod 256) (seq 0 (nblocks f)).
Proof.
  split; [intros n; apply wait_ack_advances|]. split; [reflexivity|].
  eexists. split; [apply xmodem_send_acked|]. cbn [tx].
  rewrite !raw_writes_app, raw_writes_map_Raw, frames_from_spec. cbn [raw_writes app].
  rewrite take_app_length' by now rewrite length_map, length_seq.
  rewrite map_map. reflexivity.
Qed.

(** The file of 256 full blocks used against C6. *)
Lemma xmodem_block_256_is_numbered_0 :
  exists l : line,
    xmodem_send 258 "F" (Some (replicate (256 * 128) 0x41))
      (fresh (acking (replicate (256 * 128) 0x41))) = Returned l
    /\ nth 1 (nth 254 (raw_writes (tx l)) []) 0 = 255
    /\ nth 1 (nth 255 (raw_writes (tx l)) []) 0 = 0
    /\ nth 1 (nth 255 (raw_writes (tx l)) []) 0 <> 1.
Proof.
  eexists. split; [vm_compute; reflexivity|].
  split; [vm_compute; reflexivity|]. split; [vm_compute; reflexivity|].
  vm_compute. discriminate.
Qed.

(** *** What the receiver writes to disk *)

(** The tests of the receive loop pass for the expected packet and for no
    other. *)
Lemma expected_accepts (block_num : Z) (pkt : list Z) :
  (length pkt <= 131)%nat -> expected block_num pkt = accepts block_num pkt.
Proof.
  intros Hle. unfold expected, accepts.
  destruct (Nat.eqb_spec (length pkt) 131) as [Hl|Hl]; cbn [andb].
  - destruct pkt as [|b0 [|b1 rest]]; try (simpl in Hl; lia).
    simpl in Hl. cbn [nth drop].
    assert (length rest = 129%nat) as Hr by lia.
    destruct (exists_last (l := rest)) as (d & cs & ->);
      [intros ->; simpl in Hr; lia|].
    rewrite length_app in Hr. simpl in Hr.
    rewrite !drop_0, removelast_last, take_app_length' by lia.
    replace (List.last (b0 :: b1 :: d ++ [cs]) 0) with cs
      by (change (b0 :: b1 :: d ++ [cs]) with (([b0; b1] ++ d) ++ [cs]);
          now rewrite last_last).
    unfold packet. cbn [app].
    destruct (Z.eqb_spec b0 (Z.land block_num 255)) as [E0|E0]; cbn [andb].
    + destruct (Z.eqb_spec b1 (255 - b0)) as [E1|E1]; cbn [andb].
      * destruct (Z.eqb_spec (Z.land (byte_sum d) 255) cs) as [E2|E2].
        -- apply bool_decide_eq_true_2. now subst.
        -- apply bool_decide_eq_false_2. intros [= _ _ H%app_inv_head]. congruence.
      * apply bool_decide_eq_false_2. intros [= H0 H1 _]. subst. congruence.
    + apply bool_decide_eq_false_2. intros [= H0 _ _]. congruence.
  - apply bool_decide_eq_false_2. intros H. apply Hl.
    apply (f_equal length) in H. unfold packet in H.
    cbn [length app] in H. rewrite length_app, length_take, length_drop in H.
    cbn [length] in H. lia.
Qed.

(** One turn of the receive loop, by what the receive buffer holds once the
    next batch has come in. *)
Lemma receive_loop_turn fuel block_num received (l : line) :
  receive_loop (S fuel) block_num received l
  = let l1 := snd (in_waiting l) in
    match rx l1 with
    | [] => receive_loop fuel block_num received l1
    | c :: r =>
        let l2 := Line r (arrivals l1) (tx l1) (clock l1) (saved l1) in
        if c =? SOH then
          let l3 := Line (drop 131 r) (arrivals l1) (tx l1) (clock l1) (saved l1) in
          if accepts block_num (take 131 r)
          then receive_loop fuel (Z.land (block_num + 1) 0xFF)
                 (received ++ removelast (drop 2 (take 131 r))) (write [ACK] l3)
          else receive_loop fuel block_num received (write [NAK] l3)
        else if c =? EOT then
          Returned (_write UploadComplete
                      (save (strip_filler (length received) received) (write [ACK] l2)))
        else if c =? CAN then Returned (_write UploadCancelled l2)
        else receive_loop fuel block_num received l2
    end.
Proof.
  cbn [receive_loop].
  assert (fst (in_waiting l) = length (rx (snd (in_waiting l)))) as Hn
    by (unfold in_waiting; destruct (arrivals l); reflexivity).
  destruct (in_waiting l) as [n l1]. cbn [fst snd] in *. subst n. cbv zeta.
  destruct (rx l1) as [|c r] eqn:Hrx; [reflexivity|].
  change (0 <? length (c :: r))%nat with true. cbv iota. unfold read. rewrite Hrx.
  change (take 1 (c :: r)) with [c]. change (drop 1 (c :: r)) with r.
  cbn [rx arrivals tx clock saved].
  destruct (c =? SOH); [|reflexivity].
  unfold accepts.
  destruct (Nat.leb_spec (length (take 131 r)) 130) as [Hlt|Hge].
  - assert ((length (take 131 r) =? 131)%nat = false) as ->
      by (apply Nat.eqb_neq; lia).
    assert ((length (take 131 r) <? 131)%nat = true) as ->
      by (apply Nat.ltb_lt; lia).
    reflexivity.
  - assert ((length (take 131 r) =? 131)%nat = true) as ->
      by (apply Nat.eqb_eq; rewrite length_take in *; lia).
    assert ((length (take 131 r) <? 131)%nat = false) as ->
      by (apply Nat.ltb_ge; lia).
    cbn [andb].
    destruct (nth 0 (take 131 r) 0 =? Z.land block_num 255); cbn [negb orb andb];
      [|reflexivity].
    destruct (nth 1 (take 131 r) 0 =? 255 - nth 0 (take 131 r) 0);
      cbn [negb orb andb]; [|reflexivity].
    destruct (Z.land (byte_sum (removelast (drop 2 (take 131 r)))) 255
              =? List.last (take 131 r) 0); reflexivity.
Qed.

Lemma pending_in_waiting (l : line) :
  let l1 := snd (in_waiting l) in
  pending l1 = pending l /\ tx l1 = tx l /\ saved l1 = saved l
  /\ (length (arrivals l1) + length (pending l1) <= length (arrivals l) + length (pending l))%nat
  /\ (arrivals l <> [] ->
      (length (arrivals l1) + length (pending l1) < length (arrivals l) + length (pending l))%nat)
  /\ (arrivals l = [] -> arrivals l1 = [] /\ rx l1 = rx l).
Proof.
  unfold in_waiting, pending. destruct (arrivals l) as [|batch later] eqn:Ha;
    cbn [snd rx arrivals tx saved concat length].
  - rewrite Ha. repeat split; try (cbn; lia); try congruence.
  - rewrite <- app_assoc. repeat split; try discriminate.
    + rewrite !length_app. lia.
    + intros _. rewrite !length_app. lia.
Qed.

Lemma strip_filler_spec (n : nat) :
  forall received : list Z,
    exists k, received = strip_filler n received ++ replicate k 0x1A.
Proof.
  induction n as [|n IH]; intros received.
  - exists 0%nat. cbn. now rewrite app_nil_r.
  - cbn [strip_filler]. destruct (last received) as [x|] eqn:E.
    + destruct (Z.eqb_spec x 0x1A) as [->|Hx].
      * destruct (last_Some received 0x1A) as [[l' ->] _]; [exact E|].
        rewrite removelast_last. destruct (IH l') as [k Hk].
        exists (S k). rewrite replicate_S_end, app_assoc, <- Hk. reflexivity.
      * exists 0%nat. cbn. now rewrite app_nil_r.
    + exists 0%nat. cbn. now rewrite app_nil_r.
Qed.

Lemma accepted_data (block_num : Z) (pkt : list Z) :
  accepts block_num pkt = true -> removelast (drop 2 pkt) = take 128 (drop 2 pkt).
Proof.
  unfold accepts. intros H.
  destruct (Nat.eqb_spec (length pkt) 131) as [Hl|Hl]; [|discriminate H].
  destruct pkt as [|b0 [|b1 rest]]; try (simpl in Hl; lia).
  simpl in Hl. cbn [drop]. rewrite !drop_0.
  destruct (exists_last (l := rest)) as (d & cs & ->);
    [intros ->; simpl in Hl; lia|].
  rewrite length_app in Hl. simpl in Hl.
  rewrite removelast_last, take_app_length' by lia. reflexivity.
Qed.

Lemma receive_loop_reads (fuel : nat) :
  forall (block_num : Z) (received : list Z) (l : line),
  exists items,
    forallb legal items = true
    /\ match receive_loop fuel block_num received l with
       | Returned l' =>
           (pending l = flat_map bytes_of items ++ EOT :: pending l'
            /\ (exists data k,
                  saved l' = Some data
                  /\ received ++ payload block_num items = data ++ replicate k 0x1A
                  /\ last data <> Some 0x1A)
            /\ tx l' = tx l ++ replies block_num items ++ [Raw [ACK]; Say UploadComplete])
           \/ (pending l = flat_map bytes_of items ++ CAN :: pending l'
               /\ saved l' = saved l
               /\ tx l' = tx l ++ replies block_num items ++ [Say UploadCancelled])
       | Looping l' =>
           pending l = flat_map bytes_of items ++ pending l'
           /\ saved l' = saved l
           /\ tx l' = tx l ++ replies block_num items
           /\ ((fuel < length (arrivals l) + length (pending l))%nat
               \/ (rx l' = [] /\ arrivals l' = []))
       | Raised _ => False
       end.
Proof.
  induction fuel as [|fuel IH]; intros block_num received l.
  - exists []. split; [reflexivity|]. cbn [receive_loop flat_map replies app].
    rewrite app_nil_r. repeat split.
    unfold pending.
    destruct (arrivals l) as [|b a]; [|left; cbn [length]; lia].
    destruct (rx l) as [|c r]; [right; split; reflexivity|left; cbn; lia].
  - rewrite receive_loop_turn. cbv zeta.
    destruct (pending_in_waiting l) as (Hp & Ht & Hs & Hle & Hlt & Hsame).
    set (l1 := snd (in_waiting l)) in *.
    destruct (rx l1) as [|c r] eqn:Hrx.
    + destruct (IH block_num received l1) as (items & Hlegal & H).
      exists items. split; [exact Hlegal|].
      rewrite Ht, Hs in H.
      destruct (receive_loop fuel block_num received l1) as [l'|l'|l'];
        [rewrite <- Hp; exact H | exact H |].
      destruct H as (H1 & H2 & H3 & H4). rewrite Hp in H1. repeat split; try assumption.
      destruct H4 as [H4|H4]; [|right; exact H4].
      destruct (arrivals l) as [|b a] eqn:Ha.
      * destruct (Hsame eq_refl) as [Ha1 Hr1].
        exfalso. unfold pending in H4. rewrite Ha1, Hrx in H4. cbn in H4. lia.
      * left. specialize (Hlt ltac:(discriminate)). lia.
    + assert (forall t', pending l = c :: pending (Line r (arrivals l1) t' (clock l1) (saved l1)))
        as Hp2 by (intros t'; rewrite <- Hp; unfold pending; now rewrite Hrx).
      assert (forall t', (length (arrivals l1)
                          + length (pending (Line r (arrivals l1) t' (clock l1) (saved l1)))
                          < length (arrivals l) + length (pending l))%nat) as Hm2.
      { intros t'. rewrite Hp in Hle. rewrite (Hp2 t'). cbn [length]. lia. }
      destruct (Z.eqb_spec c SOH) as [->|Hsoh].
      * assert (forall t', pending l
                  = SOH :: take 131 r
                      ++ pending (Line (drop 131 r) (arrivals l1) t' (clock l1) (saved l1)))
          as Hp3.
        { intros t'. rewrite (Hp2 t'). unfold pending. cbn [rx arrivals].
          now rewrite app_assoc, take_drop. }
        assert (forall t', (length (arrivals l1)
                  + length (pending (Line (drop 131 r) (arrivals l1) t' (clock l1) (saved l1)))
                  < length (arrivals l) + length (pending l))%nat) as Hm3.
        { intros t'. specialize (Hm2 t'). unfold pending in *.
          cbn [rx arrivals] in *. rewrite !length_app, ?length_drop in *. lia. }
        assert (length (take 131 r) <= 131)%nat as Hlen by (rewrite length_take; lia).
        rewrite <- (expected_accepts block_num _ Hlen).
        destruct (expected block_num (take 131 r)) eqn:Hexp.
        -- rewrite (accepted_data block_num)
             by (now rewrite <- (expected_accepts block_num _ Hlen)).
           rewrite land_255.
           destruct (IH ((block_num + 1) mod 256)
                       (received ++ take 128 (drop 2 (take 131 r)))
                       (write [ACK] (Line (drop 131 r) (arrivals l1) (tx l1) (clock l1) (saved l1))))
             as (items & Hlegal & H).
           exists (Frame (take 131 r) :: items).
           split; [cbn [forallb legal]; rewrite Hlegal;
                   apply andb_true_intro; split; [apply Nat.leb_le; exact Hlen|reflexivity]|].
           cbn [flat_map bytes_of payload replies]. rewrite Hexp.
           unfold write in *. cbn [rx arrivals tx clock saved] in *.
           destruct (receive_loop fuel _ _ _) as [l'|l'|l'].
           ++ destruct H as [(H1 & (data & k & Hd1 & Hd2 & Hd3) & H3)|(H1 & H2 & H3)].
              ** left. split; [|split].
                 --- rewrite (Hp3 (tx l1 ++ [Raw [ACK]])).
                     change (pending (Line (drop 131 r) (arrivals l1) (tx l1 ++ [Raw [ACK]])
                                        (clock l1) (saved l1)))
                       with (pending (Line (drop 131 r) (arrivals l1) (tx l1 ++ [Raw [ACK]])
                                        (clock l1) (saved l1))) in H1.
                     rewrite H1. cbn [app]. now rewrite <- !app_assoc.
                 --- exists data, k. rewrite <- app_assoc in Hd2. auto.
                 --- rewrite H3, Ht. now rewrite <- !app_assoc.
              ** right. split; [|split].
                 --- rewrite (Hp3 (tx l1 ++ [Raw [ACK]])), H1. cbn [app].
                     now rewrite <- !app_assoc.
                 --- now rewrite H2.
                 --- rewrite H3, Ht. now rewrite <- !app_assoc.
           ++ exact H.
           ++ destruct H as (H1 & H2 & H3 & H4). split; [|split; [|split]].
              ** rewrite (Hp3 (tx l1 ++ [Raw [ACK]])), H1. cbn [app].
                 now rewrite <- !app_assoc.
              ** now rewrite H2.
              ** rewrite H3, Ht. now rewrite <- !app_assoc.
              ** destruct H4 as [H4|H4]; [left|right; exact H4].
                 specialize (Hm3 (tx l1 ++ [Raw [ACK]])). lia.
        -- destruct (IH block_num received
                       (write [NAK] (Line (drop 131 r) (arrivals l1) (tx l1) (clock l1) (saved l1))))
             as (items & Hlegal & H).
           exists (Frame (take 131 r) :: items).
           split; [cbn [forallb legal]; rewrite Hlegal;
                   apply andb_true_intro; split; [apply Nat.leb_le; exact Hlen|reflexivity]|].
           cbn [flat_map bytes_of payload replies]. rewrite Hexp.
           unfold write in *. cbn [rx arrivals tx clock saved] in *.
           destruct (receive_loop fuel _ _ _) as [l'|l'|l'].
           ++ destruct H as [(H1 & (data & k & Hd1 & Hd2 & Hd3) & H3)|(H1 & H2 & H3)].
              ** left. split; [|split].
                 --- rewrite (Hp3 (tx l1 ++ [Raw [NAK]])), H1. cbn [app].
                     now rewrite <- !app_assoc.
                 --- exists data, k. auto.
                 --- rewrite H3, Ht. now rewrite <- !app_assoc.
              ** right. split; [|split].
                 --- rewrite (Hp3 (tx l1 ++ [Raw [NAK]])), H1. cbn [app].
                     now rewrite <- !app_assoc.
                 --- now rewrite H2.
                 --- rewrite H3, Ht. now rewrite <- !app_assoc.
           ++ exact H.
           ++ destruct H as (H1 & H2 & H3 & H4). split; [|split; [|split]].
              ** rewrite (Hp3 (tx l1 ++ [Raw [NAK]])), H1. cbn [app].
                 now rewrite <- !app_assoc.
              ** now rewrite H2.
              ** rewrite H3, Ht. now rewrite <- !app_assoc.
              ** destruct H4 as [H4|H4]; [left|right; exact H4].
                 specialize (Hm3 (tx l1 ++ [Raw [NAK]])). lia.
      * destruct (Z.eqb_spec c EOT) as [->|Heot].
        -- exists []. split; [reflexivity|]. left.
           cbn [flat_map payload replies app]. unfold _write, save, write.
           cbn [rx arrivals tx clock saved]. split; [|split].
           ++ rewrite (Hp2 (tx l1)). reflexivity.
           ++ destruct (strip_filler_spec (length received) received) as [k Hk].
              exists (strip_filler (length received) received), k.
              split; [reflexivity|]. split; [now rewrite app_nil_r|].
              apply strip_filler_last. lia.
           ++ rewrite Ht, <- app_assoc. reflexivity.
        -- destruct (Z.eqb_spec c CAN) as [->|Hcan].
           ++ exists []. split; [reflexivity|]. right.
              cbn [flat_map payload replies app]. unfold _write.
              cbn [rx arrivals tx clock saved]. split; [rewrite (Hp2 (tx l1)); reflexivity|].
              split; [exact Hs|]. now rewrite Ht.
           ++ destruct (IH block_num received
                          (Line r (arrivals l1) (tx l1) (clock l1) (saved l1)))
                as (items & Hlegal & H).
              exists (Skipped c :: items).
              split.
              { cbn [forallb legal]. rewrite Hlegal.
                apply andb_true_intro; split; [|reflexivity].
                apply negb_true_iff.
                destruct (Z.eqb_spec c SOH); [contradiction|].
                destruct (Z.eqb_spec c EOT); [contradiction|].
                destruct (Z.eqb_spec c CAN); [contradiction|]. reflexivity. }
              cbn [flat_map bytes_of payload replies].
              cbn [rx arrivals tx clock saved] in *.
              destruct (receive_loop fuel _ _ _) as [l'|l'|l'].
              ** destruct H as [(H1 & Hd & H3)|(H1 & H2 & H3)].
                 --- left. split; [|split].
                     +++ rewrite (Hp2 (tx l1)), H1. reflexivity.
                     +++ exact Hd.
                     +++ now rewrite H3, Ht.
                 --- right. split; [|split].
                     +++ rewrite (Hp2 (tx l1)), H1. reflexivity.
                     +++ now rewrite H2.
                     +++ now rewrite H3, Ht.
              ** exact H.
              ** destruct H as (H1 & H2 & H3 & H4). split; [|split; [|split]].
                 --- rewrite (Hp2 (tx l1)), H1. reflexivity.
                 --- now rewrite H2.
                 --- now rewrite H3, Ht.
                 --- destruct H4 as [H4|H4]; [left|right; exact H4].
                     specialize (Hm2 (tx l1)). lia.
Qed.

(** C10. For every incoming byte stream, xmodem_receive writes the
    destination file only in the EOT branch.  What it has taken from the
    line is a run of turns -- bytes that are no command, and frames: SOH
    with the bytes read after it -- answered ACK for each frame that is the
    expected packet and NAK for any other; then
    - it returns having read EOT in command position: it answers ACK,
      writes the file and reports "Upload complete."; the file holds the
      data of the expected frames, in order, less all the 0x1A bytes at
      their end, so it never ends with 0x1A; or
    - it returns having read CAN: the file is as it was; or
    - it is still in its loop, and the file is as it was; once the loop has
      run more often than there are batches and bytes to come, this means
      that the whole stream has been read and held no EOT or CAN in command
      position. *)
Theorem xmodem_receive_commits_on_eot_only (fuel : nat) (l : line) :
  exists items,
    forallb legal items = true
    /\ match xmodem_receive fuel l with
       | Returned l' =>
           (pending l = flat_map bytes_of items ++ EOT :: pending l'
            /\ (exists data k,
                  saved l' = Some data
                  /\ payload 1 items = data ++ replicate k 0x1A
                  /\ last data <> Some 0x1A)
            /\ tx l' = tx l ++ [Say XmodemReceiveBanner; Raw [NAK]]
                         ++ replies 1 items ++ [Raw [ACK]; Say UploadComplete])
           \/ (pending l = flat_map bytes_of items ++ CAN :: pending l'
               /\ saved l' = saved l
               /\ tx l' = tx l ++ [Say XmodemReceiveBanner; Raw [NAK]]
                            ++ replies 1 items ++ [Say UploadCancelled])
       | Looping l' =>
           pending l = flat_map bytes_of items ++ pending l'
           /\ saved l' = saved l
           /\ tx l' = tx l ++ [Say XmodemReceiveBanner; Raw [NAK]] ++ replies 1 items
           /\ ((fuel < length (arrivals l) + length (pending l))%nat
               \/ (rx l' = [] /\ arrivals l' = []))
       | Raised _ => False
       end.
Proof.
  unfold xmodem_receive.
  set (l0 := write [NAK] (_write XmodemReceiveBanner l)).
  destruct (receive_loop_reads fuel 1 [] l0) as (items & Hlegal & H).
  exists items. split; [exact Hlegal|].
  assert (pending l0 = pending l) as Hp by reflexivity.
  assert (tx l0 = tx l ++ [Say XmodemReceiveBanner; Raw [NAK]]) as Ht
    by (unfold l0, write, _write; cbn [tx]; now rewrite <- app_assoc).
  assert (saved l0 = saved l) as Hs by reflexivity.
  assert (arrivals l0 = arrivals l) as Ha by reflexivity.
  rewrite Hp, Ht, Hs, Ha in H.
  destruct (receive_loop fuel 1 [] l0); rewrite <- ?app_assoc in H; exact H.
Qed.

(** *** Waits without a deadline *)

Lemma receive_loop_silent (fuel : nat) :
  forall block_num received t c sv,
    receive_loop fuel block_num received (Line [] [] t c sv)
    = Looping (Line [] [] t c sv).
Proof.
  induction fuel as [|fuel IH]; intros block_num received t c sv; [reflexivity|].
  cbn [receive_loop in_waiting arrivals rx length Nat.ltb Nat.leb]. apply IH.
Qed.

Lemma await_ack_silent (fuel : nat) :
  forall t c sv, exists c', await_ack fuel (Line [] [] t c sv) = Spin (Line [] [] t c' sv).
Proof.
  induction fuel as [|fuel IH]; intros t c sv; [now eexists|].
  cbn [await_ack in_waiting arrivals rx length Nat.ltb Nat.leb]. apply IH.
Qed.

Lemma await_ack_prompt fuel rest t c sv :
  await_ack (S fuel) (Line [] ([ACK] :: rest) t c sv) = Exit tt (Line [] rest t c sv).
Proof. reflexivity. Qed.

Lemma nblocks_y_pos (f : list Z) : f <> [] -> (0 < nblocks_y f)%nat.
Proof.
  intros H. unfold nblocks_y.
  assert (0 < length f)%nat by (destruct f; [congruence | simpl; lia]).
  apply Nat.div_str_pos. lia.
Qed.

Lemma nblocks_y_drop (f : list Z) : nblocks_y (drop 1024 f) = (nblocks_y f - 1)%nat.
Proof.
  unfold nblocks_y. rewrite length_drop.
  destruct (Nat.le_gt_cases 1024 (length f)) as [H|H].
  - replace (length f + 1023)%nat with ((length f - 1024 + 1023) + 1 * 1024)%nat by lia.
    rewrite Nat.div_add by lia. lia.
  - replace (length f - 1024 + 1023)%nat with 1023%nat by lia.
    assert ((length f + 1023) / 1024 < 2)%nat by (apply Nat.Div0.div_lt_upper_bound; lia).
    change (1023 / 1024)%nat with 0%nat. lia.
Qed.

Lemma send_blocks_y_acked (n : nat) :
  forall (f : list Z) (block_num : Z) (fuel : nat) t c sv,
    nblocks_y f = n ->
    (exists l, send_blocks_y fuel f block_num (Line [] (replicate n [ACK]) t c sv) = Spin l)
    \/ (exists t', send_blocks_y fuel f block_num (Line [] (replicate n [ACK]) t c sv)
                  = Exit true (Line [] [] t' c sv)).
Proof.
  induction n as [|n IH]; intros f block_num fuel t c sv Hn.
  - destruct fuel as [|fuel]; [left; now eexists|]. right.
    assert (f = []) as ->.
    { destruct f as [|b f']; [reflexivity|].
      pose proof (nblocks_y_pos (b :: f') ltac:(discriminate)). lia. }
    now eexists.
  - destruct fuel as [|fuel]; [left; now eexists|].
    cbn [send_blocks_y].
    destruct (take 1024 f) as [|b chunk] eqn:Etake.
    { destruct f; [discriminate Hn | discriminate Etake]. }
    rewrite <- Etake. unfold write. cbn [clock tx rx arrivals saved].
    destruct fuel as [|fuel]; [left; now eexists|].
    change (replicate (S n) [ACK]) with ([ACK] :: replicate n [ACK]).
    rewrite wait_ack_prompt.
    apply IH. rewrite nblocks_y_drop, Hn. lia.
Qed.

(** A receiver that asks for the header with 'C', acknowledges it and every
    data block, and then says nothing more. *)
Lemma ymodem_send_silent_after_blocks (f : list Z) (fname : string) (fuel : nat) :
  ymodem_header fname (length f) <> None ->
  exists l, ymodem_send fuel fname (Some f)
              (fresh ([67] :: [ACK] :: replicate (nblocks_y f) [ACK])) = Looping l.
Proof.
  intros Hh. unfold ymodem_send, fresh, _write.
  destruct (ymodem_header fname (length f)) as [header|]; [|congruence].
  cbn [clock tx rx arrivals saved].
  destruct fuel as [|fuel]; [now eexists|].
  cbn [wait_receiver_y clock]. change (0 <? 0 + 20000) with true. cbv iota.
  cbn [in_waiting arrivals rx app length Nat.ltb Nat.leb read firstn skipn tx clock saved].
  change ((67 =? NAK) || (67 =? 67)) with true. cbv iota. unfold write.
  cbn [clock tx rx arrivals saved]. rewrite await_ack_prompt.
  match goal with
  | |- context [send_blocks_y ?n f 1 (Line [] _ ?t ?c ?sv)] =>
      destruct (send_blocks_y_acked (nblocks_y f) f 1 n t c sv eq_refl)
        as [[l ->]|[t' ->]]
  end; [now eexists|].
  unfold write. cbn [clock tx rx arrivals saved].
  match goal with
  | |- context [await_ack ?n (Line [] [] ?t ?c ?sv)] =>
      destruct (await_ack_silent n t c sv) as [c' ->]
  end.
  now eexists.
Qed.

Lemma ymodem_send_silent_after_header (f : list Z) (fname : string) (fuel : nat) :
  ymodem_header fname (length f) <> None ->
  exists l, ymodem_send fuel fname (Some f) (fresh [[67]]) = Looping l.
Proof.
  intros Hh. unfold ymodem_send, fresh, _write.
  destruct (ymodem_header fname (length f)) as [header|]; [|congruence].
  cbn [clock tx rx arrivals saved].
  destruct fuel as [|fuel]; [now eexists|].
  cbn [wait_receiver_y clock]. change (0 <? 0 + 20000) with true. cbv iota.
  cbn [in_waiting arrivals rx app length Nat.ltb Nat.leb read firstn skipn tx clock saved].
  change ((67 =? NAK) || (67 =? 67)) with true. cbv iota. unfold write.
  cbn [clock tx rx arrivals saved].
  match goal with
  | |- context [await_ack ?n (Line [] [] ?t ?c ?sv)] =>
      destruct (await_ack_silent n t c sv) as [c' ->]
  end.
  now eexists.
Qed.

(** The waits of xmodem_send do have one: on a line that stays silent it
    gives up when its clock reaches 20 s, after 400 polls. *)
Lemma xmodem_send_gives_up_on_silence :
  xmodem_send 401 "F" (Some file150) (fresh [])
  = Returned (Line [] []
      [Say (XmodemSendBanner "F"); Say WaitingForReceiver; Say NoReceiver] 20000 None).
Proof. vm_compute. reflexivity. Qed.

(** C8 fails on the code: three waits have no deadline.  However long they
    are followed, xmodem_receive on a line that stays silent, ymodem_send
    after the header packet when no ACK comes, and ymodem_send after EOT
    when no ACK comes, are still inside their loop. *)
Theorem transfer_waits_without_deadline
    (f : list Z) (fname : string) (fuel : nat)
    (Hheader : ymodem_header fname (length f) <> None) :
  (exists l, xmodem_receive fuel (fresh []) = Looping l)
  /\ (exists l, ymodem_send fuel fname (Some f) (fresh [[67]]) = Looping l)
  /\ (exists l, ymodem_send fuel fname (Some f)
                  (fresh ([67] :: [ACK] :: replicate (nblocks_y f) [ACK])) = Looping l).
Proof.
  split; [|split].
  - unfold xmodem_receive, fresh, _write, write. cbn [clock tx rx arrivals saved].
    rewrite receive_loop_silent. now eexists.
  - now apply ymodem_send_silent_after_header.
  - now apply ymodem_send_silent_after_blocks.
Qed.

Lemma transfer_waits_without_deadline_witness :
  ymodem_header "GAME.BIN" (length file150) <> None
  /\ (exists l, xmodem_receive 1000 (fresh []) = Looping l)
  /\ (exists l, ymodem_send 1000 "GAME.BIN" (Some file150) (fresh [[67]]) = Looping l)
  /\ (exists l, ymodem_send 1000 "GAME.BIN" (Some file150)
                  (fresh ([67] :: [ACK] :: replicate (nblocks_y file150) [ACK]))
                = Looping l).
Proof.
  assert (ymodem_header "GAME.BIN" (length file150) <> None) as H
    by (vm_compute; discriminate).
  split; [exact H|].
  exact (transfer_waits_without_deadline file150 "GAME.BIN" 1000 H).
Defined.

End TransferEngine.

(** * Properties of the registry, the worker and the bridge *)

Section RegistryAndBridge.
Import Text Hub Bridge Loop.
Local Open Scope Z_scope.

(** *** The take-over *)

Lemma take_over_ops_owned (s : session) (p : string) (h : hub) (o : owner) :
  active_ports s = true -> surrendered_ports s = true ->
  ACTIVE_PORTS h !! p = Some o ->
  take_over_ops s p h = [SurrenderAdd p; SurrenderClose (serial o); SurrenderPop p].
Proof. intros Ha Hs Ho. unfold take_over_ops. now rewrite Ha, Hs, Ho. Qed.

(** C1 (as the code has it). A port has at most one owner entry.  When the
    bridge takes over a port that a worker owns, it runs three statements:
    the port is added to the surrendered set, the owner's serial object is
    closed, the ownership entry is removed.  After the first of them the
    port is both owned and surrendered; when the three have run it is
    surrendered and no longer owned, the owner's handle is closed, and the
    status of every other port is what it was. *)
Theorem take_over_moves_port (s : session) (p : string) (h : hub) (o : owner)
    (Hactive : active_ports s = true) (Hsurrendered : surrendered_ports s = true)
    (Hown : ACTIVE_PORTS h !! p = Some o) :
  (forall o' : owner, ACTIVE_PORTS h !! p = Some o' -> o' = o)
  /\ take_over_ops s p h = [SurrenderAdd p; SurrenderClose (serial o); SurrenderPop p]
  /\ (owned p (exec (SurrenderAdd p) h) /\ surrendered p (exec (SurrenderAdd p) h))
  /\ (~ owned p (execs (take_over_ops s p h) h)
      /\ surrendered p (execs (take_over_ops s p h) h)
      /\ serial o ∈ closed (execs (take_over_ops s p h) h))
  /\ (forall q : string, q <> p ->
        ACTIVE_PORTS (execs (take_over_ops s p h) h) !! q = ACTIVE_PORTS h !! q
        /\ (surrendered q (execs (take_over_ops s p h) h) <-> surrendered q h)).
Proof.
  rewrite (take_over_ops_owned s p h o Hactive Hsurrendered Hown).
  unfold owned, surrendered, execs. cbn [foldl exec ACTIVE_PORTS SURRENDERED_PORTS closed].
  repeat split.
  - intros o' Ho'. congruence.
  - rewrite Hown. eauto.
  - set_solver.
  - rewrite lookup_delete_eq. intros [x Hx]. discriminate.
  - set_solver.
  - set_solver.
  - rewrite lookup_delete_ne; [reflexivity | congruence].
  - rewrite elem_of_union, elem_of_singleton. intros [Heq|Hin]; [congruence | exact Hin].
  - intros Hin. apply elem_of_union_r, Hin.
Qed.

(** COM3 is opened by its worker and then bridged from another session. *)
Lemma take_over_moves_port_witness :
  ACTIVE_PORTS com3_open !! "COM3" = Some (Owner "IBM" 7%nat)
  /\ ~ owned "COM3" (execs (take_over_ops prompting "COM3" com3_open) com3_open)
  /\ surrendered "COM3" (execs (take_over_ops prompting "COM3" com3_open) com3_open).
Proof.
  assert (ACTIVE_PORTS com3_open !! "COM3" = Some (Owner "IBM" 7%nat)) as Hown
    by reflexivity.
  split; [exact Hown|].
  destruct (take_over_moves_port prompting "COM3" com3_open (Owner "IBM" 7%nat)
              eq_refl eq_refl Hown)
    as (_ & _ & _ & (Hn & Hs & _) & _).
  split; [exact Hn | exact Hs].
Defined.

(** C1 as stated fails: after the first statement of the take-over of COM3
    the port is owned and surrendered at once. *)
Lemma take_over_passes_through_both :
  take 1 (take_over_ops prompting "COM3" com3_open) = [SurrenderAdd "COM3"]
  /\ owned "COM3" (execs [SurrenderAdd "COM3"] com3_open)
  /\ surrendered "COM3" (execs [SurrenderAdd "COM3"] com3_open).
Proof.
  split; [reflexivity|]. split.
  - exists (Owner "IBM" 7%nat). reflexivity.
  - unfold surrendered.
    change (SURRENDERED_PORTS (execs [SurrenderAdd "COM3"] com3_open))
      with ({["COM3"]} ∪ (∅ : gset string)).
    apply elem_of_union_l, elem_of_singleton. reflexivity.
Qed.

(** *** The port worker *)

(** At the first open, a device that is not there stops the worker. *)
Lemma absent_at_first_open_stops (name port msg : string) (h : hub) :
  not_present msg = true ->
  at_ (port_worker name port [OpenFails (SerialException msg)] h) = Stopped.
Proof. intros H. cbn. unfold on_exception. cbn. now rewrite H. Qed.

(** The [except] clause does not look at whether the port was open before:
    the same failure stops the worker whenever it is about to open. *)
Lemma absent_at_any_open_stops (name port msg : string) (w : worker) :
  at_ w = AtOpen -> not_present msg = true ->
  at_ (step name port (OpenFails (SerialException msg)) w) = Stopped
  /\ opened (step name port (OpenFails (SerialException msg)) w) = opened w.
Proof.
  intros Hat H. unfold step. rewrite Hat. unfold on_exception. rewrite H.
  split; reflexivity.
Qed.

Lemma stopped_for_good (name port : string) (ev : event) (w : worker) :
  at_ w = Stopped -> at_ (step name port ev w) = Stopped.
Proof. intros H. unfold step. rewrite H. destruct ev; cbn; auto. Qed.

(** C3 fails on the code. The worker of COM6 opens its port, loses it (the
    session raises), sleeps five seconds and tries again; the device is
    gone, and the worker returns for good although the port had been open. *)
Theorem port_worker_stops_after_reopen_failure :
  at_ (port_worker "IBM" "COM6"
         [Open 1%nat; SessionRaises port_lost; OpenFails port_gone] boot) = Stopped
  /\ opened (port_worker "IBM" "COM6"
               [Open 1%nat; SessionRaises port_lost; OpenFails port_gone] boot) = 1%nat
  /\ slept (port_worker "IBM" "COM6"
              [Open 1%nat; SessionRaises port_lost; OpenFails port_gone] boot) = 5
  /\ forall evs,
       at_ (port_worker "IBM" "COM6"
              ([Open 1%nat; SessionRaises port_lost; OpenFails port_gone] ++ evs) boot)
       = Stopped.
Proof.
  unfold port_worker at 4. setoid_rewrite foldl_app.
  fold (port_worker "IBM" "COM6" [Open 1%nat; SessionRaises port_lost; OpenFails port_gone] boot).
  set (w := port_worker "IBM" "COM6" _ boot).
  assert (at_ w = Stopped) as Hw by (vm_compute; reflexivity).
  split; [exact Hw|]. split; [vm_compute; reflexivity|]. split; [vm_compute; reflexivity|].
  intros evs. revert Hw. generalize w. clear w.
  induction evs as [|ev evs IH]; intros w Hw; [exact Hw|].
  cbn [foldl]. apply IH. now apply stopped_for_good.
Qed.

(** *** A bridge that cannot be opened *)

Lemma open_loop_refused (n k : nat) :
  open_loop n k (fun _ => Refused) = (None, n).
Proof.
  revert k. induction n as [|n IH]; intros k; [reflexivity|].
  cbn [open_loop]. now rewrite IH.
Qed.

(** C7 fails on the code. A session that was given both registries has
    collected every field and asks for a port that a worker owns; every open
    attempt is refused.  The error is reported and the prompts start again
    from the first field, but the port stays in the surrendered set (and out
    of ACTIVE_PORTS): nothing removes it. *)
Theorem failed_bridge_open_leaves_port_surrendered
    (nt : bool) (s : session) (h : hub) (o : owner) (pn b d sb : Z)
    (par : ascii) (x r : bool)
    (Hactive : active_ports s = true) (Hsurrendered : surrendered_ports s = true)
    (Hown : ACTIVE_PORTS h !! upper ("COM" +:+ text_of_int pn) = Some o) :
  let port_name := "COM" +:+ text_of_int pn in
  let v := Values (Some pn) (Some b) (Some d) (Some sb) (Some par) (Some x) (Some r) in
  let e := open_requested nt (fun _ => Refused) s v pn h in
  act e = NoAction
  /\ stage (after e) = 0%nat
  /\ said e = [TakingOver port_name; UnableToOpen port_name; PressAnyKey; Intro]
  /\ backoffs e = 6%nat
  /\ SURRENDERED_PORTS (reg e) = {[upper port_name]} ∪ SURRENDERED_PORTS h
  /\ surrendered (upper port_name) (reg e)
  /\ ~ owned (upper port_name) (reg e).
Proof.
  intros port_name v e. subst e v port_name. unfold open_requested.
  cbn [data_bits parity stop_bits baud xonxoff rtscts]. unfold take_over_ops.
  cbn [set_vals active_ports surrendered_ports]. rewrite Hactive, Hsurrendered, Hown.
  cbn [app]. rewrite open_loop_refused.
  unfold open_failed, execs, owned, surrendered.
  cbn [act after reg said backoffs set_stage stage foldl exec app
       ACTIVE_PORTS SURRENDERED_PORTS].
  repeat split.
  - apply elem_of_union_l, elem_of_singleton. reflexivity.
  - rewrite lookup_delete_eq. intros [y Hy]. discriminate.
Qed.

(** The whole path: the worker of COM3 has its port open; a session on COM1
    enters the bridge from the menu and answers every prompt; COM3 cannot be
    opened.  The session is back at the first prompt, and the worker of COM3,
    whose serial object was closed under it, waits for a restore that never
    comes. *)
Lemma failed_bridge_open_leaves_port_surrendered_witness :
  ACTIVE_PORTS com3_open !! upper ("COM" +:+ text_of_int 3) = Some (Owner "IBM" 7%nat)
  /\ stage (after (open_requested false (fun _ => Refused) prompting
                     (Values (Some 3) (Some 9600) (Some 8) (Some 1)
                        (Some "N"%char) (Some false) (Some false)) 3 com3_open)) = 0%nat
  /\ surrendered "COM3" (reg (open_requested false (fun _ => Refused) prompting
                     (Values (Some 3) (Some 9600) (Some 8) (Some 1)
                        (Some "N"%char) (Some false) (Some false)) 3 com3_open)).
Proof.
  assert (ACTIVE_PORTS com3_open !! upper ("COM" +:+ text_of_int 3)
          = Some (Owner "IBM" 7%nat)) as Hown by reflexivity.
  split; [exact Hown|].
  destruct (failed_bridge_open_leaves_port_surrendered false prompting com3_open
              (Owner "IBM" 7%nat)
              3 9600 8 1 "N"%char false false eq_refl eq_refl Hown)
    as (_ & Hstage & _ & _ & _ & Hsur & _).
  split; [exact Hstage | exact Hsur].
Defined.

Lemma bridge_open_failure_end_to_end :
  exists st,
    on_data false (fun _ => Refused) typed_config (start on_com1 com3_open)
      = Continue st
    /\ cur st = COMBRIDGE_PROMPT
    /\ option_map stage (pending_bridge st) = Some 0%nat
    /\ elements (SURRENDERED_PORTS (process st)) = ["COM3"]
    /\ ACTIVE_PORTS (process st) !! "COM3" = None
    /\ at_ (foldl (fun w ev => step "IBM" "COM3" ev w)
              (Worker (InSession 7%nat) 1 0 (process st))
              [SessionRaises port_lost; Poll; Poll; Poll])
       = WaitRestore.
Proof.
  eexists. split; [vm_compute; reflexivity|].
  repeat split; vm_compute; reflexivity.
Qed.

(** *** The global ATM command *)

(** What a line reads as: bytes that are no UTF-8 are dropped and blanks
    around the text are removed, the no-break space among them; a character
    above U+007F inside the line stays, so AT, e with an acute accent, M is
    not ATM. *)
Lemma line_text_keeps_characters :
  line_text [0xC2; 0xA0; 0x41; 0x54; 0x4D; 0xFF] = Some "ATM"
  /\ decode [0x41; 0x54; 0xC3; 0xA9; 0x4D] = [0x41; 0x54; 0xE9; 0x4D]
  /\ line_text [0x41; 0x54; 0xC3; 0xA9; 0x4D] = None
  /\ forall nt try_open st,
       dispatch nt try_open [0x41; 0x54; 0xC3; 0xA9; 0x4D] st = NotModelled.
Proof. repeat split. Qed.

Lemma hang_up_spec (st : state) :
  tcp_sock (hang_up st) = None
  /\ (forall sock, tcp_sock st = Some sock -> sock ∈ closed_sockets (hang_up st))
  /\ ser (hang_up st) = ser st
  /\ bridge_session (hang_up st) = bridge_session st
  /\ process (hang_up st) = process st.
Proof.
  unfold hang_up. destruct (tcp_sock st) as [sock|] eqn:E; cbn.
  - repeat split. intros sock' [= <-]. apply elem_of_union_l, elem_of_singleton. reflexivity.
  - repeat split; [exact E | discriminate].
Qed.

Lemma close_bridge_spec (st : state) :
  bridge_session (close_bridge st) = None
  /\ (forall b bs, bridge_session st = Some b -> bridged b = Some bs ->
        ident bs ∈ closed (process (close_bridge st)))
  /\ ser (close_bridge st) = ser st
  /\ tcp_sock (close_bridge st) = tcp_sock st
  /\ closed_sockets (close_bridge st) = closed_sockets st
  /\ SURRENDERED_PORTS (process (close_bridge st)) = SURRENDERED_PORTS (process st)
  /\ ACTIVE_PORTS (process (close_bridge st)) = ACTIVE_PORTS (process st).
Proof.
  unfold close_bridge. destruct (bridge_session st) as [b|] eqn:E.
  - cbn. repeat split; try (destruct (bridged b); reflexivity).
    intros b' bs [= <-] Hbs. rewrite Hbs. cbn.
    apply elem_of_union_l, elem_of_singleton. reflexivity.
  - repeat split; [exact E | discriminate].
Qed.

(** C2 (what the code does). Whenever a line that reads ATM (whatever its
    case, blanks around it ignored) is dispatched, in any mode, the session
    closes the remote TCP connection if one is open, closes the bridged
    serial port if a bridge is active and forgets the bridge session; then,
    if its own port is in the surrendered set, it closes its own port and
    the session ends; otherwise it returns to MENU.  It never does the
    restore: the surrendered set and the owners are what they were, so a
    port that was surrendered for the bridge stays surrendered. *)
Theorem atm_never_restores_bridged_port
    (nt : bool) (try_open : nat -> open_result) (raw_line : list Z)
    (line_str : string) (st : state)
    (Hline : line_text raw_line = Some line_str)
    (Hatm : upper line_str = "ATM") :
  exists st',
    ((dispatch nt try_open raw_line st = Continue st' /\ cur st' = MENU
        /\ ~ (port (ser st) <> ""
              /\ upper (port (ser st)) ∈ SURRENDERED_PORTS (process st)))
     \/ (dispatch nt try_open raw_line st = Return st'
         /\ port (ser st) <> ""
         /\ upper (port (ser st)) ∈ SURRENDERED_PORTS (process st)
         /\ ident (ser st) ∈ closed (process st')))
    /\ tcp_sock st' = None
    /\ (forall sock, tcp_sock st = Some sock -> sock ∈ closed_sockets st')
    /\ bridge_session st' = None
    /\ (forall b bs, bridge_session st = Some b -> bridged b = Some bs ->
          ident bs ∈ closed (process st'))
    /\ SURRENDERED_PORTS (process st') = SURRENDERED_PORTS (process st)
    /\ ACTIVE_PORTS (process st') = ACTIVE_PORTS (process st).
Proof.
  unfold dispatch. rewrite Hline. cbv zeta.
  rewrite bool_decide_eq_true_2 by exact Hatm. unfold global_ATM.
  destruct (hang_up_spec st) as (Ht & Hsock & Hser & Hbr & Hproc).
  destruct (close_bridge_spec (hang_up st)) as (Hb & Hbs & Hser' & Ht' & Hcs & Hsur & Hact).
  rewrite Hser', Hser, Hsur, Hproc.
  rewrite Hproc in Hsur, Hact.
  set (st1 := close_bridge (hang_up st)) in *.
  destruct (decide (port (ser st) = "")) as [Hp|Hp];
    [|destruct (decide (upper (port (ser st)) ∈ SURRENDERED_PORTS (process st))) as [Hin|Hin]].
  - rewrite (bool_decide_eq_true_2 _ Hp). cbn [negb andb].
    eexists. split; [left; split; [reflexivity|split; [reflexivity|tauto]]|].
    cbn. rewrite Hcs. repeat split; try assumption.
    + now rewrite Ht', Ht.
    + intros b bs H1 H2. apply (Hbs b bs); [now rewrite Hbr | exact H2].
  - rewrite (bool_decide_eq_false_2 _ Hp), (bool_decide_eq_true_2 _ Hin). cbn [negb andb].
    eexists. split; [right; split; [reflexivity|]|].
    + repeat split; try assumption. cbn.
      apply elem_of_union_l, elem_of_singleton. reflexivity.
    + cbn. rewrite Hcs. repeat split; try assumption.
      * now rewrite Ht', Ht.
      * intros b bs H1 H2. apply elem_of_union_r.
        apply (Hbs b bs); [now rewrite Hbr | exact H2].
  - rewrite (bool_decide_eq_false_2 _ Hp), (bool_decide_eq_false_2 _ Hin). cbn [negb andb].
    eexists. split; [left; split; [reflexivity|split; [reflexivity|tauto]]|].
    cbn. rewrite Hcs. repeat split; try assumption.
    + now rewrite Ht', Ht.
    + intros b bs H1 H2. apply (Hbs b bs); [now rewrite Hbr | exact H2].
Qed.

(** A session on COM1 with a remote connection and a live bridge to COM3,
    which was surrendered for it. *)
Lemma atm_never_restores_bridged_port_witness :
  line_text (encode " atm ") = Some "atm"
  /\ exists st',
       tcp_sock st' = None /\ 4%nat ∈ closed_sockets st'
       /\ bridge_session st' = None /\ 9%nat ∈ closed (process st')
       /\ "COM3" ∈ SURRENDERED_PORTS (process st')
       /\ ACTIVE_PORTS (process st') !! "COM3" = None.
Proof.
  split; [reflexivity|].
  destruct (atm_never_restores_bridged_port false (fun _ => Refused) (encode " atm ") "atm"
              (State on_com1 COMBRIDGE (Some 4%nat) (Some (Live bridge_to_com3))
                 None [] [] ∅ com3_bridged) eq_refl eq_refl)
    as (st' & _ & Ht & Hs & Hb & Hc & Hsur & Hact).
  exists st'. split; [exact Ht|]. split; [apply Hs; reflexivity|].
  split; [exact Hb|].
  split; [exact (Hc _ (SerialObj 9%nat "COM3") eq_refl eq_refl)|].
  split; [rewrite Hsur; apply (bool_decide_unpack _); vm_compute; exact I
         |rewrite Hact; reflexivity].
Defined.

(** ATM does not return to MENU when the line of the session is itself in
    the surrendered set (it has just been taken over): the session ends. *)
Lemma atm_on_surrendered_line_ends_session :
  exists st',
    dispatch false (fun _ => Refused) (encode "ATM")
      (start on_com1 (execs [Register "COM1" "APPLE2" 1%nat; SurrenderAdd "COM1"] boot))
      = Return st'
    /\ forall st'',
         dispatch false (fun _ => Refused) (encode "ATM")
           (start on_com1 (execs [Register "COM1" "APPLE2" 1%nat; SurrenderAdd "COM1"] boot))
         <> Continue st''.
Proof.
  eexists. split; [vm_compute; reflexivity|].
  intros st'' H. vm_compute in H. discriminate H.
Qed.

(** From the start: the worker of COM3 has its port open, a session on COM1
    bridges to it and types ATM in the same burst; the session is back in
    MENU, the bridged serial is closed, and COM3 is still in the surrendered
    set and without an owner.  (The ATH command of handle_input_runtime does
    remove it.) *)
Lemma atm_leaves_bridged_port_surrendered :
  exists st,
    on_data false (fun _ => Opened 9%nat) (typed_config ++ encode "ATM" ++ [CR])
      (start on_com1 com3_open) = Continue st
    /\ cur st = MENU /\ bridge_session st = None
    /\ elements (closed (process st)) = [9%nat; 7%nat]
    /\ elements (SURRENDERED_PORTS (process st)) = ["COM3"]
    /\ ACTIVE_PORTS (process st) !! "COM3" = None.
Proof.
  eexists. split; [vm_compute; reflexivity|].
  repeat split; vm_compute; reflexivity.
Qed.

Lemma ath_restores_bridged_port :
  elements (SURRENDERED_PORTS (handle_input_runtime bridge_to_com3 "ath" None com3_bridged).2)
  = [].
Proof. vm_compute. reflexivity. Qed.

(** *** What the bridge forwards *)

Lemma replace_single (x : Z) (new s : list Z) :
  replace [x] new s = flat_map (fun b => if b =? x then new else [b]) s.
Proof.
  unfold replace. induction s as [|b s IH]; [reflexivity|].
  cbn [replace_from starts_with flat_map length Nat.sub].
  rewrite Z.eqb_sym. destruct (b =? x); cbn [andb]; now rewrite IH.
Qed.

Lemma replace_from_0 (old new : list Z) (b : Z) (rest : list Z) :
  replace_from 0 old new (b :: rest)
  = if starts_with old (b :: rest)
    then new ++ replace_from (length old - 1) old new rest
    else b :: replace_from 0 old new rest.
Proof. reflexivity. Qed.

Lemma replace_from_S (k : nat) (old new : list Z) (b : Z) (rest : list Z) :
  replace_from (S k) old new (b :: rest) = replace_from k old new rest.
Proof. reflexivity. Qed.

Lemma replace_crlf_id (n : nat) :
  forall s : list Z, (length s <= n)%nat -> replace [CR; LF] [CR; LF] s = s.
Proof.
  unfold replace. induction n as [|n IH]; intros s Hn.
  - destruct s; [reflexivity | simpl in Hn; lia].
  - destruct s as [|b s]; [reflexivity|].
    rewrite replace_from_0.
    destruct (starts_with [CR; LF] (b :: s)) eqn:E.
    + destruct s as [|c s]; cbn [starts_with] in E.
      * rewrite andb_false_r in E. discriminate E.
      * apply andb_prop in E as [Eb Ec]. apply andb_prop in Ec as [Ec _].
        apply Z.eqb_eq in Eb, Ec. subst b c.
        change (length [CR; LF] - 1)%nat with 1%nat.
        rewrite replace_from_S, IH by (simpl in Hn; lia). reflexivity.
    + f_equal. apply IH. simpl in Hn. lia.
Qed.

(** The chain of line 294, byte by byte: CR becomes CR LF and LF becomes
    CR LF LF; every other byte is kept. *)
Lemma crlf_chain_expand (data : list Z) : crlf_chain data = flat_map expand data.
Proof.
  unfold crlf_chain. rewrite (replace_crlf_id (length data)) by lia.
  rewrite !replace_single.
  induction data as [|b data IH]; [reflexivity|].
  cbn [flat_map]. rewrite flat_map_app, IH. f_equal.
  unfold expand. destruct (Z.eqb_spec b LF) as [->|Hlf].
  - reflexivity.
  - cbn [flat_map app]. destruct (b =? CR); reflexivity.
Qed.

Lemma crlf_chain_keeps_other_bytes (data : list Z) :
  List.filter (fun b => negb (is_newline b)) (crlf_chain data)
  = List.filter (fun b => negb (is_newline b)) data.
Proof.
  rewrite crlf_chain_expand.
  induction data as [|b data IH]; [reflexivity|].
  cbn [flat_map]. rewrite List.filter_app, IH. cbn [List.filter].
  unfold expand, is_newline.
  destruct (Z.eqb_spec b CR) as [->|Hcr]; [reflexivity|].
  destruct (Z.eqb_spec b LF) as [->|Hlf]; [reflexivity|].
  cbn [List.filter]. unfold is_newline.
  destruct (Z.eqb_spec b CR); [congruence|]. destruct (Z.eqb_spec b LF); [congruence|].
  reflexivity.
Qed.

Lemma crlf_chain_without_newlines (data : list Z) :
  forallb (fun b => negb (is_newline b)) data = true -> crlf_chain data = data.
Proof.
  rewrite crlf_chain_expand.
  induction data as [|b data IH]; [reflexivity|].
  cbn [forallb flat_map]. intros [Hb Hrest]%andb_prop. rewrite IH by exact Hrest.
  unfold expand. unfold is_newline in Hb.
  destruct (b =? CR); [discriminate|]. destruct (b =? LF); [discriminate|]. reflexivity.
Qed.

(** C9 (as the code has it). In bridge-runtime passthrough the bytes read
    from the local line are forwarded to the bridged port through the same
    chain of line-ending replacements as the typed lines: every byte other
    than CR and LF is forwarded unchanged and in order, so data without CR
    or LF goes through byte for byte, but a CR is forwarded as CR LF.  The
    line path applies the chain to the line and appends CR LF. *)
Theorem raw_passthrough_forwarding
    (r : runtime) (bs : Serial) (data : list Z) (h : hub)
    (Hbs : bridge_serial r = Some bs) (Hopen : ident bs ∉ closed h) :
  handle_raw_input r data h
  = (true, r, HubState (ACTIVE_PORTS h) (SURRENDERED_PORTS h) (closed h)
                (sent h ++ [(ident bs, crlf_chain data)]))
  /\ List.filter (fun b => negb (is_newline b)) (crlf_chain data)
     = List.filter (fun b => negb (is_newline b)) data
  /\ (forallb (fun b => negb (is_newline b)) data = true -> crlf_chain data = data)
  /\ crlf_chain [CR] = [CR; LF]
  /\ (forall line_str raw_line,
        upper (strip line_str) <> "ATH" -> line_str <> "" ->
        handle_input_runtime r line_str (Some raw_line) h
        = (NoAction, r, HubState (ACTIVE_PORTS h) (SURRENDERED_PORTS h) (closed h)
                          (sent h ++ [(ident bs, crlf_chain raw_line ++ [CR; LF])]))).
Proof.
  split; [|split; [|split; [|split]]].
  - unfold handle_raw_input, bs_write. rewrite Hbs.
    now rewrite (bool_decide_eq_false_2 _ Hopen).
  - apply crlf_chain_keeps_other_bytes.
  - apply crlf_chain_without_newlines.
  - reflexivity.
  - intros line_str raw_line Hath Hne. unfold handle_input_runtime, bs_write.
    rewrite Hbs, (bool_decide_eq_false_2 _ Hath), (bool_decide_eq_false_2 _ Hne).
    now rewrite (bool_decide_eq_false_2 _ Hopen).
Qed.

(** The bytes of "DIR", then Enter, typed into a live bridge to COM3. *)
Lemma raw_passthrough_forwarding_witness :
  (9%nat ∉ closed com3_bridged)
  /\ handle_raw_input bridge_to_com3 (encode "DIR") com3_bridged
     = (true, bridge_to_com3, HubState ∅ {["COM3"]} {[7%nat]} [(9%nat, encode "DIR")])
  /\ handle_raw_input bridge_to_com3 [CR] com3_bridged
     = (true, bridge_to_com3, HubState ∅ {["COM3"]} {[7%nat]} [(9%nat, [CR; LF])]).
Proof.
  assert (9%nat ∉ closed com3_bridged) as Hopen.
  { cbn. intros H%elem_of_singleton. discriminate H. }
  split; [exact Hopen|]. split.
  - destruct (raw_passthrough_forwarding bridge_to_com3 (SerialObj 9%nat "COM3")
                (encode "DIR") com3_bridged eq_refl Hopen) as (Hfw & _ & Hid & _).
    rewrite Hfw, Hid by reflexivity. reflexivity.
  - destruct (raw_passthrough_forwarding bridge_to_com3 (SerialObj 9%nat "COM3")
                [CR] com3_bridged eq_refl Hopen) as (Hfw & _ & _ & Hcr & _).
    rewrite Hfw, Hcr. reflexivity.
Defined.

(** C9 as stated fails: a CR typed into a live bridge reaches the bridged
    port as CR LF, and CR LF as five bytes. *)
Lemma raw_passthrough_rewrites_line_ends :
  sent (handle_raw_input bridge_to_com3 [CR] com3_bridged).2 = [(9%nat, [CR; LF])]
  /\ sent (handle_raw_input bridge_to_com3 [CR] com3_bridged).2 <> [(9%nat, [CR])]
  /\ sent (handle_raw_input bridge_to_com3 [CR; LF] com3_bridged).2
     = [(9%nat, [CR; LF; CR; LF; LF])].
Proof.
  split; [vm_compute; reflexivity|].
  split; [vm_compute; discriminate | vm_compute; reflexivity].
Qed.

End RegistryAndBridge.

(** * Further properties of the transfer engine *)

Section TransferFailures.
Import Files Framing.
Local Open Scope Z_scope.

(** *** Waits that run into their deadline *)

Lemma wait_receiver_silent (n : nat) :
  forall fuel t c sv d, c + 50 * Z.of_nat n = d ->
    wait_receiver (S n + fuel) d (Line [] [] t c sv) = Exit false (Line [] [] t d sv).
Proof.
  induction n as [|n IH]; intros fuel t c sv d Hd.
  - cbn [Nat.add wait_receiver clock]. assert ((c <? d) = false) as -> by lia.
    f_equal. f_equal. lia.
  - cbn [Nat.add wait_receiver clock]. assert ((c <? d) = true) as -> by lia.
    cbn [in_waiting arrivals rx length Nat.ltb Nat.leb]. unfold sleep.
    cbn [clock tx rx arrivals saved]. apply IH. lia.
Qed.

Lemma wait_ack_silent (n : nat) :
  forall fuel pkt bn msg t c sv d, c + 20 * Z.of_nat n = d ->
    wait_ack (S n + fuel) d pkt bn msg (Line [] [] t c sv)
    = Exit TimedOut (Line [] [] (t ++ [Say msg]) d sv).
Proof.
  induction n as [|n IH]; intros fuel pkt bn msg t c sv d Hd.
  - cbn [Nat.add wait_ack clock]. assert ((c <? d) = false) as -> by lia.
    unfold _write. cbn [clock tx rx arrivals saved]. f_equal. f_equal. lia.
  - cbn [Nat.add wait_ack clock]. assert ((c <? d) = true) as -> by lia.
    cbn [in_waiting arrivals rx length Nat.ltb Nat.leb]. unfold sleep.
    cbn [clock tx rx arrivals saved]. apply IH. lia.
Qed.

Lemma wait_eot_silent (n : nat) :
  forall fuel t c sv d, c + 50 * Z.of_nat n = d ->
    wait_eot (S n + fuel) d (Line [] [] t c sv)
    = Returned (Line [] [] (t ++ [Say EotNotAcked]) d sv).
Proof.
  induction n as [|n IH]; intros fuel t c sv d Hd.
  - cbn [Nat.add wait_eot clock]. assert ((c <? d) = false) as -> by lia.
    unfold _write. cbn [clock tx rx arrivals saved]. f_equal. f_equal. lia.
  - cbn [Nat.add wait_eot clock]. assert ((c <? d) = true) as -> by lia.
    cbn [in_waiting arrivals rx length Nat.ltb Nat.leb]. unfold sleep.
    cbn [clock tx rx arrivals saved]. apply IH. lia.
Qed.

(** X1. With no receiver on the line xmodem_send gives up after 20 s (400 polls
    50 ms apart) without opening the file: nothing but text is written,
    whatever the file, even a missing one. *)
Theorem xmodem_send_no_receiver (fname : string) (file : option (list Z)) (fuel : nat) :
  xmodem_send (401 + fuel) fname file (fresh [])
  = Returned (Line [] []
      [Say (XmodemSendBanner fname); Say WaitingForReceiver; Say NoReceiver] 20000 None).
Proof.
  unfold xmodem_send, fresh, _write. cbn [clock tx rx arrivals saved app].
  change (401 + fuel)%nat with (S 400 + fuel)%nat.
  rewrite (wait_receiver_silent 400) by reflexivity. reflexivity.
Qed.

(** *** NAK: the frame again *)

Lemma wait_ack_nak_step fuel d pkt bn msg rest t c sv :
  c < d ->
  wait_ack (S fuel) d pkt bn msg (Line [] ([NAK] :: rest) t c sv)
  = wait_ack fuel d pkt bn msg (Line [] rest (t ++ [Raw pkt]) (c + 20) sv).
Proof.
  intros Hd. cbn [wait_ack clock]. assert ((c <? d) = true) as -> by lia.
  reflexivity.
Qed.

Lemma wait_ack_ack_step fuel d pkt bn msg rest t c sv :
  c < d ->
  wait_ack (S fuel) d pkt bn msg (Line [] ([ACK] :: rest) t c sv)
  = Exit (Acked (Z.land (bn + 1) 0xFF)) (Line [] rest t c sv).
Proof.
  intros Hd. cbn [wait_ack clock]. assert ((c <? d) = true) as -> by lia.
  reflexivity.
Qed.

Lemma wait_ack_naks (k : nat) :
  forall fuel pkt bn msg rest t c sv d, c + 20 * Z.of_nat k < d ->
    wait_ack (S k + fuel) d pkt bn msg
      (Line [] (replicate k [NAK] ++ [ACK] :: rest) t c sv)
    = Exit (Acked (Z.land (bn + 1) 0xFF))
        (Line [] rest (t ++ replicate k (Raw pkt)) (c + 20 * Z.of_nat k) sv).
Proof.
  induction k as [|k IH]; intros fuel pkt bn msg rest t c sv d Hd.
  - cbn [Nat.add replicate app]. rewrite wait_ack_ack_step by lia.
    rewrite app_nil_r. do 2 f_equal. lia.
  - cbn [Nat.add replicate app]. rewrite wait_ack_nak_step by lia.
    change (S (k + fuel)) with (S k + fuel)%nat.
    rewrite IH by lia. rewrite <- app_assoc. cbn [app]. do 2 f_equal. lia.
Qed.

Lemma raw_writes_repeats (ks : list nat) :
  forall frs : list (list Z),
    raw_writes (concat (zip_with (fun k fr => replicate (S k) (Raw fr)) ks frs))
    = concat (zip_with (fun k fr => replicate (S k) fr) ks frs).
Proof.
  induction ks as [|k ks IH]; intros [|fr frs]; try reflexivity.
  cbn [zip_with concat]. rewrite raw_writes_app, raw_writes_replicate_Raw, IH.
  reflexivity.
Qed.

Lemma send_blocks_nakked (n : nat) :
  forall (f : list Z) (ks : list nat) (bn : Z) (fuel : nat) t c sv,
    nblocks f = n -> length ks = n -> Forall (fun k => (k < 500)%nat) ks ->
    send_blocks (n + 502 + fuel) f bn
      (Line [] (concat (map (fun k => replicate k [NAK] ++ [[ACK]]) ks) ++ [[ACK]]) t c sv)
    = Returned (Line [] []
        (t ++ concat (zip_with (fun k fr => replicate (S k) (Raw fr)) ks
                        (frames_from n bn f))
           ++ [Raw [EOT]; Say TransferComplete])
        (c + 20 * Z.of_nat (sum_list ks)) sv).
Proof.
  induction n as [|n IH]; intros f ks bn fuel t c sv Hn Hks Hlt.
  - destruct ks; [|discriminate Hks].
    assert (f = []) as ->.
    { destruct f as [|b f']; [reflexivity|].
      pose proof (nblocks_pos (b :: f') ltac:(discriminate)). lia. }
    cbn [Nat.add send_blocks take map concat app]. unfold write.
    cbn [clock tx rx arrivals saved].
    rewrite wait_eot_prompt. cbn [frames_from zip_with concat app sum_list].
    rewrite <- app_assoc. cbn [app]. do 2 f_equal. lia.
  - destruct ks as [|k ks]; [discriminate Hks|].
    apply Forall_cons in Hlt as [Hk Hlt]. cbv beta in Hk. injection Hks as Hks.
    pose proof (nblocks_take n f Hn) as Hne.
    cbn [Nat.add send_blocks].
    destruct (take 128 f) as [|b chunk] eqn:Etake; [congruence|].
    rewrite <- Etake. unfold write. cbn [clock tx rx arrivals saved map concat].
    rewrite <- !app_assoc. cbn [app].
    replace (n + 502 + fuel)%nat with (S k + (n + 501 - k + fuel))%nat by lia.
    rewrite wait_ack_naks by lia.
    replace (S k + (n + 501 - k + fuel))%nat with (n + 502 + fuel)%nat by lia.
    rewrite IH by (try rewrite nblocks_drop, Hn; auto; lia).
    cbn [frames_from zip_with concat sum_list replicate].
    rewrite <- !app_assoc. cbn [app]. do 2 f_equal. unfold id. lia.
Qed.

(** X2. A NAK makes xmodem_send write the identical frame again and nothing
    else: against a receiver that answers the [i]-th block with [ks !! i]
    NAKs before its ACK (each fewer than the 500 polls of the 10 s deadline),
    the line carries every frame [ks !! i + 1] times in a row, in order, then
    EOT, and the transfer completes. *)
Theorem xmodem_send_resends_on_nak
    (f : list Z) (fname : string) (ks : list nat) (fuel : nat)
    (Hks : length ks = nblocks f) (Hlt : Forall (fun k => (k < 500)%nat) ks) :
  exists l : line,
    xmodem_send (nblocks f + 502 + fuel) fname (Some f) (fresh (nakking ks)) = Returned l
    /\ raw_writes (tx l)
       = concat (zip_with (fun k fr => replicate (S k) fr) ks
                   (map (frame_at f) (seq 0 (nblocks f)))) ++ [[EOT]]
    /\ last (tx l) = Some (Say TransferComplete)
    /\ clock l = 20 * Z.of_nat (sum_list ks).
Proof.
  unfold xmodem_send, fresh, nakking, _write. cbn [clock tx rx arrivals saved app].
  replace (nblocks f + 502 + fuel)%nat with (S (nblocks f + 501 + fuel)) by lia.
  rewrite (wait_receiver_prompt _ _ _ 0).
  replace (S (nblocks f + 501 + fuel)) with (nblocks f + 502 + fuel)%nat by lia.
  rewrite (send_blocks_nakked (nblocks f)) by auto.
  eexists. split; [reflexivity|]. cbn [tx clock]. split; [|split].
  - cbn [raw_writes app]. rewrite raw_writes_app, raw_writes_repeats, frames_from_spec.
    reflexivity.
  - rewrite app_assoc. change [Raw [EOT]; Say TransferComplete]
      with ([Raw [EOT]] ++ [Say TransferComplete]).
    rewrite app_assoc. apply last_snoc.
  - lia.
Qed.

Lemma xmodem_send_resends_on_nak_witness :
  exists l : line,
    xmodem_send (nblocks file150 + 502 + 0) "F" (Some file150) (fresh (nakking [2; 0]%nat))
      = Returned l
    /\ raw_writes (tx l)
       = [frame_at file150 0; frame_at file150 0; frame_at file150 0;
          frame_at file150 1; [EOT]].
Proof.
  destruct (xmodem_send_resends_on_nak file150 "F" [2; 0]%nat 0 eq_refl) as (l & Hl & Hraw & _).
  - repeat constructor.
  - exists l. split; [exact Hl|]. rewrite Hraw. reflexivity.
Defined.

(** *** A transfer that is cut short *)

Lemma chunk_nonempty (j : nat) (f : list Z) :
  (j < nblocks f)%nat -> take 128 (drop (128 * j) f) <> [].
Proof.
  unfold nblocks. intros Hj E.
  apply (f_equal length) in E. rewrite length_take, length_drop in E.
  pose proof (Nat.div_mod_eq (length f + 127) 128).
  pose proof (Nat.mod_upper_bound (length f + 127) 128). cbn [length] in E. lia.
Qed.

Lemma packet_frame_at (j : nat) (f : list Z) :
  packet SOH (Z.of_nat (j + 1) mod 256) (pad 128 (take 128 (drop (128 * j) f)))
  = frame_at f j.
Proof.
  unfold packet, frame_at. rewrite pad_data_at, !land_255, Z.mod_mod by lia.
  reflexivity.
Qed.

Lemma next_block_number (j : nat) :
  Z.land (Z.of_nat (j + 1) mod 256 + 1) 0xFF = Z.of_nat (S j + 1) mod 256.
Proof.
  rewrite land_255.
  replace (Z.of_nat (S j + 1)) with (Z.of_nat (j + 1) + 1) by lia.
  rewrite (Z.add_mod (Z.of_nat (j + 1)) 1), (Z.add_mod (_ mod 256) 1) by lia.
  rewrite Z.mod_mod by lia. reflexivity.
Qed.

(** One turn of the loop of [send_blocks] on the [j]-th chunk. *)
Lemma send_blocks_step (j : nat) (f : list Z) (fuel : nat) tail t c sv :
  (j < nblocks f)%nat ->
  send_blocks (S fuel) (drop (128 * j) f) (Z.of_nat (j + 1) mod 256)
    (Line [] tail t c sv)
  = match wait_ack fuel (c + 10000) (frame_at f j) (Z.of_nat (j + 1) mod 256)
            AckNakTimeout (Line [] tail (t ++ [Raw (frame_at f j)]) c sv) with
    | Spin l2 => Looping l2
    | Exit (Acked block_num') l2 => send_blocks fuel (drop (128 * S j) f) block_num' l2
    | Exit Cancel l2 => Returned l2
    | Exit TimedOut l2 => Returned l2
    end.
Proof.
  intros Hj. pose proof (chunk_nonempty j f Hj) as Hne.
  cbn [send_blocks].
  destruct (take 128 (drop (128 * j) f)) as [|b chunk] eqn:E; [congruence|].
  rewrite <- E, packet_frame_at. unfold write. cbn [clock tx rx arrivals saved].
  rewrite drop_drop. replace (128 * j + 128)%nat with (128 * S j)%nat by lia.
  reflexivity.
Qed.

(** [j] acknowledged blocks, starting at the [i]-th. *)
Lemma send_blocks_prefix (j : nat) :
  forall (i : nat) (f : list Z) (fuel : nat) tail t c sv,
    (i + j <= nblocks f)%nat ->
    send_blocks (j + S fuel) (drop (128 * i) f) (Z.of_nat (i + 1) mod 256)
      (Line [] (replicate j [ACK] ++ tail) t c sv)
    = send_blocks (S fuel) (drop (128 * (i + j)) f) (Z.of_nat (i + j + 1) mod 256)
        (Line [] tail (t ++ map Raw (map (frame_at f) (seq i j))) c sv).
Proof.
  induction j as [|j IH]; intros i f fuel tail t c sv Hij.
  - cbn [Nat.add replicate app seq map]. rewrite Nat.add_0_r, app_nil_r. reflexivity.
  - cbn [Nat.add replicate app]. rewrite send_blocks_step by lia.
    replace (j + S fuel)%nat with (S (j + fuel)) by lia.
    rewrite wait_ack_ack_step by lia. rewrite next_block_number.
    replace (S (j + fuel)) with (j + S fuel)%nat by lia.
    rewrite (IH (S i)) by lia.
    replace (S i + j)%nat with (i + S j)%nat by lia.
    cbn [seq map]. rewrite <- app_assoc. reflexivity.
Qed.

Lemma xmodem_send_after_acks (j : nat) (f : list Z) (fname : string) (fuel : nat) tail :
  (j < nblocks f)%nat ->
  xmodem_send (j + S (S fuel)) fname (Some f) (fresh (acking_then j tail))
  = match wait_ack (S fuel) 10000 (frame_at f j) (Z.of_nat (j + 1) mod 256) AckNakTimeout
            (Line [] tail
               ([Say (XmodemSendBanner fname); Say WaitingForReceiver]
                  ++ map Raw (map (frame_at f) (seq 0 (S j)))) 0 None) with
    | Spin l2 => Looping l2
    | Exit (Acked block_num') l2 => send_blocks (S fuel) (drop (128 * S j) f) block_num' l2
    | Exit Cancel l2 => Returned l2
    | Exit TimedOut l2 => Returned l2
    end.
Proof.
  intros Hj. unfold xmodem_send, fresh, acking_then, _write.
  cbn [clock tx rx arrivals saved app].
  replace (j + S (S fuel))%nat with (S (j + S fuel)) by lia.
  rewrite (wait_receiver_prompt _ _ _ 0).
  replace (S (j + S fuel)) with (j + S (S fuel))%nat by lia.
  match goal with
  | |- context [Line [] (replicate _ _ ++ tail) ?t ?c ?sv] =>
      pose proof (send_blocks_prefix j 0 f (S fuel) tail t c sv ltac:(lia)) as Hpre
  end.
  rewrite Nat.mul_0_r, drop_0 in Hpre. change (Z.of_nat (0 + 1) mod 256) with 1 in Hpre.
  rewrite Hpre. clear Hpre.
  cbn [Nat.add]. rewrite send_blocks_step by lia.
  rewrite seq_S, !map_app. cbn [map Nat.add app].
  reflexivity.
Qed.

(** X3. CAN in answer to a block makes xmodem_send stop at once: when the
    receiver has acknowledged [j] blocks and cancels the next one, the line
    has carried the first [j+1] frames and nothing more -- no further block,
    no EOT -- and the last message is the cancellation. *)
Theorem xmodem_send_cancelled
    (j : nat) (f : list Z) (fname : string) (fuel : nat)
    (Hj : (j < nblocks f)%nat) :
  exists l : line,
    xmodem_send (j + 3 + fuel) fname (Some f) (fresh (acking_then j [[CAN]])) = Returned l
    /\ raw_writes (tx l) = map (frame_at f) (seq 0 (S j))
    /\ last (tx l) = Some (Say CancelledByReceiver).
Proof.
  replace (j + 3 + fuel)%nat with (j + S (S (S fuel)))%nat by lia.
  rewrite xmodem_send_after_acks by exact Hj.
  eexists. split; [reflexivity|]. unfold _write. cbn [tx]. split.
  - rewrite !raw_writes_app, raw_writes_map_Raw. cbn [raw_writes app].
    now rewrite app_nil_r.
  - apply last_snoc.
Qed.

Lemma xmodem_send_cancelled_witness :
  exists l : line,
    xmodem_send (1 + 3 + 0) "F" (Some file150) (fresh (acking_then 1 [[CAN]])) = Returned l
    /\ raw_writes (tx l) = [frame_at file150 0; frame_at file150 1].
Proof.
  destruct (xmodem_send_cancelled 1 file150 "F" 0) as (l & Hl & Hraw & _).
  - vm_compute. lia.
  - exists l. split; [exact Hl | exact Hraw].
Defined.

(** X4. A receiver that falls silent after [j] acknowledged blocks: the next
    frame is written once, and 10 s later (500 polls 20 ms apart)
    xmodem_send reports the timeout and returns without sending EOT. *)
Theorem xmodem_send_ack_timeout
    (j : nat) (f : list Z) (fname : string) (fuel : nat)
    (Hj : (j < nblocks f)%nat) :
  exists l : line,
    xmodem_send (j + 502 + fuel) fname (Some f) (fresh (acking_then j [])) = Returned l
    /\ raw_writes (tx l) = map (frame_at f) (seq 0 (S j))
    /\ last (tx l) = Some (Say AckNakTimeout)
    /\ clock l = 10000.
Proof.
  replace (j + 502 + fuel)%nat with (j + S (S (500 + fuel)))%nat by lia.
  rewrite xmodem_send_after_acks by exact Hj.
  change (S (500 + fuel)) with (S 500 + fuel)%nat.
  rewrite (wait_ack_silent 500) by reflexivity.
  eexists. split; [reflexivity|]. cbn [tx clock]. split; [|split].
  - rewrite !raw_writes_app, raw_writes_map_Raw. cbn [raw_writes app].
    now rewrite app_nil_r.
  - apply last_snoc.
  - reflexivity.
Qed.

Lemma xmodem_send_ack_timeout_witness :
  exists l : line,
    xmodem_send (0 + 502 + 0) "F" (Some file150) (fresh (acking_then 0 [])) = Returned l
    /\ raw_writes (tx l) = [frame_at file150 0]
    /\ clock l = 10000.
Proof.
  destruct (xmodem_send_ack_timeout 0 file150 "F" 0) as (l & Hl & Hraw & _ & Hc).
  - vm_compute. lia.
  - exists l. split; [exact Hl|]. split; [exact Hraw | exact Hc].
Defined.

(** X5. When every block has been acknowledged but EOT is not, xmodem_send waits
    10 s (200 polls 50 ms apart), reports it and returns; all the frames and
    one EOT have been sent. *)
Theorem xmodem_send_eot_timeout (f : list Z) (fname : string) (fuel : nat) :
  exists l : line,
    xmodem_send (nblocks f + 202 + fuel) fname (Some f)
      (fresh (acking_then (nblocks f) [])) = Returned l
    /\ raw_writes (tx l) = map (frame_at f) (seq 0 (nblocks f)) ++ [[EOT]]
    /\ last (tx l) = Some (Say EotNotAcked)
    /\ clock l = 10000.
Proof.
  unfold xmodem_send, fresh, acking_then, _write.
  cbn [clock tx rx arrivals saved app].
  replace (nblocks f + 202 + fuel)%nat with (S (nblocks f + 201 + fuel)) by lia.
  rewrite (wait_receiver_prompt _ _ _ 0).
  replace (S (nblocks f + 201 + fuel)) with (nblocks f + S (201 + fuel))%nat by lia.
  match goal with
  | |- context [Line [] (replicate _ _ ++ []) ?t ?c ?sv] =>
      pose proof (send_blocks_prefix (nblocks f) 0 f (201 + fuel) [] t c sv
                    ltac:(lia)) as Hpre
  end.
  rewrite Nat.mul_0_r, drop_0 in Hpre. change (Z.of_nat (0 + 1) mod 256) with 1 in Hpre.
  rewrite Hpre. clear Hpre.
  rewrite !Nat.add_0_l. rewrite (drop_ge f) by apply nblocks_covers.
  cbn [send_blocks take]. unfold write. cbn [clock tx rx arrivals saved].
  change (201 + fuel)%nat with (S 200 + fuel)%nat.
  rewrite (wait_eot_silent 200) by reflexivity.
  eexists. split; [reflexivity|]. cbn [tx clock]. split; [|split].
  - rewrite !raw_writes_app, raw_writes_map_Raw. cbn [raw_writes app].
    rewrite app_nil_r. reflexivity.
  - apply last_snoc.
  - reflexivity.
Qed.

(** *** What the receiver rejects *)

(** One turn of the receive loop on a batch that starts with SOH. *)
Lemma receive_soh_step fuel block_num received (pkt : list Z) rest t c sv :
  receive_loop (S fuel) block_num received (Line [] ((SOH :: pkt) :: rest) t c sv)
  = if accepts block_num (take 131 pkt)
    then receive_loop fuel (Z.land (block_num + 1) 0xFF)
           (received ++ removelast (drop 2 (take 131 pkt)))
           (Line (drop 131 pkt) rest (t ++ [Raw [ACK]]) c sv)
    else receive_loop fuel block_num received
           (Line (drop 131 pkt) rest (t ++ [Raw [NAK]]) c sv).
Proof.
  cbn [receive_loop]. unfold in_waiting, read, write.
  cbn [arrivals rx tx clock saved app length Nat.ltb Nat.leb].
  change (take 1 (SOH :: pkt)) with [SOH]. change (drop 1 (SOH :: pkt)) with pkt.
  cbv iota. rewrite Z.eqb_refl. unfold accepts.
  destruct (Nat.leb_spec (length (take 131 pkt)) 130) as [Hlt|Hge].
  - assert ((length (take 131 pkt) =? 131)%nat = false) as ->
      by (apply Nat.eqb_neq; lia).
    reflexivity.
  - assert ((length (take 131 pkt) =? 131)%nat = true) as ->
      by (apply Nat.eqb_eq; rewrite length_take in *; lia).
    cbn [andb].
    destruct (nth 0 (take 131 pkt) 0 =? Z.land block_num 255); cbn [negb orb andb];
      [|reflexivity].
    destruct (nth 1 (take 131 pkt) 0 =? 255 - nth 0 (take 131 pkt) 0);
      cbn [negb orb andb]; [|reflexivity].
    destruct (Z.land (byte_sum (removelast (drop 2 (take 131 pkt)))) 255
              =? List.last (take 131 pkt) 0); reflexivity.
Qed.

Lemma packet_tail (block_num : Z) (chunk : list Z) :
  packet SOH block_num chunk
  = SOH :: ([Z.land block_num 0xFF; 0xFF - Z.land block_num 0xFF]
              ++ chunk ++ [Z.land (byte_sum chunk) 0xFF]).
Proof. reflexivity. Qed.

Lemma next_block_differs (block_num : Z) :
  Z.land block_num 0xFF <> Z.land (Z.land (block_num + 1) 0xFF) 0xFF.
Proof.
  rewrite !land_255, Z.mod_mod by lia. intros H.
  pose proof (Z.mod_pos_bound block_num 256 ltac:(lia)).
  destruct (Z.eq_dec (block_num mod 256) 255) as [E|E].
  - rewrite <- Zplus_mod_idemp_l, E in H. change ((255 + 1) mod 256) with 0 in H. lia.
  - rewrite <- Zplus_mod_idemp_l, (Z.mod_small (block_num mod 256 + 1)) in H by lia. lia.
Qed.

(** X6. The receiver does not recognise a repeated block: when the frame it has
    just accepted arrives again (the sender missed the ACK), it answers NAK,
    exactly as for a damaged frame, and keeps waiting for the next number. *)
Theorem xmodem_receive_naks_a_repeated_block
    (fuel : nat) (block_num : Z) (received chunk : list Z) rest t c sv
    (Hlen : length chunk = 128%nat) :
  receive_loop (S (S fuel)) block_num received
    (Line [] (packet SOH block_num chunk :: packet SOH block_num chunk :: rest) t c sv)
  = receive_loop fuel (Z.land (block_num + 1) 0xFF) (received ++ chunk)
      (Line [] rest (t ++ [Raw [ACK]; Raw [NAK]]) c sv).
Proof.
  rewrite receive_frame by exact Hlen.
  rewrite packet_tail, receive_soh_step.
  assert (length ([Z.land block_num 255; 255 - Z.land block_num 255]
                    ++ chunk ++ [Z.land (byte_sum chunk) 255]) = 131%nat) as Hl
    by (cbn [app length]; rewrite length_app; simpl; lia).
  rewrite take_ge, (drop_ge _ 131) by (rewrite Hl; lia).
  unfold accepts. rewrite Hl. cbn [app nth Nat.eqb andb].
  destruct (Z.eqb_spec (Z.land block_num 255) (Z.land (Z.land (block_num + 1) 255) 255))
    as [E|E]; [now apply next_block_differs in E|].
  cbn [andb]. rewrite <- app_assoc. reflexivity.
Qed.

Lemma xmodem_receive_naks_a_repeated_block_witness :
  xmodem_receive 3
    (fresh [frame_at file150 0; frame_at file150 0; [EOT]])
  = Returned (Line [] []
      [Say XmodemReceiveBanner; Raw [NAK]; Raw [ACK]; Raw [NAK]; Raw [ACK];
       Say UploadComplete] 0 (Some (take 128 file150))).
Proof.
  unfold xmodem_receive, fresh, _write, write. cbn [clock tx rx arrivals saved app].
  change (frame_at file150 0) with (packet SOH 1 (take 128 file150)).
  rewrite (xmodem_receive_naks_a_repeated_block 1 1 [] (take 128 file150)) by reflexivity.
  vm_compute. reflexivity.
Defined.

Lemma byte_sum_insert (i : nat) :
  forall (chunk : list Z) (old v : Z),
    chunk !! i = Some old -> byte_sum (<[i := v]> chunk) = byte_sum chunk - old + v.
Proof.
  unfold byte_sum.
  induction i as [|i IH]; intros [|b chunk] old v H; try discriminate.
  - injection H as ->. simpl. lia.
  - simpl in H. simpl. rewrite (IH chunk old v H). lia.
Qed.

(** X7. The checksum catches any change of a single data byte: a frame that
    differs from the one sent in one data byte (old and new value both in
    0..255) is answered with NAK and nothing of it is kept; the frame sent
    again unchanged is then accepted. *)
Theorem xmodem_receive_rejects_a_damaged_byte
    (fuel : nat) (block_num : Z) (received chunk : list Z) (i : nat) (old v : Z)
    rest t c sv
    (Hlen : length chunk = 128%nat) (Hi : chunk !! i = Some old)
    (Hold : 0 <= old < 256) (Hv : 0 <= v < 256) (Hne : v <> old) :
  receive_loop (S (S fuel)) block_num received
    (Line []
       (([SOH; Z.land block_num 0xFF; 0xFF - Z.land block_num 0xFF]
           ++ <[i := v]> chunk ++ [Z.land (byte_sum chunk) 0xFF])
        :: packet SOH block_num chunk :: rest) t c sv)
  = receive_loop fuel (Z.land (block_num + 1) 0xFF) (received ++ chunk)
      (Line [] rest (t ++ [Raw [NAK]; Raw [ACK]]) c sv).
Proof.
  cbn [app]. rewrite receive_soh_step.
  assert (length (Z.land block_num 255 :: 255 - Z.land block_num 255
                    :: <[i:=v]> chunk ++ [Z.land (byte_sum chunk) 255]) = 131%nat) as Hl
    by (cbn [length]; rewrite length_app, length_insert; simpl; lia).
  rewrite take_ge, (drop_ge _ 131) by (rewrite Hl; lia).
  unfold accepts. rewrite Hl. cbn [nth Nat.eqb andb skipn].
  rewrite !Z.eqb_refl. cbn [andb]. rewrite drop_0, removelast_last.
  replace (List.last (Z.land block_num 255 :: 255 - Z.land block_num 255
                        :: <[i:=v]> chunk ++ [Z.land (byte_sum chunk) 255]) 0)
    with (Z.land (byte_sum chunk) 255)
    by (change (Z.land block_num 255 :: 255 - Z.land block_num 255
                  :: <[i:=v]> chunk ++ [Z.land (byte_sum chunk) 255])
          with (([Z.land block_num 255; 255 - Z.land block_num 255]
                   ++ <[i:=v]> chunk) ++ [Z.land (byte_sum chunk) 255]);
        now rewrite last_last).
  rewrite (byte_sum_insert i chunk old v Hi), !land_255.
  destruct (Z.eqb_spec ((byte_sum chunk - old + v) mod 256) (byte_sum chunk mod 256))
    as [E|E].
  - exfalso.
    assert ((v - old) mod 256 = 0) as H0.
    { replace (v - old) with ((byte_sum chunk - old + v) - byte_sum chunk) by lia.
      rewrite Zminus_mod, E, Z.sub_diag. reflexivity. }
    apply Z.mod_divide in H0; [|lia]. destruct H0 as [q Hq]. lia.
  - rewrite receive_frame by exact Hlen. rewrite <- app_assoc, ?land_255. reflexivity.
Qed.

Lemma xmodem_receive_rejects_a_damaged_byte_witness :
  take 128 file150 !! 5%nat = Some 5
  /\ receive_loop 2 1 []
       (Line []
          [[SOH; Z.land 1 0xFF; 0xFF - Z.land 1 0xFF]
             ++ <[5%nat := 7]> (take 128 file150)
             ++ [Z.land (byte_sum (take 128 file150)) 0xFF];
           packet SOH 1 (take 128 file150)] [] 0 None)
     = receive_loop 0 (Z.land (1 + 1) 0xFF) ([] ++ take 128 file150)
         (Line [] [] ([] ++ [Raw [NAK]; Raw [ACK]]) 0 None).
Proof.
  split; [reflexivity|].
  apply (xmodem_receive_rejects_a_damaged_byte 0 1 [] (take 128 file150) 5 5 7);
    try reflexivity; lia.
Defined.

(** X8. A frame that is not wholly in the receive buffer when its SOH is read is
    lost: the port is read without waiting, so if only the first [i] bytes of
    the frame have arrived ([0 < i < 132]) they are consumed, NAK is sent,
    and nothing is kept. *)
Theorem xmodem_receive_needs_the_whole_frame
    (fuel : nat) (block_num : Z) (received chunk : list Z) (i : nat) rest t c sv
    (Hlen : length chunk = 128%nat) (Hi : (0 < i < 132)%nat) :
  receive_loop (S fuel) block_num received
    (Line [] (take i (packet SOH block_num chunk) :: rest) t c sv)
  = receive_loop fuel block_num received (Line [] rest (t ++ [Raw [NAK]]) c sv).
Proof.
  destruct i as [|i]; [lia|]. rewrite packet_tail. cbn [firstn].
  rewrite receive_soh_step. unfold accepts.
  set (body := [Z.land block_num 255; 255 - Z.land block_num 255]
                 ++ chunk ++ [Z.land (byte_sum chunk) 255]).
  assert (length body = 131%nat) as Hl
    by (unfold body; cbn [app length]; rewrite length_app; simpl; lia).
  assert (length (take 131 (take i body)) = i) as Hl'
    by (rewrite !length_take; lia).
  rewrite Hl'. assert ((i =? 131)%nat = false) as -> by (apply Nat.eqb_neq; lia).
  cbn [andb]. rewrite drop_ge by (rewrite length_take; lia). reflexivity.
Qed.

Lemma xmodem_receive_needs_the_whole_frame_witness :
  receive_loop 1 1 [] (Line [] [take 100 (packet SOH 1 (take 128 file150))] [] 0 None)
  = receive_loop 0 1 [] (Line [] [] ([] ++ [Raw [NAK]]) 0 None).
Proof.
  apply (xmodem_receive_needs_the_whole_frame 0 1 [] (take 128 file150) 100);
    [reflexivity | lia].
Defined.

(** *** ymodem_send *)

Lemma pad_1024_take (f : list Z) : pad 1024 (take 1024 f) = take 1024 f ++ replicate (1024 - length (take 1024 f)) 0x1A.
Proof.
  unfold pad. destruct (Nat.ltb_spec (length (take 1024 f)) 1024) as [H|H]; [reflexivity|].
  assert (length (take 1024 f) = 1024%nat) as -> by (rewrite length_take in *; lia).
  rewrite Nat.sub_diag. cbn [replicate]. now rewrite app_nil_r.
Qed.

Lemma frames_from_y_frame_y (n : nat) :
  forall (j : nat) (f : list Z),
    frames_from_y n (Z.of_nat (j + 1) mod 256) (drop (1024 * j) f)
    = map (frame_y f) (seq j n).
Proof.
  induction n as [|n IH]; intros j f; [reflexivity|].
  cbn [frames_from_y seq map]. f_equal.
  - unfold packet, frame_y, data_y, chunk_y. rewrite pad_1024_take, !land_255.
    rewrite Z.mod_mod by lia. reflexivity.
  - rewrite next_block_number, drop_drop.
    replace (1024 * j + 1024)%nat with (1024 * S j)%nat by lia. apply IH.
Qed.

Lemma nblocks_y_take (n : nat) (f : list Z) : nblocks_y f = S n -> take 1024 f <> [].
Proof. intros H E. destruct f as [|b f']; [discriminate H | discriminate E]. Qed.

Lemma send_blocks_y_exact (n : nat) :
  forall (f : list Z) (bn : Z) (fuel : nat) rest t c sv,
    nblocks_y f = n ->
    send_blocks_y (n + 2 + fuel) f bn (Line [] (replicate n [ACK] ++ rest) t c sv)
    = Exit true (Line [] rest (t ++ map Raw (frames_from_y n bn f)) c sv).
Proof.
  induction n as [|n IH]; intros f bn fuel rest t c sv Hn.
  - assert (f = []) as ->.
    { destruct f as [|b f']; [reflexivity|].
      pose proof (nblocks_y_pos (b :: f') ltac:(discriminate)). lia. }
    cbn. now rewrite app_nil_r.
  - pose proof (nblocks_y_take n f Hn) as Hne.
    cbn [Nat.add send_blocks_y].
    destruct (take 1024 f) as [|b chunk] eqn:Etake; [congruence|].
    rewrite <- Etake. unfold write. cbn [clock tx rx arrivals saved replicate app].
    replace (n + 2 + fuel)%nat with (S (n + 1 + fuel)) by lia.
    rewrite wait_ack_ack_step by lia.
    replace (S (n + 1 + fuel)) with (n + 2 + fuel)%nat by lia.
    rewrite IH by (rewrite nblocks_y_drop, Hn; lia).
    cbn [frames_from_y map app]. rewrite <- !app_assoc. reflexivity.
Qed.

Lemma wait_receiver_y_prompt fuel pkt0 rest t c sv :
  wait_receiver_y (S fuel) (c + 20000) pkt0 (Line [] ([67] :: rest) t c sv)
  = Exit true (Line [] rest (t ++ [Raw pkt0]) c sv).
Proof.
  cbn [wait_receiver_y clock]. assert ((c <? c + 20000) = true) as -> by lia.
  reflexivity.
Qed.

(** A receiver that asks with 'C' and acknowledges the header, every block
    and EOT. *)
Lemma ymodem_header_shape (fname : string) (n : nat) (header : list Z) :
  ymodem_header fname n = Some header ->
  length header = 128%nat
  /\ exists name size,
       encode_ascii fname = Some name
       /\ encode_ascii (NilZero.string_of_uint (Nat.to_uint n)) = Some size
       /\ header = name ++ [0] ++ size ++ replicate (128 - length (name ++ [0] ++ size)) 0.
Proof.
  unfold ymodem_header.
  destruct (encode_ascii fname) as [name|]; [|discriminate].
  destruct (encode_ascii _) as [size|]; [|discriminate].
  set (hdr := name ++ [0] ++ size).
  destruct (Nat.ltb_spec 128 (length hdr)) as [H|H]; [discriminate|].
  intros [= <-]. split.
  - rewrite length_app, length_replicate. lia.
  - exists name, size. repeat split. unfold hdr. now rewrite <- !app_assoc.
Qed.

(** X9. For every file whose header fits, ymodem_send against a receiver that
    asks with 'C' and acknowledges everything writes the header packet (SOH,
    0, 255, the 128 header bytes -- name, NUL, decimal size, zero fill --
    and their sum mod 256), then one frame per 1024-byte chunk (STX, block
    number mod 256 from 1, its complement, the chunk filled with 0x1A to
    1024 bytes, the sum of these mod 256), then EOT, and completes. *)
Theorem ymodem_send_framing
    (f : list Z) (fname : string) (header : list Z) (fuel : nat)
    (Hheader : ymodem_header fname (length f) = Some header) :
  exists l : line,
    ymodem_send (nblocks_y f + 2 + fuel) fname (Some f)
      (fresh ([67] :: [ACK] :: replicate (nblocks_y f) [ACK] ++ [[ACK]])) = Returned l
    /\ raw_writes (tx l)
       = header_packet header :: map (frame_y f) (seq 0 (nblocks_y f)) ++ [[EOT]]
    /\ last (tx l) = Some (Say YmodemComplete)
    /\ length header = 128%nat
    /\ exists name size,
         encode_ascii fname = Some name
         /\ encode_ascii (NilZero.string_of_uint (Nat.to_uint (length f))) = Some size
         /\ header = name ++ [0] ++ size
                       ++ replicate (128 - length (name ++ [0] ++ size)) 0.
Proof.
  destruct (ymodem_header_shape _ _ _ Hheader) as [Hlen Hshape].
  unfold ymodem_send, fresh, _write. rewrite Hheader.
  cbn [clock tx rx arrivals saved].
  replace (nblocks_y f + 2 + fuel)%nat with (S (nblocks_y f + 1 + fuel)) by lia.
  rewrite (wait_receiver_y_prompt _ _ _ _ 0), await_ack_prompt.
  replace (S (nblocks_y f + 1 + fuel)) with (nblocks_y f + 2 + fuel)%nat by lia.
  rewrite (send_blocks_y_exact (nblocks_y f)) by reflexivity.
  unfold write. cbn [clock tx rx arrivals saved].
  replace (nblocks_y f + 2 + fuel)%nat with (S (nblocks_y f + 1 + fuel)) by lia.
  rewrite await_ack_prompt.
  eexists. split; [reflexivity|]. cbn [tx]. split; [|split; [|split]].
  - rewrite !raw_writes_app, raw_writes_map_Raw. cbn [raw_writes app].
    pose proof (frames_from_y_frame_y (nblocks_y f) 0 f) as Hf.
    rewrite Nat.mul_0_r, drop_0 in Hf. change (Z.of_nat (0 + 1) mod 256) with 1 in Hf.
    rewrite Hf. unfold header_packet. rewrite land_255, app_nil_r. reflexivity.
  - apply last_snoc.
  - exact Hlen.
  - exact Hshape.
Qed.

Lemma ymodem_send_framing_witness :
  exists header l,
    ymodem_header "GAME.BIN" (length file150) = Some header
    /\ ymodem_send (nblocks_y file150 + 2 + 0) "GAME.BIN" (Some file150)
         (fresh ([67] :: [ACK] :: replicate (nblocks_y file150) [ACK] ++ [[ACK]]))
       = Returned l
    /\ raw_writes (tx l) = [header_packet header; frame_y file150 0; [EOT]].
Proof.
  eexists.
  destruct (ymodem_send_framing file150 "GAME.BIN" _ 0 eq_refl) as (l & Hl & Hraw & _).
  exists l. split; [reflexivity|]. split; [exact Hl | exact Hraw].
Defined.

Lemma encode_ascii_length (s : string) (codes : list Z) :
  encode_ascii s = Some codes -> length codes = String.length s.
Proof.
  unfold encode_ascii. destruct (forallb _ _); [|discriminate].
  intros [= <-]. rewrite length_map. induction s as [|a s IH]; [reflexivity|].
  cbn. now rewrite IH.
Qed.

Lemma decimal_nonempty (n : nat) :
  (1 <= String.length (NilZero.string_of_uint (Nat.to_uint n)))%nat.
Proof.
  unfold NilZero.string_of_uint.
  destruct (Nat.to_uint n); cbn; lia.
Qed.

(** X10. A name of 127 characters or more leaves no room for the NUL and the size
    in the 128-byte header: ymodem_send reports an error and sends no byte,
    whoever is listening. *)
Theorem ymodem_send_name_too_long
    (f : list Z) (fname : string) (fuel : nat) (l : line)
    (Hlong : (127 <= String.length fname)%nat) :
  ymodem_send fuel fname (Some f) l
  = Returned (Line (rx l) (arrivals l)
                (tx l ++ [Say (YmodemSendBanner fname (length f)); Say YmodemError])
                (clock l) (saved l)).
Proof.
  unfold ymodem_send.
  assert (ymodem_header fname (length f) = None) as ->.
  { unfold ymodem_header.
    destruct (encode_ascii fname) as [name|] eqn:En; [|reflexivity].
    destruct (encode_ascii (NilZero.string_of_uint _)) as [size|] eqn:Es; [|reflexivity].
    apply encode_ascii_length in En, Es.
    pose proof (decimal_nonempty (length f)).
    assert ((128 <? length (name ++ [0%Z] ++ size))%nat = true) as ->; [|reflexivity].
    apply Nat.ltb_lt. rewrite !length_app. cbn [length]. lia. }
  unfold _write. cbn [clock tx rx arrivals saved]. rewrite <- app_assoc. reflexivity.
Qed.

Lemma ymodem_send_name_too_long_witness :
  raw_writes (match ymodem_send 10 (String.concat "" (replicate 127 "A")) (Some file150)
                      (fresh [[67]; [ACK]]) with
              | Returned l => tx l
              | _ => [Raw []]
              end) = [].
Proof.
  rewrite (ymodem_send_name_too_long file150 (String.concat "" (replicate 127 "A")) 10
             (fresh [[67]; [ACK]])) by (vm_compute; lia).
  reflexivity.
Defined.

End TransferFailures.

(** * Further properties of the bridge component *)

Section BridgeSessions.
Import Text Hub Bridge Loop Sessions.
Local Open Scope Z_scope.

Lemma open_requested_keeps_prompt_ok
    (nt : bool) (try_open : nat -> open_result) (s : session) (v : values) (pn : Z) (h : hub) :
  stage s = 6%nat -> filled_up_to 6 v = true -> values_ok v = true ->
  prompt_ok (after (open_requested nt try_open s v pn h)) = true
  /\ (stage (after (open_requested nt try_open s v pn h)) = 6%nat
      \/ stage (after (open_requested nt try_open s v pn h)) = 0%nat)
  /\ active_ports (after (open_requested nt try_open s v pn h)) = active_ports s
  /\ surrendered_ports (after (open_requested nt try_open s v pn h))
     = surrendered_ports s.
Proof.
  intros Hst Hf Hv. unfold open_requested.
  destruct (data_bits v), (parity v), (stop_bits v), (baud v), (xonxoff v), (rtscts v);
    try destruct (open_loop 6 0 try_open) as [[ser|] naps];
    unfold open_failed, prompt_ok;
    cbn [after set_stage set_vals stage vals Nat.leb andb active_ports surrendered_ports];
    rewrite ?Hst, ?Hv; cbn [Nat.leb andb];
    try (rewrite Hf; cbn [andb]; split; [reflexivity | split; [left; reflexivity|]]);
    try (split; [reflexivity | split; [right; reflexivity|]]);
    split; reflexivity.
Qed.

(** X11. A session made by create_session never makes handle_input fail with a
    missing key, whatever is typed and however the open attempts go: the
    stage stays within 0..6, every field of an earlier stage is stored, and
    the stored values are within the options (port number positive, 7 or 8
    data bits, 1 or 2 stop bits, parity O, E or N).  Each call leaves the
    stage where it is, moves it on by one, or takes it back to 0. *)
Theorem handle_input_keeps_prompt_ok
    (nt : bool) (try_open : nat -> open_result) (s : session) (line_str : string) (h : hub)
    (Hok : prompt_ok s = true) :
  exists e : effect,
    handle_input nt try_open s line_str h = Some e
    /\ prompt_ok (after e) = true
    /\ (stage (after e) = stage s \/ stage (after e) = S (stage s)
        \/ stage (after e) = 0%nat)
    /\ active_ports (after e) = active_ports s
    /\ surrendered_ports (after e) = surrendered_ports s.
Proof.
  destruct s as [st v a su]. unfold prompt_ok in Hok. cbn [stage vals] in Hok.
  apply andb_prop in Hok as [Hok Hv]. apply andb_prop in Hok as [Hst Hf].
  apply Nat.leb_le in Hst.
  destruct v as [pn bd db sb par xo rt].
  unfold values_ok in Hv. cbn [port_num data_bits stop_bits parity] in Hv.
  unfold handle_input. cbn [stage vals port_num baud data_bits stop_bits parity xonxoff rtscts].
  destruct st as [|[|[|[|[|[|[|st]]]]]]]; [ | | | | | | | lia].
  all: unfold filled_up_to in Hf;
       cbn [port_num baud data_bits stop_bits parity xonxoff rtscts Nat.ltb Nat.leb orb andb] in Hf.
  all: split_andb.
  1-6: repeat case_match; simplify_eq; eexists; (split; [reflexivity|]);
       unfold advance, again, prompt_ok, filled_up_to, values_ok;
       cbn [after stage vals port_num baud data_bits stop_bits parity xonxoff rtscts
            active_ports surrendered_ports Nat.ltb Nat.leb orb andb];
       repeat match goal with
              | H : is_Some ?x |- _ => destruct H as [? ->]
              | H : ?b = true |- context [?b] => rewrite H
              | H : (?p <=? 0) = false |- context [0 <? ?p] =>
                  replace (0 <? p) with true by lia
              end;
       cbn [andb orb bool_decide];
       rewrite ?bool_decide_eq_true_2 by eauto;
       try rewrite Hv; cbn [andb orb];
       (split; [try reflexivity|split; [auto|split; reflexivity]]).
  destruct H3 as [p ->].
  assert (forall r : bool,
            filled_up_to 6 (Values (Some p) bd db sb par xo (Some r)) = true) as Hfill.
  { intros r. unfold filled_up_to.
    cbn [port_num baud data_bits stop_bits parity xonxoff Nat.ltb Nat.leb orb].
    rewrite !bool_decide_eq_true_2 by eauto. reflexivity. }
  assert (forall r : bool,
            values_ok (Values (Some p) bd db sb par xo (Some r)) = true) as Hval.
  { intros r. unfold values_ok. cbn [port_num data_bits stop_bits parity].
    rewrite H, H2, H1, H0. reflexivity. }
  pose proof (fun r => open_requested_keeps_prompt_ok nt try_open
                         (Session 6 (Values (Some p) bd db sb par xo rt) a su)
                         _ p h eq_refl (Hfill r) (Hval r)) as Hopen.
  destruct (first_char (upper (strip line_str))) as [c|].
  - destruct (Ascii.eqb c "Y");
      [|destruct (Ascii.eqb c "N")].
    + eexists. split; [reflexivity|]. destruct (Hopen true) as (? & [?|?] & ? & ?); auto.
    + eexists. split; [reflexivity|]. destruct (Hopen false) as (? & [?|?] & ? & ?); auto.
    + eexists. split; [reflexivity|]. unfold again, prompt_ok, filled_up_to, values_ok.
      cbn [after stage vals port_num baud data_bits stop_bits parity xonxoff
           active_ports surrendered_ports Nat.ltb Nat.leb orb andb].
      rewrite !bool_decide_eq_true_2, H, H2, H1, H0 by eauto. auto.
  - eexists. split; [reflexivity|]. destruct (Hopen false) as (? & [?|?] & ? & ?); auto.
Qed.

Lemma handle_input_keeps_prompt_ok_witness :
  prompt_ok prompting = true
  /\ exists e, handle_input false (fun _ => Refused) prompting " 12 " com3_open = Some e
               /\ prompt_ok (after e) = true.
Proof.
  split; [reflexivity|].
  destruct (handle_input_keeps_prompt_ok false (fun _ => Refused) prompting " 12 "
              com3_open eq_refl) as (e & He & Hok & _).
  exists e. split; [exact He | exact Hok].
Defined.

(** X12. Until the last prompt is answered handle_input only talks: in stages 0
    to 5 (and in any stage beyond 6) it neither opens nor closes a port, and
    leaves ACTIVE_PORTS and SURRENDERED_PORTS as they are. *)
Theorem handle_input_prompts_leave_registry
    (nt : bool) (try_open : nat -> open_result) (s : session) (line_str : string) (h : hub)
    (Hstage : stage s <> 6%nat) :
  exists e : effect,
    handle_input nt try_open s line_str h = Some e
    /\ reg e = h /\ act e = NoAction /\ backoffs e = 0%nat.
Proof.
  destruct s as [st v a su]. cbn [stage] in Hstage.
  unfold handle_input. cbn [stage vals].
  destruct st as [|[|[|[|[|[|[|st]]]]]]]; try congruence;
    repeat case_match; eexists; (split; [reflexivity|]);
    unfold advance, again; cbn [reg act backoffs]; auto.
Qed.

Lemma handle_input_prompts_leave_registry_witness :
  exists e, handle_input false (fun _ => Opened 9%nat) prompting "3" com3_open = Some e
            /\ reg e = com3_open.
Proof.
  destruct (handle_input_prompts_leave_registry false (fun _ => Opened 9%nat) prompting
              "3" com3_open) as (e & He & Hreg & _).
  - discriminate.
  - exists e. split; [exact He | exact Hreg].
Defined.

(** *** Opening the bridge *)

Lemma open_loop_first_success (n : nat) :
  forall (k i : nat) (try_open : nat -> open_result) (ser : handle),
    (k < n)%nat ->
    (forall j, (j < k)%nat -> try_open (i + j)%nat = Refused) ->
    try_open (i + k)%nat = Opened ser ->
    open_loop n i try_open = (Some ser, k).
Proof.
  induction n as [|n IH]; intros k i try_open ser Hk Hbefore Hat; [lia|].
  cbn [open_loop]. destruct k as [|k].
  - rewrite Nat.add_0_r in Hat. now rewrite Hat.
  - assert (try_open i = Refused) as ->
      by (rewrite <- (Nat.add_0_r i); apply Hbefore; lia).
    rewrite (IH k (S i) try_open ser); [reflexivity | lia | | ].
    + intros j Hj. replace (S i + j)%nat with (i + S j)%nat by lia. apply Hbefore. lia.
    + replace (S i + k)%nat with (i + S k)%nat by lia. exact Hat.
Qed.

(** X13. The bridge is opened by the first of the six attempts that succeeds,
    after one 0.25 s pause per failed attempt; the session then hands the
    opened port to the hub (OPEN_BRIDGE) and the registry has gone through
    the take-over, if there was an owner, and nothing else. *)
Theorem bridge_opens_at_first_success
    (nt : bool) (try_open : nat -> open_result) (s : session) (h : hub)
    (pn b d sb : Z) (par : ascii) (x r : bool) (k : nat) (ser : handle)
    (Hk : (k < 6)%nat)
    (Hbefore : forall j, (j < k)%nat -> try_open j = Refused)
    (Hat : try_open k = Opened ser) :
  let port_name := "COM" +:+ text_of_int pn in
  let v := Values (Some pn) (Some b) (Some d) (Some sb) (Some par) (Some x) (Some r) in
  let e := open_requested nt try_open s v pn h in
  act e = OPEN_BRIDGE (SerialObj ser (port_to_open nt port_name pn)) port_name
  /\ backoffs e = k
  /\ reg e = execs (take_over_ops (set_vals v s) (upper port_name) h) h
  /\ (ACTIVE_PORTS h !! upper port_name = None -> reg e = h /\ said e = []).
Proof.
  intros port_name v e. subst e v port_name. unfold open_requested.
  cbn [data_bits parity stop_bits baud xonxoff rtscts].
  rewrite (open_loop_first_success 6 k 0 try_open ser Hk Hbefore Hat).
  cbn [act backoffs reg said].
  split; [reflexivity|split; [reflexivity|split; [reflexivity|]]].
  intros Hnone. unfold take_over_ops. rewrite Hnone.
  destruct (active_ports (set_vals _ s)); split; reflexivity.
Qed.

Lemma bridge_opens_at_first_success_witness :
  act (open_requested false (fun k => if (k <? 2)%nat then Refused else Opened 9%nat)
         prompting
         (Values (Some 3) (Some 9600) (Some 8) (Some 1) (Some "N"%char) (Some false)
            (Some false)) 3 boot)
  = OPEN_BRIDGE (SerialObj 9%nat "COM3") "COM3".
Proof.
  destruct (bridge_opens_at_first_success false
              (fun k => if (k <? 2)%nat then Refused else Opened 9%nat)
              prompting boot 3 9600 8 1 "N"%char false false 2 9%nat) as (Hact & _).
  - lia.
  - intros j Hj. destruct j as [|[|j]]; [reflexivity | reflexivity | lia].
  - reflexivity.
  - exact Hact.
Defined.

(** X14. Seven blank answers (empty or white space only) select every default:
    the bridge then asks for COM1 at 115200 baud, 8 data bits, 1 stop bit,
    no parity, no flow control. *)
Theorem blank_answers_select_defaults
    (nt : bool) (try_open : nat -> open_result) (lines : list string) (h : hub)
    (Hseven : length lines = 7%nat)
    (Hblank : Forall (fun l => strip l = "") lines) :
  answer nt try_open lines prompting h
  = Some (open_requested nt try_open
            (Session 6 (Values (Some 1) (Some 115200) (Some 8) (Some 1)
                          (Some "N"%char) (Some false) None) true true)
            defaults 1 h).
Proof.
  destruct lines as [|l0 [|l1 [|l2 [|l3 [|l4 [|l5 [|l6 [|l7 lines]]]]]]]];
    try discriminate Hseven.
  repeat match goal with
         | H : Forall _ (_ :: _) |- _ => apply Forall_cons in H as [? H]
         end.
  unfold prompting, create_session. cbn [fst answer].
  do 6 (unfold handle_input at 1; cbn [stage vals active_ports surrendered_ports];
        match goal with
        | H : strip ?l = _ |- context [strip ?l] => rewrite H; clear H
        end;
        rewrite ?bool_decide_eq_true_2 by reflexivity;
        cbn [upper first_char]; unfold advance at 1;
        cbn [after reg port_num baud data_bits stop_bits parity xonxoff rtscts]).
  unfold handle_input. cbn [stage vals active_ports surrendered_ports].
  match goal with
  | H : strip ?l = _ |- context [strip ?l] => rewrite H; clear H
  end.
  reflexivity.
Qed.

Lemma blank_answers_select_defaults_witness :
  answer false (fun _ => Refused) [""; " "; ""; "  "; ""; ""; ""] prompting boot
  = Some (open_requested false (fun _ => Refused)
            (Session 6 (Values (Some 1) (Some 115200) (Some 8) (Some 1)
                          (Some "N"%char) (Some false) None) true true)
            defaults 1 boot).
Proof.
  apply blank_answers_select_defaults; [reflexivity|].
  repeat constructor.
Defined.

(** *** Hanging up a bridge *)

(** X15. ATH handled by the runtime session closes the bridged port, forgets it,
    asks for the menu, forwards nothing, and removes from the surrendered set
    the upper-cased name under which the bridged port was opened (the [port]
    attribute of the serial object) -- that name and no other. *)
Theorem ath_closes_and_restores
    (r : runtime) (bs : Serial) (line_str : string) (raw : option (list Z)) (h : hub)
    (Hbs : bridge_serial r = Some bs)
    (Hath : upper (strip line_str) = "ATH")
    (Hport : port bs <> "")
    (Hset : r_surrendered_ports r = true) :
  exists h',
    handle_input_runtime r line_str raw h = (GoMenu, drop_bridge r, h')
    /\ SURRENDERED_PORTS h' = SURRENDERED_PORTS h ∖ {[upper (port bs)]}
    /\ ACTIVE_PORTS h' = ACTIVE_PORTS h
    /\ closed h' = {[ident bs]} ∪ closed h
    /\ sent h' = sent h.
Proof.
  unfold handle_input_runtime. rewrite Hbs, (bool_decide_eq_true_2 _ Hath), Hset.
  rewrite (bool_decide_eq_false_2 _ Hport). cbn [negb andb].
  destruct (decide (SURRENDERED_PORTS h = ∅)) as [He|He].
  - rewrite (bool_decide_eq_true_2 _ He). cbn [negb andb].
    eexists. split; [reflexivity|]. cbn. repeat split. rewrite He.
    symmetry. apply difference_disjoint_L, disjoint_empty_l.
  - rewrite (bool_decide_eq_false_2 _ He). cbn [negb andb].
    destruct (decide (upper (port bs) ∈ SURRENDERED_PORTS h)) as [Hin|Hin].
    + rewrite (bool_decide_eq_true_2 _ Hin).
      eexists. split; [reflexivity|]. cbn. repeat split.
      apply set_eq. intros x. rewrite !elem_of_union, elem_of_singleton. tauto.
    + rewrite (bool_decide_eq_false_2 _ Hin).
      eexists. split; [reflexivity|]. cbn. repeat split.
      symmetry. apply difference_disjoint_L, disjoint_singleton_r, Hin.
Qed.

Lemma ath_closes_and_restores_witness :
  exists h',
    handle_input_runtime bridge_to_com3 " ath" None com3_bridged
      = (GoMenu, drop_bridge bridge_to_com3, h')
    /\ SURRENDERED_PORTS h' = SURRENDERED_PORTS com3_bridged ∖ {["COM3"]}.
Proof.
  destruct (ath_closes_and_restores bridge_to_com3 (SerialObj 9%nat "COM3") " ath" None
              com3_bridged eq_refl eq_refl) as (h' & Hr & Hs & _).
  - discriminate.
  - reflexivity.
  - exists h'. split; [exact Hr | exact Hs].
Defined.

(** X16. On Windows a port numbered 10 or more is opened under the name
    [\\.\\COMn]; ATH then looks for that name in the surrendered set, so the
    entry COMn made by the take-over stays: the worker of COMn is not
    released by hanging up. *)
Theorem ath_does_not_restore_high_ports
    (pn : Z) (ser : handle) (line_str : string) (raw : option (list Z)) (h : hub)
    (Hpn : 10 <= pn)
    (Hath : upper (strip line_str) = "ATH")
    (Hsur : surrendered (upper ("COM" +:+ text_of_int pn)) h) :
  let port_name := "COM" +:+ text_of_int pn in
  let bs := SerialObj ser (port_to_open true port_name pn) in
  let r := create_runtime_session bs port_name true true in
  surrendered (upper port_name) (handle_input_runtime r line_str raw h).2.
Proof.
  intros port_name bs r.
  assert (port bs = "\\.\\" +:+ port_name) as Hname.
  { unfold bs, port_to_open. cbn [port andb].
    now assert ((10 <=? pn) = true) as -> by lia. }
  destruct (ath_closes_and_restores r bs line_str raw h eq_refl Hath) as (h' & -> & Hs & _).
  - rewrite Hname. discriminate.
  - reflexivity.
  - unfold surrendered in *. cbn [snd]. rewrite Hs, Hname.
    apply elem_of_difference. split; [exact Hsur|].
    rewrite elem_of_singleton. unfold port_name. cbn. discriminate.
Qed.

Lemma ath_does_not_restore_high_ports_witness :
  surrendered "COM12"
    (handle_input_runtime
       (create_runtime_session (SerialObj 9%nat (port_to_open true "COM12" 12)) "COM12"
          true true)
       "ATH" None (HubState ∅ {["COM12"]} ∅ [])).2.
Proof.
  apply (ath_does_not_restore_high_ports 12 9%nat "ATH" None (HubState ∅ {["COM12"]} ∅ [])).
  - lia.
  - reflexivity.
  - unfold surrendered. cbn. apply elem_of_singleton. reflexivity.
Defined.

(** *** What reaches the bridged port *)

Lemma expand_length (data : list Z) :
  length (flat_map expand data)
  = (length data + count_byte CR data + 2 * count_byte LF data)%nat.
Proof.
  unfold count_byte. induction data as [|b data IH]; [reflexivity|].
  cbn [flat_map List.filter]. rewrite length_app, IH. unfold expand.
  rewrite (Z.eqb_sym CR b), (Z.eqb_sym LF b).
  destruct (Z.eqb_spec b CR) as [->|Hcr]; [cbn; lia|].
  destruct (Z.eqb_spec b LF) as [->|Hlf]; cbn; lia.
Qed.

(** X17. Every byte typed into a live bridge is rewritten on its own: CR reaches
    the bridged port as CR LF, LF as CR LF LF, any other byte as itself; so
    the bridged device receives one byte more per CR and two more per LF
    than were typed (CR LF arrives as five bytes). *)
Theorem bridge_forwards_expanded_line_ends
    (r : runtime) (bs : Serial) (data : list Z) (h : hub)
    (Hbs : bridge_serial r = Some bs) (Hopen : ident bs ∉ closed h) :
  sent (handle_raw_input r data h).2 = sent h ++ [(ident bs, flat_map expand data)]
  /\ length (flat_map expand data)
     = (length data + count_byte CR data + 2 * count_byte LF data)%nat.
Proof.
  split; [|apply expand_length].
  unfold handle_raw_input, bs_write. rewrite Hbs, (bool_decide_eq_false_2 _ Hopen).
  cbn [snd sent]. now rewrite crlf_chain_expand.
Qed.

Lemma bridge_forwards_expanded_line_ends_witness :
  sent (handle_raw_input bridge_to_com3 [65; CR; LF; 66; LF] com3_bridged).2
  = [(9%nat, [65; CR; LF; CR; LF; LF; 66; CR; LF; LF])].
Proof.
  destruct (bridge_forwards_expanded_line_ends bridge_to_com3 (SerialObj 9%nat "COM3")
              [65; CR; LF; 66; LF] com3_bridged eq_refl) as [Hs _].
  - cbn. intros H%elem_of_singleton. discriminate H.
  - rewrite Hs. reflexivity.
Defined.

(** *** The session loop while a bridge is live *)

Lemma on_data_live (nt : bool) (try_open : nat -> open_result) (data : list Z)
    (st : state) (r : runtime) (bs : Serial) :
  cur st = COMBRIDGE -> bridge_session st = Some (Live r) ->
  bridge_serial r = Some bs -> ident bs ∉ closed (process st) ->
  on_data nt try_open data st
  = Continue (State (ser st) COMBRIDGE (tcp_sock st) (Some (Live r)) (pending_bridge st)
                (input_buffer st) (screen st ++ [Echo data]) (closed_sockets st)
                (HubState (ACTIVE_PORTS (process st)) (SURRENDERED_PORTS (process st))
                   (closed (process st))
                   (sent (process st) ++ [(ident bs, crlf_chain data)]))).
Proof.
  destruct st as [sr cu tc br pe ib sc cs pr].
  cbn [cur bridge_session process ser tcp_sock pending_bridge input_buffer screen
       closed_sockets].
  intros -> -> Hbs Hopen. unfold on_data, show.
  cbn [cur bridge_session process ser tcp_sock pending_bridge input_buffer screen
       closed_sockets].
  unfold handle_raw_input, bs_write. rewrite Hbs, (bool_decide_eq_false_2 _ Hopen).
  reflexivity.
Qed.

(** X18. While a bridge is live and its port accepts writes, nothing typed ends
    it: whatever chunks of bytes the session reads -- ATM and ATH lines
    included -- each is echoed and forwarded to the bridged port, no line is
    assembled or dispatched, and the session stays in bridge mode with the
    registry as it was. *)
Theorem live_bridge_swallows_every_command
    (nt : bool) (try_open : nat -> open_result) (chunks : list (list Z))
    (st : state) (r : runtime) (bs : Serial)
    (Hcur : cur st = COMBRIDGE) (Hbr : bridge_session st = Some (Live r))
    (Hbs : bridge_serial r = Some bs) (Hopen : ident bs ∉ closed (process st)) :
  exists st',
    feed nt try_open chunks st = Continue st'
    /\ cur st' = COMBRIDGE /\ bridge_session st' = Some (Live r)
    /\ input_buffer st' = input_buffer st
    /\ screen st' = screen st ++ map Echo chunks
    /\ sent (process st')
       = sent (process st) ++ map (fun data => (ident bs, crlf_chain data)) chunks
    /\ SURRENDERED_PORTS (process st') = SURRENDERED_PORTS (process st)
    /\ ACTIVE_PORTS (process st') = ACTIVE_PORTS (process st)
    /\ closed (process st') = closed (process st).
Proof.
  revert st Hcur Hbr Hopen. induction chunks as [|data chunks IH]; intros st Hcur Hbr Hopen.
  - exists st. cbn [feed map]. rewrite !app_nil_r. repeat split; assumption.
  - cbn [feed]. rewrite (on_data_live nt try_open data st r bs Hcur Hbr Hbs Hopen).
    edestruct IH as (st' & Hfeed & H1 & H2 & H3 & H4 & H5 & H6 & H7 & H8);
      [| | |exists st'; split; [exact Hfeed|]]; try reflexivity; try exact Hopen.
    cbn in *. rewrite H3, H4, H5, H6, H7, H8, <- !app_assoc. repeat split; assumption.
Qed.

Lemma live_bridge_swallows_every_command_witness :
  exists st',
    feed false (fun _ => Refused) [encode "ATM" ++ [CR]; encode "ath" ++ [CR; LF]]
      (State on_com1 COMBRIDGE None (Some (Live bridge_to_com3)) None [] [] ∅ com3_bridged)
      = Continue st'
    /\ cur st' = COMBRIDGE
    /\ SURRENDERED_PORTS (process st') = SURRENDERED_PORTS com3_bridged.
Proof.
  destruct (live_bridge_swallows_every_command false (fun _ => Refused)
              [encode "ATM" ++ [CR]; encode "ath" ++ [CR; LF]]
              (State on_com1 COMBRIDGE None (Some (Live bridge_to_com3)) None [] [] ∅
                 com3_bridged)
              bridge_to_com3 (SerialObj 9%nat "COM3") eq_refl eq_refl eq_refl)
    as (st' & Hf & Hc & _ & _ & _ & _ & Hs & _).
  - cbn. intros H%elem_of_singleton. discriminate H.
  - exists st'. split; [exact Hf|]. split; [exact Hc | exact Hs].
Defined.

(** X19. The one way out of a live bridge: when the bridged port no longer takes
    writes (it has been closed), the next bytes typed are echoed and lost,
    the bridge is dropped and the session shows the main menu; the bridged
    port stays in the surrendered set. *)
Theorem dead_bridge_returns_to_menu
    (nt : bool) (try_open : nat -> open_result) (data : list Z)
    (st : state) (r : runtime) (bs : Serial)
    (Hcur : cur st = COMBRIDGE) (Hbr : bridge_session st = Some (Live r))
    (Hbs : bridge_serial r = Some bs) (Hclosed : ident bs ∈ closed (process st)) :
  exists st',
    on_data nt try_open data st = Continue st'
    /\ cur st' = MENU /\ bridge_session st' = None
    /\ input_buffer st' = input_buffer st
    /\ screen st' = screen st ++ [Echo data; BridgeWriteFailed; MainMenu]
    /\ sent (process st') = sent (process st)
    /\ SURRENDERED_PORTS (process st') = SURRENDERED_PORTS (process st)
    /\ ACTIVE_PORTS (process st') = ACTIVE_PORTS (process st).
Proof.
  destruct st as [sr cu tc br pe ib sc cs pr].
  cbn [cur bridge_session process ser tcp_sock pending_bridge input_buffer screen
       closed_sockets] in *.
  subst cu br. unfold on_data, show.
  cbn [cur bridge_session process ser tcp_sock pending_bridge input_buffer screen
       closed_sockets].
  unfold handle_raw_input, bs_write. rewrite Hbs, (bool_decide_eq_true_2 _ Hclosed).
  eexists. split; [reflexivity|]. cbn. rewrite <- app_assoc. repeat split.
Qed.

Lemma dead_bridge_returns_to_menu_witness :
  exists st',
    on_data false (fun _ => Refused) (encode "DIR")
      (State on_com1 COMBRIDGE None (Some (Live bridge_to_com3)) None [] [] ∅
         (close_serial 9%nat com3_bridged)) = Continue st'
    /\ cur st' = MENU
    /\ SURRENDERED_PORTS (process st') = SURRENDERED_PORTS com3_bridged.
Proof.
  destruct (dead_bridge_returns_to_menu false (fun _ => Refused) (encode "DIR")
              (State on_com1 COMBRIDGE None (Some (Live bridge_to_com3)) None [] [] ∅
                 (close_serial 9%nat com3_bridged))
              bridge_to_com3 (SerialObj 9%nat "COM3") eq_refl eq_refl eq_refl)
    as (st' & Hf & Hc & _ & _ & _ & _ & Hs & _).
  - cbn. apply elem_of_union_l, elem_of_singleton. reflexivity.
  - exists st'. split; [exact Hf|]. split; [exact Hc | exact Hs].
Defined.

End BridgeSessions.

(** * The port worker and the input buffer *)

Section WorkerAndInput.
Import Text Hub Bridge Loop Sessions.
Local Open Scope Z_scope.

Lemma on_exception_stops (port : string) (e : exn) (w : worker) :
  at_ (on_exception port e w) = Stopped ->
  exists msg, e = SerialException msg /\ not_present msg = true.
Proof.
  unfold on_exception. destruct e as [msg|msg]; [|discriminate].
  destruct (not_present msg) eqn:Hmsg; [eauto|]. case_bool_decide; discriminate.
Qed.

Lemma step_stops (name port : string) (ev : event) (w : worker) :
  at_ (step name port ev w) = Stopped ->
  at_ w = Stopped
  \/ exists msg, not_present msg = true
                 /\ (ev = OpenFails (SerialException msg)
                     \/ ev = SessionRaises (SerialException msg)).
Proof.
  unfold step.
  destruct ev as [ser|e| |e| |o], (at_ w) eqn:Hat; cbn [at_]; intros H; auto;
    try congruence;
    try (apply on_exception_stops in H as (msg & -> & Hmsg); right; exists msg; auto; fail).
  revert H. case_bool_decide; discriminate.
Qed.

Lemma steps_stop (name port : string) (evs : list event) :
  forall w : worker,
    at_ (foldl (fun w ev => step name port ev w) w evs) = Stopped ->
    at_ w = Stopped
    \/ exists msg, not_present msg = true
                   /\ (OpenFails (SerialException msg) ∈ evs
                       \/ SessionRaises (SerialException msg) ∈ evs).
Proof.
  induction evs as [|ev evs IH]; intros w; cbn [foldl]; [auto|].
  intros H. destruct (IH _ H) as [Hw|(msg & Hmsg & Hin)].
  - destruct (step_stops _ _ _ _ Hw) as [?|(msg & Hmsg & [->| ->])]; [auto| |];
      right; exists msg; (split; [exact Hmsg|]); [left|right]; apply list_elem_of_here.
  - right. exists msg. split; [exact Hmsg|].
    destruct Hin; [left|right]; now apply list_elem_of_further.
Qed.

(** X20. A worker gives up in one way only: whatever happens to it and however
    the registry is changed by other threads, if port_worker has returned
    then serial.Serial or bridge_loop raised a SerialException whose text
    contains FileNotFoundError or cannot find the file.  No other exception
    and no state of the registry ends a worker. *)
Theorem port_worker_stops_only_on_missing_port
    (name port : string) (evs : list event) (h : hub)
    (Hstopped : at_ (port_worker name port evs h) = Stopped) :
  exists msg,
    not_present msg = true
    /\ (OpenFails (SerialException msg) ∈ evs
        \/ SessionRaises (SerialException msg) ∈ evs).
Proof.
  destruct (steps_stop name port evs _ Hstopped) as [Hw|H]; [discriminate Hw | exact H].
Qed.

Lemma port_worker_stops_only_on_missing_port_witness :
  exists msg,
    not_present msg = true
    /\ (OpenFails (SerialException msg) ∈ [Open 1%nat; SessionReturns; OpenFails port_gone]
        \/ SessionRaises (SerialException msg)
             ∈ [Open 1%nat; SessionReturns; OpenFails port_gone]).
Proof.
  apply (port_worker_stops_only_on_missing_port "IBM" "COM6"
           [Open 1%nat; SessionReturns; OpenFails port_gone] boot).
  reflexivity.
Defined.

Lemma retry_steps (name port : string) (es : list exn) :
  forall w : worker,
    at_ w = AtOpen ->
    Forall (fun e => transient e = true) es ->
    (upper port ∉ SURRENDERED_PORTS (world w)) ->
    foldl (fun w ev => step name port ev w) w (map OpenFails es)
    = Worker AtOpen (opened w) (slept w + 5 * Z.of_nat (length es)) (world w).
Proof.
  induction es as [|e es IH]; intros w Hat Htr Hfree.
  - cbn [map foldl length]. destruct w as [a o s wd]. cbn in *. subst a.
    f_equal. lia.
  - apply Forall_cons in Htr as [He Htr]. cbn [map foldl].
    assert (step name port (OpenFails e) w = Worker AtOpen (opened w) (slept w + 5) (world w))
      as ->.
    { unfold step. rewrite Hat. unfold on_exception.
      destruct e as [msg|msg]; [|reflexivity].
      cbn [transient] in He. apply negb_true_iff in He. rewrite He.
      now rewrite (bool_decide_eq_false_2 _ Hfree). }
    rewrite IH; [|reflexivity|exact Htr|exact Hfree].
    cbn [opened slept world length]. f_equal. lia.
Qed.

(** X21. While its port is not surrendered, a worker whose open keeps failing
    with anything but a missing-port error never gives up and never touches
    the registry: after n failures it is about to open again, has slept 5 s
    per failure, and ACTIVE_PORTS and SURRENDERED_PORTS are as they were. *)
Theorem port_worker_retries_every_five_seconds
    (name port : string) (es : list exn) (h : hub)
    (Htransient : Forall (fun e => transient e = true) es)
    (Hfree : upper port ∉ SURRENDERED_PORTS h) :
  port_worker name port (map OpenFails es) h
  = Worker AtOpen 0 (5 * Z.of_nat (length es)) h.
Proof.
  unfold port_worker. rewrite retry_steps; [reflexivity|reflexivity|exact Htransient|exact Hfree].
Qed.

Lemma port_worker_retries_every_five_seconds_witness :
  port_worker "IBM" "COM6" (map OpenFails [port_lost; OtherException "busy"; port_lost]) boot
  = Worker AtOpen 0 15 boot.
Proof.
  apply (port_worker_retries_every_five_seconds "IBM" "COM6"
           [port_lost; OtherException "busy"; port_lost] boot).
  - repeat constructor.
  - cbn. apply not_elem_of_empty.
Defined.

Lemma exec_keeps_surrendered (p : string) (o : op) (h : hub) :
  p ∈ SURRENDERED_PORTS h -> o <> Restore p -> p ∈ SURRENDERED_PORTS (exec o h).
Proof.
  intros Hin Ho. destruct o as [q n s|q|q|s|q|q]; cbn [exec SURRENDERED_PORTS]; auto.
  - apply elem_of_union_r, Hin.
  - apply elem_of_difference. split; [exact Hin|].
    rewrite elem_of_singleton. intros ->. now apply Ho.
Qed.

Lemma waiting_steps (name port : string) (evs : list event) :
  forall w : worker,
    at_ w = WaitRestore ->
    upper port ∈ SURRENDERED_PORTS (world w) ->
    (Elsewhere (Restore (upper port)) ∉ evs) ->
    at_ (foldl (fun w ev => step name port ev w) w evs) = WaitRestore
    /\ opened (foldl (fun w ev => step name port ev w) w evs) = opened w
    /\ upper port ∈ SURRENDERED_PORTS (world (foldl (fun w ev => step name port ev w) w evs)).
Proof.
  induction evs as [|ev evs IH]; intros w Hat Hsur Hno; cbn [foldl]; [auto|].
  apply not_elem_of_cons in Hno as [Hev Hno].
  assert (at_ (step name port ev w) = WaitRestore
          /\ opened (step name port ev w) = opened w
          /\ upper port ∈ SURRENDERED_PORTS (world (step name port ev w)))
    as (Hat' & Hop' & Hsur').
  { unfold step. rewrite Hat.
    destruct ev as [ser|e| |e| |o]; cbn [at_ opened world]; auto.
    - rewrite (bool_decide_eq_true_2 _ Hsur). cbn [at_ opened world]. auto.
    - split; [reflexivity|]. split; [reflexivity|].
      apply exec_keeps_surrendered; [exact Hsur|]. intros ->. now apply Hev. }
  destruct (IH _ Hat' Hsur' Hno) as (H1 & H2 & H3).
  rewrite H1, H2, Hop'. auto.
Qed.

(** X22. A worker whose session fails while its port is surrendered unregisters
    the port and waits.  It stays waiting, without opening anything,
    through every poll and every registry statement of other threads until
    one of them removes its port from SURRENDERED_PORTS; the poll after that
    removal sends it back to open the port. *)
Theorem surrendered_worker_waits_for_restore
    (name port msg : string) (ser : handle) (w : worker) (evs : list event)
    (Hin : at_ w = InSession ser)
    (Hmsg : not_present msg = false)
    (Hsur : upper port ∈ SURRENDERED_PORTS (world w))
    (Hnone : Elsewhere (Restore (upper port)) ∉ evs) :
  let run := foldl (fun w ev => step name port ev w) in
  let w1 := run w (SessionRaises (SerialException msg) :: evs) in
  at_ w1 = WaitRestore
  /\ opened w1 = opened w
  /\ ACTIVE_PORTS (world (run w [SessionRaises (SerialException msg)])) !! upper port = None
  /\ at_ (run w1 [Elsewhere (Restore (upper port)); Poll]) = AtOpen.
Proof.
  intros run w1.
  assert (step name port (SessionRaises (SerialException msg)) w
          = Worker WaitRestore (opened w) (slept w) (exec (Unregister (upper port)) (world w)))
    as Hfirst.
  { unfold step. rewrite Hin. unfold on_exception.
    now rewrite Hmsg, (bool_decide_eq_true_2 _ Hsur). }
  destruct (waiting_steps name port evs
              (Worker WaitRestore (opened w) (slept w)
                 (exec (Unregister (upper port)) (world w))) eq_refl Hsur Hnone)
    as (H1 & H2 & H3).
  subst w1 run. cbn [foldl]. rewrite Hfirst.
  split; [exact H1|]. split; [exact H2|]. split.
  - cbn [world exec ACTIVE_PORTS]. apply lookup_delete_eq.
  - destruct (foldl _ _ evs) as [a o s wd]. cbn [at_] in H1. subst a.
    unfold step. cbn [at_ opened slept world exec SURRENDERED_PORTS].
    rewrite bool_decide_eq_false_2; [reflexivity|].
    intros [_ Hn]%elem_of_difference. apply Hn, elem_of_singleton. reflexivity.
Qed.

Lemma surrendered_worker_waits_for_restore_witness :
  at_ (foldl (fun w ev => step "IBM" "COM3" ev w)
         (Worker (InSession 7%nat) 1 0
            (HubState {["COM3" := Owner "IBM" 7%nat]} {["COM3"]} {[7%nat]} []))
         [SessionRaises port_lost; Poll; Elsewhere (SurrenderAdd "COM4"); Poll])
  = WaitRestore.
Proof.
  destruct (surrendered_worker_waits_for_restore "IBM" "COM3"
              "ClearCommError failed (PermissionError(13, 'Access is denied.', None, 5))"
              7%nat
              (Worker (InSession 7%nat) 1 0
                 (HubState {["COM3" := Owner "IBM" 7%nat]} {["COM3"]} {[7%nat]} []))
              [Poll; Elsewhere (SurrenderAdd "COM4"); Poll])
    as (Hat & _).
  - reflexivity.
  - reflexivity.
  - cbn. apply elem_of_singleton. reflexivity.
  - intros H. repeat (apply elem_of_cons in H as [H|H]; [discriminate H|]).
    now apply elem_of_nil in H.
  - exact Hat.
Defined.

(** *** Cutting lines off the input buffer *)

Lemma partition_none (sep : Z) (buf : list Z) :
  sep ∉ buf -> partition sep buf = None.
Proof.
  induction buf as [|b buf IH]; [reflexivity|].
  intros [Hb Hbuf]%not_elem_of_cons. cbn [partition].
  destruct (Z.eqb_spec b sep) as [->|_]; [congruence|]. now rewrite IH.
Qed.

Lemma partition_first (sep : Z) (line rest : list Z) :
  sep ∉ line -> partition sep (line ++ sep :: rest) = Some (line, rest).
Proof.
  induction line as [|b line IH]; cbn [app partition].
  - now rewrite Z.eqb_refl.
  - intros [Hb Hline]%not_elem_of_cons.
    destruct (Z.eqb_spec b sep) as [->|_]; [congruence|]. now rewrite IH.
Qed.

Lemma lstrip_newlines_app (skipped rest : list Z) :
  Forall (fun b => b = CR \/ b = LF) skipped ->
  lstrip_newlines (skipped ++ rest) = lstrip_newlines rest.
Proof.
  induction 1 as [|b skipped [->| ->] _ IH]; [reflexivity| |]; cbn; exact IH.
Qed.

(** X23. The session loop cuts its buffer at the first CR whenever the buffer
    holds a CR at all -- also when an LF comes earlier, which then stays
    inside the line -- and at the first LF only when there is no CR; the
    line ends that follow the cut are dropped, so that no empty line
    follows a line.  A buffer without CR and LF gives no line. *)
Theorem next_line_cuts_at_first_cr
    (raw_line skipped rest : list Z)
    (Hline : CR ∉ raw_line)
    (Hskip : Forall (fun b => b = CR \/ b = LF) skipped)
    (Hrest : lstrip_newlines rest = rest) :
  next_line (raw_line ++ CR :: skipped ++ rest) = Some (raw_line, rest)
  /\ ((LF ∉ raw_line) -> (CR ∉ skipped) -> (CR ∉ rest) ->
      next_line (raw_line ++ LF :: skipped ++ rest) = Some (raw_line, rest))
  /\ ((LF ∉ raw_line) -> next_line raw_line = None).
Proof.
  split; [|split].
  - unfold next_line. rewrite partition_first by exact Hline.
    now rewrite lstrip_newlines_app, Hrest.
  - intros Hlf Hs Hr. unfold next_line.
    rewrite partition_none.
    + rewrite partition_first by exact Hlf. now rewrite lstrip_newlines_app, Hrest.
    + rewrite elem_of_app, elem_of_cons, elem_of_app. intros [?|[?|[?|?]]]; auto.
      discriminate.
  - intros Hlf. unfold next_line. now rewrite !partition_none.
Qed.

Lemma next_line_cuts_at_first_cr_witness :
  next_line (encode "DIR" ++ [LF] ++ encode "ATM" ++ [CR; LF; CR] ++ encode "6")
  = Some (encode "DIR" ++ [LF] ++ encode "ATM", encode "6").
Proof.
  destruct (next_line_cuts_at_first_cr (encode "DIR" ++ [LF] ++ encode "ATM") [LF; CR]
              (encode "6")) as [H _].
  - apply (bool_decide_unpack _). vm_compute. exact I.
  - constructor; [right; reflexivity|]. constructor; [left; reflexivity|]. constructor.
  - reflexivity.
  - exact H.
Defined.

Lemma parse_lines_no_line (fuel : nat) (nt : bool) (try_open : nat -> open_result)
    (st : state) :
  next_line (input_buffer st) = None -> parse_lines fuel nt try_open st = Continue st.
Proof. intros H. destruct fuel; [reflexivity|]. cbn [parse_lines]. now rewrite H. Qed.

(** X24. Bytes that complete no line are only echoed and kept: outside a live
    bridge and a connected BBS, as long as the buffer and the bytes read
    hold neither CR nor LF, a turn of the loop echoes the bytes, appends
    them to the buffer and does nothing else -- whatever the mode, and
    without any bound on the length of the buffer. *)
Theorem unterminated_input_is_buffered
    (nt : bool) (try_open : nat -> open_result) (data : list Z) (st : state)
    (Hmode : cur st <> COMBRIDGE)
    (Hsock : tcp_sock st = None)
    (Hcr : CR ∉ input_buffer st ++ data)
    (Hlf : LF ∉ input_buffer st ++ data) :
  on_data nt try_open data st
  = Continue (State (ser st) (cur st) None (bridge_session st) (pending_bridge st)
                (input_buffer st ++ data) (screen st ++ [Echo data])
                (closed_sockets st) (process st)).
Proof.
  destruct st as [sr cu tc br pe ib sc cs pr].
  cbn [cur bridge_session process ser tcp_sock pending_bridge input_buffer screen
       closed_sockets] in *.
  subst tc. unfold on_data, show.
  cbn [cur bridge_session process ser tcp_sock pending_bridge input_buffer screen
       closed_sockets].
  assert (forall fuel,
            parse_lines fuel nt try_open
              (State sr cu None br pe (ib ++ data) (sc ++ [Echo data]) cs pr)
            = Continue (State sr cu None br pe (ib ++ data) (sc ++ [Echo data]) cs pr))
    as Hparse.
  { intros fuel. apply parse_lines_no_line. cbn [input_buffer].
    unfold next_line. now rewrite !partition_none. }
  destruct cu; try congruence; destruct br as [[|r]|];
    unfold with_buffer;
    cbn [cur bridge_session process ser tcp_sock pending_bridge input_buffer screen
         closed_sockets];
    apply Hparse.
Qed.

Lemma unterminated_input_is_buffered_witness :
  on_data false (fun _ => Refused) (encode "AT") (start on_com1 boot)
  = Continue (State on_com1 MENU None None None (encode "AT") [MainMenu; Echo (encode "AT")]
                ∅ boot).
Proof.
  apply (unterminated_input_is_buffered false (fun _ => Refused) (encode "AT")
           (start on_com1 boot)).
  - discriminate.
  - reflexivity.
  - apply (bool_decide_unpack _). vm_compute. exact I.
  - apply (bool_decide_unpack _). vm_compute. exact I.
Defined.

End WorkerAndInput.

(** * The screen helpers and the file menu *)

Section ScreenHelpers.
Import Text Bridge Loop Screen.
Local Open Scope Z_scope.

(** One byte is one ASCII character, or nothing. *)
Lemma decode_one_byte (ch : Z) :
  decode [ch] = if (0 <=? ch) && (ch <? 128) then [ch] else [].
Proof.
  cbn [decode].
  repeat match goal with
         | |- context [if ?b then _ else _] => destruct b
         end; reflexivity.
Qed.

Lemma key_is_q (ch : Z) :
  upper (default "" (ascii_text (decode [ch]))) = "Q" <-> quits ch = true.
Proof.
  assert (forallb (fun n => Bool.eqb (bool_decide (upper (String (ascii_of_nat n) "") = "Q"))
                                     ((n =? 81) || (n =? 113))%nat)
            (seq 0 128) = true) as Htable by (vm_compute; reflexivity).
  rewrite decode_one_byte. unfold quits.
  destruct (Z.leb_spec 0 ch) as [Hlo|Hlo]; cbn [andb].
  - destruct (Z.ltb_spec ch 128) as [Hhi|Hhi].
    + cbn [ascii_text]. rewrite (proj2 (Z.leb_le 0 ch) Hlo), (proj2 (Z.ltb_lt ch 128) Hhi).
      cbn [andb option_map default].
      rewrite forallb_forall in Htable.
      specialize (Htable (Z.to_nat ch)).
      rewrite in_seq in Htable. specialize (Htable ltac:(lia)).
      apply Bool.eqb_prop in Htable.
      replace ((ch =? 81) || (ch =? 113)) with
        ((Z.to_nat ch =? 81) || (Z.to_nat ch =? 113))%nat.
      * rewrite <- Htable. split; [apply bool_decide_eq_true_2 | apply bool_decide_eq_true_1].
      * destruct (Nat.eqb_spec (Z.to_nat ch) 81), (Nat.eqb_spec (Z.to_nat ch) 113),
          (Z.eqb_spec ch 81), (Z.eqb_spec ch 113); cbn; try reflexivity; lia.
    + cbn. split; [discriminate|].
      destruct (Z.eqb_spec ch 81), (Z.eqb_spec ch 113); cbn; try discriminate; lia.
  - cbn. split; [discriminate|].
    destruct (Z.eqb_spec ch 81), (Z.eqb_spec ch 113); cbn; try discriminate; lia.
Qed.

Lemma key_is_not_q (ch : Z) :
  quits ch = false ->
  bool_decide (upper (default "" (ascii_text (decode [ch]))) = "Q") = false.
Proof.
  intros H. apply bool_decide_eq_false_2. rewrite key_is_q, H. discriminate.
Qed.

Lemma paginate_all (p : nat) (quit_msg : bool) (Hp : (0 < p)%nat) (lines : list string) :
  forall (count : nat) (ks rest : list Z),
    (count < p)%nat ->
    length ks = ((count + length lines) / p + if quit_msg then 1 else 0)%nat ->
    Forall (fun ch => quits ch = false) ks ->
    exists outs,
      paginate lines count (Z.of_nat p) quit_msg (ks ++ rest) = (DONE, outs, rest)
      /\ rows outs = lines /\ pauses outs = length ks.
Proof.
  induction lines as [|ln lines IH]; intros count ks rest Hc Hlen Hks.
  - cbn [length] in Hlen. rewrite Nat.add_0_r, Nat.div_small in Hlen by exact Hc.
    cbn [paginate]. destruct quit_msg.
    + destruct ks as [|k [|k' ks]]; try discriminate Hlen.
      apply Forall_cons in Hks as [Hk _].
      cbn [app wait_for_key]. rewrite (key_is_not_q _ Hk).
      eexists. split; [reflexivity|]. split; reflexivity.
    + destruct ks; [|discriminate Hlen].
      eexists. split; [reflexivity|]. split; reflexivity.
  - cbn [paginate]. cbn [length] in Hlen.
    destruct (Z.leb_spec (Z.of_nat p) (Z.of_nat (S count))) as [Hfull|Hnot].
    + assert (S count = p) as Hcp by lia.
      replace (count + S (length lines))%nat with (1 * p + length lines)%nat in Hlen by lia.
      rewrite Nat.div_add_l in Hlen by lia.
      destruct ks as [|k ks]; [cbn in Hlen; lia|].
      apply Forall_cons in Hks as [Hk Hks].
      cbn [app wait_for_key]. rewrite (key_is_not_q _ Hk).
      destruct (IH 0%nat ks rest Hp) as (outs & -> & Hrows & Hpauses); [|exact Hks|].
      { cbn [length] in Hlen. cbn [Nat.add]. lia. }
      eexists. split; [reflexivity|]. split.
      * cbn. unfold rows in Hrows. now rewrite Hrows.
      * unfold pauses in *. cbn. now rewrite Hpauses.
    + destruct (IH (S count) ks rest) as (outs & -> & Hrows & Hpauses); [lia| |exact Hks|].
      { rewrite Hlen. f_equal. f_equal. lia. }
      eexists. split; [reflexivity|]. split.
      * cbn. unfold rows in Hrows. now rewrite Hrows.
      * unfold pauses in *. cbn. exact Hpauses.
Qed.

(** X25. paginate_lines writes every line, in order, and asks for a key after
    each full page -- and once more at the end when quit_msg is set, so that
    a listing of exactly one page asks twice in a row.  With page_lines = p
    and n lines it reads n / p keys (one more with quit_msg); when none of
    them is Q or q it returns DONE and leaves the bytes that follow
    unread. *)
Theorem paginate_lines_shows_every_line
    (lines : list string) (p : nat) (quit_msg : bool) (ks rest : list Z)
    (Hp : (0 < p)%nat)
    (Hkeys : length ks = (length lines / p + if quit_msg then 1 else 0)%nat)
    (Hnoq : Forall (fun ch => quits ch = false) ks) :
  exists outs,
    paginate_lines lines (Z.of_nat p) quit_msg (ks ++ rest) = (DONE, outs, rest)
    /\ rows outs = lines
    /\ pauses outs = (length lines / p + if quit_msg then 1 else 0)%nat.
Proof.
  destruct (paginate_all p quit_msg Hp lines 0 ks rest Hp Hkeys Hnoq)
    as (outs & Hrun & Hrows & Hpauses).
  exists outs. rewrite <- Hkeys. auto.
Qed.

Lemma paginate_lines_shows_every_line_witness :
  exists outs,
    paginate_lines ["a"; "b"] 2 true [32; 13; 65] = (DONE, outs, [65])
    /\ rows outs = ["a"; "b"] /\ pauses outs = 2%nat.
Proof.
  apply (paginate_lines_shows_every_line ["a"; "b"] 2 true [32; 13] [65]).
  - lia.
  - reflexivity.
  - repeat constructor.
Defined.

Lemma paginate_quit (p : nat) (quit_msg : bool) (Hp : (0 < p)%nat) (lines : list string) :
  forall (count : nat) (ks : list Z) (q : Z) (rest : list Z),
    (count < p)%nat ->
    ((length ks + 1) * p <= count + length lines)%nat ->
    Forall (fun ch => quits ch = false) ks ->
    quits q = true ->
    exists outs,
      paginate lines count (Z.of_nat p) quit_msg (ks ++ q :: rest) = (QUIT, outs, rest)
      /\ rows outs = take ((length ks + 1) * p - count) lines
      /\ pauses outs = S (length ks).
Proof.
  induction lines as [|ln lines IH]; intros count ks q rest Hc Hlen Hks Hq.
  - cbn [length] in Hlen. nia.
  - cbn [paginate]. cbn [length] in Hlen.
    destruct (Z.leb_spec (Z.of_nat p) (Z.of_nat (S count))) as [Hfull|Hnot].
    + assert (S count = p) as Hcp by lia.
      destruct ks as [|k ks].
      * cbn [app wait_for_key length Nat.add].
        rewrite (bool_decide_eq_true_2 _ (proj2 (key_is_q q) Hq)).
        eexists. split; [reflexivity|]. split; [|reflexivity].
        replace (1 * p - count)%nat with 1%nat by lia. reflexivity.
      * apply Forall_cons in Hks as [Hk Hks].
        cbn [app wait_for_key]. rewrite (key_is_not_q _ Hk).
        destruct (IH 0%nat ks q rest Hp) as (outs & -> & Hrows & Hpauses);
          [cbn [length] in Hlen; nia|exact Hks|exact Hq|].
        eexists. split; [reflexivity|]. split.
        -- cbn [length].
           replace ((S (length ks) + 1) * p - count)%nat
             with (S ((length ks + 1) * p - 0))%nat by nia.
           cbn. unfold rows in Hrows. now rewrite Hrows.
        -- unfold pauses in *. cbn. now rewrite Hpauses.
    + destruct (IH (S count) ks q rest) as (outs & -> & Hrows & Hpauses);
        [lia|lia|exact Hks|exact Hq|].
      eexists. split; [reflexivity|]. split.
      * replace ((length ks + 1) * p - count)%nat
          with (S ((length ks + 1) * p - S count))%nat by nia.
        cbn. unfold rows in Hrows. now rewrite Hrows.
      * unfold pauses in *. cbn. exact Hpauses.
Qed.

(** X26. Q (or q) typed at a page break ends the listing there, whether or not
    the prompt offered it: when the keys before it are other keys, the call
    returns QUIT after exactly as many full pages as keys were read, the
    rest of the lines is not written and the bytes after the Q stay
    unread. *)
Theorem paginate_lines_stops_at_q
    (lines : list string) (p : nat) (quit_msg : bool) (ks : list Z) (q : Z) (rest : list Z)
    (Hp : (0 < p)%nat)
    (Hpages : ((length ks + 1) * p <= length lines)%nat)
    (Hnoq : Forall (fun ch => quits ch = false) ks)
    (Hq : quits q = true) :
  exists outs,
    paginate_lines lines (Z.of_nat p) quit_msg (ks ++ q :: rest) = (QUIT, outs, rest)
    /\ rows outs = take ((length ks + 1) * p) lines
    /\ pauses outs = S (length ks).
Proof.
  destruct (paginate_quit p quit_msg Hp lines 0 ks q rest Hp Hpages Hnoq Hq)
    as (outs & Hrun & Hrows & Hpauses).
  exists outs. rewrite Nat.sub_0_r in Hrows. auto.
Qed.

Lemma paginate_lines_stops_at_q_witness :
  exists outs,
    paginate_lines ["a"; "b"; "c"; "d"; "e"] 2 false [32; 113; 65] = (QUIT, outs, [65])
    /\ rows outs = ["a"; "b"; "c"; "d"] /\ pauses outs = 2%nat.
Proof.
  apply (paginate_lines_stops_at_q ["a"; "b"; "c"; "d"; "e"] 2 false [32] 113 [65]).
  - lia.
  - cbn. lia.
  - repeat constructor.
  - reflexivity.
Defined.

(** *** The two-column list *)

Lemma append_assoc (s t u : string) : (s +:+ t) +:+ u = s +:+ t +:+ u.
Proof.
  induction s as [|c s IH]; [reflexivity|].
  change (String c ((s +:+ t) +:+ u) = String c (s +:+ t +:+ u)). now rewrite IH.
Qed.

Lemma append_empty_r (s : string) : s +:+ "" = s.
Proof.
  induction s as [|c s IH]; [reflexivity|].
  change (String c (s +:+ "") = String c s). now rewrite IH.
Qed.

Lemma half_le (n : nat) : ((n + 1) / 2 <= n)%nat.
Proof.
  destruct n as [|n]; [reflexivity|].
  apply Nat.Div0.div_le_upper_bound. lia.
Qed.

Lemma half_ge (n : nat) : (n - (n + 1) / 2 <= (n + 1) / 2)%nat.
Proof.
  pose proof (Nat.div_mod_eq (n + 1) 2) as H.
  pose proof (Nat.mod_upper_bound (n + 1) 2 ltac:(lia)) as H'.
  lia.
Qed.

(** X27. two_column_list gives half as many rows as there are items (rounded
    up) and leaves no name out: the item at position k (from 0) opens row k
    with the number k+1 when it is in the first half, and otherwise closes
    row k - half with the number k+1, after the left cell filled up to
    left_pad columns.  Only an empty name in the second half is left out,
    number and all. *)
Theorem two_column_list_numbers_every_item
    (items : list string) (left_pad k : nat) (x : string)
    (Hk : items !! k = Some x) :
  let half := ((length items + 1) / 2)%nat in
  length (two_column_list items left_pad) = half
  /\ ((k < half)%nat ->
      exists tail,
        two_column_list items left_pad !! k
        = Some (fmt2 (k + 1) +:+ "] " +:+ x +:+ tail))
  /\ ((half <= k)%nat ->
      exists y,
        items !! (k - half)%nat = Some y
        /\ two_column_list items left_pad !! (k - half)%nat
           = Some (if bool_decide (x <> "")
                   then ljust left_pad (fmt2 (k - half + 1) +:+ "] " +:+ y)
                          +:+ fmt2 (k + 1) +:+ "] " +:+ x
                   else fmt2 (k - half + 1) +:+ "] " +:+ y)).
Proof.
  intros half. unfold two_column_list. fold half.
  pose proof (half_le (length items)) as Hle. fold half in Hle.
  pose proof (half_ge (length items)) as Hge. fold half in Hge.
  pose proof (lookup_lt_Some _ _ _ Hk) as Hlt.
  split; [|split].
  - rewrite length_imap, length_take. lia.
  - intros Hleft.
    assert (forall (f : nat -> string -> string),
              imap f (take half items) !! k = Some (f k x)) as Himap.
    { intros f. now rewrite list_lookup_imap, (lookup_take_lt _ _ _ Hleft), Hk. }
    destruct ((if (length (drop half items) <? length (take half items))%nat
               then drop half items ++ [""] else drop half items) !! k) as [r|] eqn:Hr;
      [destruct (decide (r <> ""))|].
    + exists (spaces (left_pad - String.length (fmt2 (k + 1) +:+ "] " +:+ x))
              +:+ fmt2 (k + 1 + half) +:+ "] " +:+ r).
      rewrite Himap, Hr, bool_decide_eq_true_2 by assumption. unfold ljust.
      now rewrite !append_assoc.
    + exists "". rewrite Himap, Hr, bool_decide_eq_false_2 by assumption.
      now rewrite append_empty_r.
    + exists "". rewrite Himap, Hr. now rewrite append_empty_r.
  - intros Hright.
    assert (k - half < half)%nat as Hrow by lia.
    destruct (lookup_lt_is_Some_2 items (k - half)%nat ltac:(lia)) as [y Hy].
    exists y. split; [exact Hy|].
    rewrite list_lookup_imap, (lookup_take_lt _ _ _ Hrow), Hy.
    cbn [fmap option_fmap option_map].
    assert ((if (length (drop half items) <? length (take half items))%nat
             then drop half items ++ [""] else drop half items) !! (k - half)%nat = Some x)
      as ->.
    { assert (drop half items !! (k - half)%nat = Some x) as Hd.
      { rewrite lookup_drop. replace (half + (k - half))%nat with k by lia. exact Hk. }
      destruct (_ <? _)%nat; [|exact Hd].
      apply lookup_app_l_Some, Hd. }
    replace (k - half + 1 + half)%nat with (k + 1)%nat by lia.
    reflexivity.
Qed.

Lemma two_column_list_numbers_every_item_witness :
  length (two_column_list ["A.TXT"; "B.TXT"; "C.TXT"] 10) = 2%nat
  /\ two_column_list ["A.TXT"; "B.TXT"; "C.TXT"] 10 !! 0%nat
     = Some " 1] A.TXT  3] C.TXT".
Proof.
  destruct (two_column_list_numbers_every_item ["A.TXT"; "B.TXT"; "C.TXT"] 10 2 "C.TXT"
              eq_refl) as (Hlen & _ & Hright).
  split; [exact Hlen|].
  destruct (Hright ltac:(cbn; lia)) as (y & Hy & Hrow).
  cbn in Hy. injection Hy as <-. exact Hrow.
Defined.

End ScreenHelpers.

Section FileMenuProperties.
Import Text FilesMenu.
Local Open Scope Z_scope.

Lemma rstrip_idem (s : string) : rstrip (rstrip s) = rstrip s.
Proof.
  induction s as [|c s IH]; [reflexivity|].
  cbn [rstrip]. destruct (rstrip s) as [|c' s'] eqn:E.
  - destruct (is_space c) eqn:Hc; [reflexivity|]. cbn [rstrip]. now rewrite Hc.
  - cbn [rstrip] in *. rewrite IH. reflexivity.
Qed.

Lemma rstrip_head (c : ascii) (s : string) :
  is_space c = false -> exists r, rstrip (String c s) = String c r.
Proof.
  intros Hc. cbn [rstrip]. destruct (rstrip s); [rewrite Hc|]; eauto.
Qed.

Lemma strip_idem (s : string) : strip (strip s) = strip s.
Proof.
  unfold strip.
  assert (lstrip (rstrip (lstrip s)) = rstrip (lstrip s)) as ->; [|apply rstrip_idem].
  induction s as [|c s IH]; [reflexivity|].
  cbn [lstrip]. destruct (is_space c) eqn:Hc; [exact IH|].
  destruct (rstrip_head c s Hc) as [r ->]. cbn [lstrip]. now rewrite Hc.
Qed.

Lemma letter_is_no_number (c : ascii) :
  int_of_text (String c "") <> None -> digit_of c <> None.
Proof.
  destruct c as [[] [] [] [] [] [] [] []]; vm_compute; congruence.
Qed.

Lemma upper_single (s : string) (c : ascii) :
  upper s = String c "" -> exists c', s = String c' "" /\ upper_char c' = c.
Proof.
  destruct s as [|c' [|c'' s]]; cbn; try discriminate.
  intros [= <-]. eauto.
Qed.

Lemma number_is_no_command (txt : string) (num : Z) :
  int_of_text txt = Some num ->
  txt <> "" /\ upper txt <> "Q" /\ upper txt <> "U" /\ upper txt <> "Y"
  /\ upper txt <> "X" /\ upper txt <> "A".
Proof.
  intros Hnum.
  assert (forall c, upper txt = String c "" -> digit_of c = None -> False) as Hno.
  { intros c (c' & -> & Hc)%upper_single Hd.
    assert (digit_of c' <> None) as Hd' by (apply letter_is_no_number; congruence).
    subst c. apply Hd'. clear -Hd.
    destruct c' as [[] [] [] [] [] [] [] []]; vm_compute in Hd |- *; congruence. }
  split; [intros ->; discriminate Hnum|].
  repeat split; intros H; apply (Hno _ H); reflexivity.
Qed.

(** X28. The number typed selects the file listed under it, with the transfer
    mode of the session: when the line reads as an integer num (blanks, a
    sign, leading zeros allowed) and the list has a num-th file, handle_input
    writes nothing, leaves the session as it is and returns the action
    MODE_SEND:name; the hub splits it at the first colon only, so it calls
    the function mode_send of the module on that same name -- also when the
    name holds a colon -- and passes the thread name to xmodem_send only.
    When the call returns and the directory can be read, the hub goes on
    with a new session over the new listing, back in XMODEM mode; when the
    call raises or the directory cannot be read, it reports a Files module
    error and leaves for the main menu. *)
Theorem file_number_selects_file
    (w : env) (sess : session) (line_str : string) (num : Z) (fname : string)
    (Hsub : sub sess = FILES_MENU)
    (Hmode : mode_ok sess = true)
    (Hnum : int_of_text line_str = Some num)
    (Hpos : 1 <= num)
    (Hfile : files sess !! Z.to_nat (num - 1) = Some fname) :
  handle_input w sess line_str
  = (Tuple (Some (transfer_mode sess +:+ "_SEND:" +:+ fname)), sess, [])
  /\ (let call := Transfer (lower (transfer_mode sess) +:+ "_send") fname
                    (bool_decide (transfer_mode sess = "XMODEM")) in
      in_files w sess line_str
      = match call_ends w, listing w with
        | Endless, _ => Stuck [call]
        | Done, Some files_list =>
            Stays (Session FILES_MENU files_list "XMODEM" (Some FILES_DIR))
              [call; Menu "XMODEM" files_list]
        | _, _ => ToMenu [call; FilesModuleError; MainMenu]
        end).
Proof.
  assert (int_of_text (strip line_str) = Some num) as Hnum'.
  { unfold int_of_text in *. now rewrite strip_idem. }
  destruct (number_is_no_command _ _ Hnum') as (H0 & HQ & HU & HY & HX & HA).
  assert (handle_input w sess line_str
          = (Tuple (Some (transfer_mode sess +:+ "_SEND:" +:+ fname)), sess, [])) as Hret.
  { unfold handle_input. rewrite Hsub.
    rewrite !bool_decide_eq_false_2 by assumption.
    rewrite Hnum'. pose proof (lookup_lt_Some _ _ _ Hfile) as Hlt.
    assert ((1 <=? num) && (num <=? Z.of_nat (length (files sess))) = true) as -> by lia.
    rewrite Hfile. cbn [default].
    unfold mode_ok in Hmode. apply bool_decide_eq_true_1 in Hmode.
    repeat (apply elem_of_cons in Hmode as [Hmode|Hmode];
            [rewrite Hmode; repeat case_bool_decide; try congruence; reflexivity|]).
    now apply elem_of_nil in Hmode. }
  split; [exact Hret|].
  cbv zeta. unfold in_files. rewrite Hret.
  unfold mode_ok in Hmode. apply bool_decide_eq_true_1 in Hmode.
  repeat (apply elem_of_cons in Hmode as [Hmode|Hmode];
          [rewrite Hmode; destruct fname, (call_ends w), (listing w); reflexivity|]).
  now apply elem_of_nil in Hmode.
Qed.

Lemma file_number_selects_file_witness :
  in_files (Env Done (Some ["C:NOTES.TXT"; "GAME.BIN"; "NEW.BIN"]))
    (Session FILES_MENU ["C:NOTES.TXT"; "GAME.BIN"] "YMODEM" (Some FILES_DIR)) " +01 "
  = Stays (Session FILES_MENU ["C:NOTES.TXT"; "GAME.BIN"; "NEW.BIN"] "XMODEM"
             (Some FILES_DIR))
      [Transfer "ymodem_send" "C:NOTES.TXT" false;
       Menu "XMODEM" ["C:NOTES.TXT"; "GAME.BIN"; "NEW.BIN"]].
Proof.
  destruct (file_number_selects_file
              (Env Done (Some ["C:NOTES.TXT"; "GAME.BIN"; "NEW.BIN"]))
              (Session FILES_MENU ["C:NOTES.TXT"; "GAME.BIN"] "YMODEM" (Some FILES_DIR))
              " +01 " 1 "C:NOTES.TXT" eq_refl eq_refl eq_refl) as [_ H].
  - lia.
  - reflexivity.
  - exact H.
Defined.

Lemma handle_input_keeps_mode_ok (w : env) (sess : session) (line_str : string) :
  mode_ok sess = true -> mode_ok (handle_input w sess line_str).1.2 = true.
Proof.
  unfold handle_input, mode_ok. intros Hmode.
  destruct (sub sess); repeat case_match;
    cbn [fst snd with_mode with_sub with_files transfer_mode];
    try exact Hmode; reflexivity.
Qed.

Lemma in_files_keeps_mode_ok (w : env) (sess sess' : session) (line_str : string)
    (said : list notice) :
  mode_ok sess = true -> in_files w sess line_str = Stays sess' said ->
  mode_ok sess' = true.
Proof.
  intros Hmode. pose proof (handle_input_keeps_mode_ok w sess line_str Hmode) as Hkeep.
  unfold in_files.
  destruct (handle_input w sess line_str) as [[r sess1] said1]. cbn [fst snd] in Hkeep.
  destruct r as [[action|]| |]; try discriminate.
  - repeat case_match; try discriminate; intros [= <- _]; try exact Hkeep.
    match goal with H : create_session _ _ _ = _ |- _ => injection H as <- _ end.
    reflexivity.
  - intros [= <- _]. exact Hkeep.
Qed.

Lemma typed_keeps_mode_ok (turns : list (env * string)) :
  forall sess sess',
    mode_ok sess = true -> typed turns sess = Some sess' -> mode_ok sess' = true.
Proof.
  induction turns as [|[w line_str] turns IH]; intros sess sess' Hmode.
  - intros [= <-]. exact Hmode.
  - cbn [typed]. destruct (in_files w sess line_str) as [sess1 said| |] eqn:E;
      try discriminate.
    apply IH. exact (in_files_keeps_mode_ok w sess sess1 line_str said Hmode E).
Qed.

(** X29. handle_input reaches its end without a return in one case only: in the
    menu, when the line is a valid file number and the transfer mode of the
    session is none of XMODEM, YMODEM and ASCII (create_session takes any
    string).  It then returns None, which the hub cannot unpack: the hub
    reports a Files module error and leaves for the main menu.  The menu
    itself never leads there: handle_input and the hub's turn keep a mode
    that is one of the three, so a session that the hub has created (in
    XMODEM mode) never falls through, whatever has been typed since.
    handle_input never changes the base directory, and changes the file
    list on the upload path only. *)
Theorem handle_input_falls_through_on_unknown_mode
    (w : env) (sess : session) (line_str : string) :
  ((handle_input w sess line_str).1.1 = Nothing
   <-> sub sess = FILES_MENU /\ mode_ok sess = false /\ valid_number sess line_str)
  /\ ((handle_input w sess line_str).1.1 = Nothing
      -> in_files w sess line_str = ToMenu [FilesModuleError; MainMenu])
  /\ (mode_ok sess = true -> mode_ok (handle_input w sess line_str).1.2 = true)
  /\ (mode_ok sess = true ->
      forall sess' said, in_files w sess line_str = Stays sess' said ->
                         mode_ok sess' = true)
  /\ (forall files_list turns sess',
        typed turns (create_session files_list "XMODEM" (Some FILES_DIR)).1 = Some sess' ->
        (handle_input w sess' line_str).1.1 <> Nothing)
  /\ base_dir (handle_input w sess line_str).1.2 = base_dir sess
  /\ (sub sess = FILES_MENU -> files (handle_input w sess line_str).1.2 = files sess).
Proof.
  assert (forall sess : session,
            (handle_input w sess line_str).1.1 = Nothing
            <-> sub sess = FILES_MENU /\ mode_ok sess = false
                /\ valid_number sess line_str) as Hiff.
  { clear sess. intros sess. unfold valid_number.
    assert (int_of_text (strip line_str) = int_of_text line_str) as Hstrip.
    { unfold int_of_text. now rewrite strip_idem. }
    assert (mode_ok sess = false
            <-> transfer_mode sess <> "XMODEM" /\ transfer_mode sess <> "YMODEM"
                /\ transfer_mode sess <> "ASCII") as Hunknown.
    { unfold mode_ok. rewrite bool_decide_eq_false, !elem_of_cons, elem_of_nil. tauto. }
    split.
    - unfold handle_input. destruct (sub sess) eqn:Hsub.
      + repeat (case_bool_decide; [discriminate|]).
        rewrite Hstrip. destruct (int_of_text line_str) as [num|] eqn:Hnum; [|discriminate].
        destruct ((1 <=? num) && (num <=? Z.of_nat (length (files sess)))) eqn:Hr;
          [|discriminate].
        cbv zeta. repeat (case_bool_decide; [discriminate|]).
        intros _. split; [reflexivity|]. split; [apply Hunknown; auto|].
        exists num. split; [reflexivity|lia].
      + case_bool_decide; [discriminate|].
        destruct (base_dir sess); [destruct (call_ends w)|]; discriminate.
    - intros (Hsub & Hmode & num & Hnum & Hrange).
      rewrite <- Hstrip in Hnum.
      destruct (number_is_no_command _ _ Hnum) as (H0 & HQ & HU & HY & HX & HA).
      apply Hunknown in Hmode as (Hx & Hy & Ha).
      unfold handle_input. rewrite Hsub, !bool_decide_eq_false_2 by assumption.
      rewrite Hnum.
      assert ((1 <=? num) && (num <=? Z.of_nat (length (files sess))) = true) as -> by lia.
      cbv zeta. rewrite ?bool_decide_eq_false_2 by assumption. reflexivity. }
  split; [apply Hiff|].
  split.
  { unfold in_files.
    destruct (handle_input w sess line_str) as [[r sess1] said1] eqn:Hret.
    cbn [fst]. intros ->.
    assert (said1 = []) as ->; [|reflexivity].
    revert Hret. unfold handle_input.
    destruct (sub sess); repeat case_match; intros [= <- <-]; try discriminate; reflexivity. }
  split; [apply handle_input_keeps_mode_ok|].
  split; [intros Hmode sess' said; apply in_files_keeps_mode_ok; exact Hmode|].
  split.
  { intros files_list turns sess' Htyped Hnothing.
    apply Hiff in Hnothing as (_ & Hbad & _).
    rewrite (typed_keeps_mode_ok turns
               (create_session files_list "XMODEM" (Some FILES_DIR)).1 sess'
               ltac:(vm_compute; reflexivity) Htyped) in Hbad.
    discriminate. }
  unfold handle_input.
  split; [|intros ->];
    destruct (sub sess); repeat case_match;
    cbn [fst snd with_mode with_sub with_files transfer_mode files base_dir];
    first [reflexivity | congruence].
Qed.

End FileMenuProperties.
